(** * QEdu report generator: a shallow embedding of [gerador.py] and [app.py]

    The development follows the two source files:
    - [Texto], [Numero], [Json]: the Python values the program manipulates
      (UTF-8 text, [int]/[float] numbers, decoded JSON payloads);
    - [Gerador]: [gerador.py] — year selection, the cached HTTP helper, the
      year-fallback fetchers, the formatting and classification helpers, the
      five report renderers and the orchestrator [gerar_todos];
    - [App]: [app.py] — code validation and the HTTP handlers;
    - [Propriedades], [Cenarios]: the vocabulary of the statements and the
      concrete runs they are tried on;
    - [Auxiliares], [Territorios]: helpers of [gerador.py] that the
      renderers call, embedded on their own;
    - [Medidas], [Exemplos]: more vocabulary, for whole runs, and more
      concrete runs.

    Numbers are IEEE-754 binary64 values (Rocq's primitive floats) or
    unbounded integers, as in Python; formatting with [.Nf] rounds the exact
    binary value to the nearest decimal, ties to even, as CPython does.

    Taken as given:
    - the network: [rede] tells, for each HTTP attempt of the process in
      turn, whether it fails or which payload it decodes to;
    - the Python runtime outside ASCII ([Unicode]) and numpy ([np]);
    - the two IDEB files as typed rows ([linha_ideb]), that is, after a
      successful [pandas.read_csv] with the columns the program reads;
    - the stretches of pure formatting of a fetched payload
      ([Formatadores]).

    Left out: the files written under [output_dir], the pauses between
    attempts, logging, and integers too large for a float (Python raises
    [OverflowError] when it formats one). *)

From Stdlib Require Import ZArith String Ascii List Floats Lia.
From stdpp Require Import gmap strings list pretty.
Import ListNotations.

Set Warnings "-inexact-float,-register-all".
Local Open Scope string_scope.
Local Open Scope Z_scope.

(* ===================================================================== *)
(** ** Text *)
(* ===================================================================== *)

Module Texto.

(** A Python [str] is modelled by the [string] of its UTF-8 bytes. A byte
    [10xxxxxx] continues the character opened by an earlier byte. *)
Definition continuacao (c : ascii) : bool :=
  let n := N_of_ascii c in ((128 <=? n) && (n <? 192))%N.

Definition comeca_continuacao (s : string) : bool :=
  match s with
  | String c _ => continuacao c
  | EmptyString => false
  end.

(** The characters of a text, each one as its UTF-8 bytes. *)
Fixpoint chars (s : string) : list string :=
  match s with
  | EmptyString => []
  | String c r =>
      let cs := chars r in
      if comeca_continuacao r
      then match cs with
           | x :: xs => String c x :: xs
           | [] => [String c EmptyString]
           end
      else String c EmptyString :: cs
  end.

(** [len(s)] counts characters, not bytes. *)
Definition py_len (s : string) : nat := length (chars s).

Fixpoint repetir (n : nat) (s : string) : string :=
  match n with
  | O => EmptyString
  | S k => s ++ repetir k s
  end.


(** [sub in s]. *)
Fixpoint contem (sub s : string) : bool :=
  match s with
  | EmptyString => String.prefix sub EmptyString
  | String _ r => String.prefix sub s || contem sub r
  end.

(** [s.replace(old, new)] for a non-empty [old]: leftmost, non-overlapping
    occurrences. [pular] counts the bytes of a matched occurrence still to
    be dropped. *)
Fixpoint replace_aux (old new : string) (pular : nat) (s : string) : string :=
  match s with
  | EmptyString => EmptyString
  | String c r =>
      match pular with
      | S k => replace_aux old new k r
      | O =>
          if String.prefix old s
          then new ++ replace_aux old new (String.length old - 1) r
          else String c (replace_aux old new O r)
      end
  end.

Definition replace (old new s : string) : string := replace_aux old new O s.

Definition ascii_entre (lo hi : N) (c : ascii) : bool :=
  let n := N_of_ascii c in ((lo <=? n) && (n <=? hi))%N.

(** The character tables of the Python runtime ([unicodedata]) outside
    ASCII: they are not part of the repository and are taken as given. Each
    function receives one non-ASCII character as its UTF-8 bytes. *)
Record Unicode := {
  u_isdigit : string -> bool;
  u_isspace : string -> bool;
  u_lower   : string -> string;
}.

(** A runtime whose tables hold nothing outside ASCII; enough for inputs
    that are ASCII themselves. *)
Definition unicode_ascii : Unicode :=
  {| u_isdigit := fun _ => false;
     u_isspace := fun _ => false;
     u_lower   := fun c => c |}.

Section ComTabelas.
Variable U : Unicode.

(** [c.isdigit()] for one character: ['0'..'9'] in ASCII. *)
Definition char_isdigit (c : string) : bool :=
  match c with
  | String a EmptyString =>
      if (N_of_ascii a <? 128)%N then ascii_entre 48 57 a else u_isdigit U c
  | _ => u_isdigit U c
  end.

(** [c.isspace()] for one character: TAB, LF, VT, FF, CR, FS, GS, RS, US
    and the space in ASCII. *)
Definition char_isspace (c : string) : bool :=
  match c with
  | String a EmptyString =>
      if (N_of_ascii a <? 128)%N
      then ascii_entre 9 13 a || ascii_entre 28 32 a
      else u_isspace U c
  | _ => u_isspace U c
  end.

Definition char_lower (c : string) : string :=
  match c with
  | String a EmptyString =>
      if (N_of_ascii a <? 128)%N
      then if ascii_entre 65 90 a
           then String (ascii_of_N (N_of_ascii a + 32)) EmptyString
           else c
      else u_lower U c
  | _ => u_lower U c
  end.

(** [s.isdigit()]: at least one character and all of them digits. *)
Definition isdigit (s : string) : bool :=
  match chars s with
  | [] => false
  | cs => forallb char_isdigit cs
  end.

Fixpoint lstrip_chars (cs : list string) : list string :=
  match cs with
  | c :: r => if char_isspace c then lstrip_chars r else cs
  | [] => []
  end.

(** [s.strip()]. *)
Definition strip (s : string) : string :=
  String.concat EmptyString
    (rev (lstrip_chars (rev (lstrip_chars (chars s))))).

(** [s.lower()]. *)
Definition lower (s : string) : string :=
  String.concat EmptyString (map char_lower (chars s)).
End ComTabelas.

End Texto.

(* ===================================================================== *)
(** ** Numbers *)
(* ===================================================================== *)

Module Numero.
Import Texto.

(** A Python number: an unbounded [int] or a binary64 [float]. *)
Inductive num :=
  | PyInt (n : Z)
  | PyFloat (x : float).

(** [float(n)]: the binary64 value nearest to the integer, ties to even.
    (Python raises [OverflowError] from 2^1024 on; such integers are outside
    the model.) *)
Definition Z2float (n : Z) : float :=
  SF2Prim (binary_normalize 53 1024 n 0 false).

Definition to_float (v : num) : float :=
  match v with
  | PyInt n => Z2float n
  | PyFloat x => x
  end.

(** Exact comparison of [m1 * 2^e1] with [m2 * 2^e2]. *)
Definition cmp_diadico (m1 e1 m2 e2 : Z) : comparison :=
  if e1 <=? e2 then m1 ?= m2 * 2 ^ (e2 - e1)
  else m1 * 2 ^ (e1 - e2) ?= m2.

Definition sinal (s : bool) (m : Z) : Z := if s then - m else m.

(** Python compares an [int] with a [float] exactly; [None] here is the
    unordered case (NaN). *)
Definition cmp_int_float (n : Z) (x : float) : option comparison :=
  match Prim2SF x with
  | S754_nan => None
  | S754_infinity s => Some (if s then Gt else Lt)
  | S754_zero _ => Some (n ?= 0)
  | S754_finite s m e => Some (cmp_diadico n 0 (sinal s (Z.pos m)) e)
  end.

Definition cmp_num (a b : num) : option comparison :=
  match a, b with
  | PyInt n, PyInt k => Some (n ?= k)
  | PyFloat x, PyFloat y =>
      if PrimFloat.ltb x y then Some Lt
      else if PrimFloat.eqb x y then Some Eq
      else if PrimFloat.ltb y x then Some Gt
      else None
  | PyInt n, PyFloat y => cmp_int_float n y
  | PyFloat x, PyInt k => option_map CompOpp (cmp_int_float k x)
  end.

Definition num_ltb (a b : num) : bool :=
  match cmp_num a b with Some Lt => true | _ => false end.
Definition num_leb (a b : num) : bool :=
  match cmp_num a b with Some Lt | Some Eq => true | _ => false end.
Definition num_gtb (a b : num) : bool := num_ltb b a.
Definition num_geb (a b : num) : bool := num_leb b a.

(** Truth value of a number: zero (of either sign) is false, NaN is true. *)
Definition num_truthy (v : num) : bool :=
  match v with
  | PyInt n => negb (n =? 0)
  | PyFloat x => negb (PrimFloat.eqb x 0)
  end.

Definition num_abs (v : num) : num :=
  match v with
  | PyInt n => PyInt (Z.abs n)
  | PyFloat x => PyFloat (PrimFloat.abs x)
  end.

(** [v * 100] with the literal [100] an [int]. *)
Definition vezes100 (v : num) : num :=
  match v with
  | PyInt n => PyInt (n * 100)
  | PyFloat x => PyFloat (x * 100)
  end.


(** [a + b] on numbers: two [int]s add exactly, otherwise both are taken
    as floats. *)
Definition num_add (a b : num) : num :=
  match a, b with
  | PyInt n, PyInt k => PyInt (n + k)
  | _, _ => PyFloat (to_float a + to_float b)
  end.

(** Nearest integer to [n / d] for [d > 0], ties to even. *)
Definition arredonda_par (n d : Z) : Z :=
  let q := n / d in
  let r := n mod d in
  match 2 * r ?= d with
  | Lt => q
  | Gt => q + 1
  | Eq => if Z.even q then q else q + 1
  end.

(** The decimal digits of [n] (non-negative) with [d] digits after the
    point. *)
Definition decimal (d : nat) (n : Z) : string :=
  let p := 10 ^ Z.of_nat d in
  let frac := pretty (Z.to_N (n mod p)) in
  let int := pretty (Z.to_N (n / p)) in
  match d with
  | O => int
  | _ => int ++ "." ++ repetir (d - String.length frac) "0" ++ frac
  end.

(** [format(x, ".df")] and, with [mais], [format(x, "+.df")] for a float. *)
Definition fixo_float (mais : bool) (d : nat) (x : float) : string :=
  let pref (s : bool) := if s then "-" else if mais then "+" else EmptyString in
  match Prim2SF x with
  | S754_nan => pref false ++ "nan"
  | S754_infinity s => pref s ++ "inf"
  | S754_zero s => pref s ++ decimal d 0
  | S754_finite s m e =>
      let n := Z.pos m * 10 ^ Z.of_nat d in
      pref s ++ decimal d (if 0 <=? e then n * 2 ^ e
                           else arredonda_par n (2 ^ (- e)))
  end.

(** The same for any number: an [int] is converted with [float(n)] first. *)
Definition fixo (mais : bool) (d : nat) (v : num) : string :=
  fixo_float mais d (to_float v).

End Numero.

(* ===================================================================== *)
(** ** Exceptions and decoded JSON *)
(* ===================================================================== *)

Module Json.
Import Texto Numero.

(** A raised Python exception: its class and [str(e)]. *)
Record exn := Exn { exn_classe : string; exn_msg : string }.

(** The outcome of code that may raise. *)
Definition res (A : Type) : Type := exn + A.
Abbreviation ok := (@inr exn _) (only parsing).
Abbreviation raise := (@inl exn _) (only parsing).

Definition res_bind {A B} (r : res A) (k : A -> res B) : res B :=
  match r with
  | inl e => inl e
  | inr a => k a
  end.

(** What [r.json()] returns: [None], [bool], [int], [float], [str], [list]
    or [dict] (keys in insertion order, each key once). *)
Inductive json :=
  | JNull
  | JBool (b : bool)
  | JInt (n : Z)
  | JFloat (x : float)
  | JStr (s : string)
  | JArr (l : list json)
  | JObj (kv : list (string * json)).

Definition tipo_de (j : json) : string :=
  match j with
  | JNull => "NoneType"
  | JBool _ => "bool"
  | JInt _ => "int"
  | JFloat _ => "float"
  | JStr _ => "str"
  | JArr _ => "list"
  | JObj _ => "dict"
  end.

(** Python truth value, as tested by [if d], [d and ...], [x or y]. *)
Definition truthy (j : json) : bool :=
  match j with
  | JNull => false
  | JBool b => b
  | JInt n => num_truthy (PyInt n)
  | JFloat x => num_truthy (PyFloat x)
  | JStr s => negb (String.eqb s EmptyString)
  | JArr l => match l with [] => false | _ => true end
  | JObj kv => match kv with [] => false | _ => true end
  end.

(** [x or y] with [y] already evaluated (the program only uses it with
    [.get] calls on the same dict and literals, which cannot fail once the
    first call succeeded). *)
Definition py_or (x y : json) : json := if truthy x then x else y.

Fixpoint assoc (k : string) (kv : list (string * json)) : option json :=
  match kv with
  | [] => None
  | (k', v) :: r => if String.eqb k k' then Some v else assoc k r
  end.

Definition sem_atributo (j : json) (attr : string) : exn :=
  Exn "AttributeError"
      ("'" ++ tipo_de j ++ "' object has no attribute '" ++ attr ++ "'").

(** [d.get(k, padrao)]: only a [dict] has the method. *)
Definition py_get (d : json) (k : string) (padrao : json) : res json :=
  match d with
  | JObj kv => ok (default padrao (assoc k kv))
  | _ => raise (sem_atributo d "get")
  end.

(** [k in d] for the payload shapes that support it without raising on a
    [str] key: [dict] (key lookup), [list] (element equal to the string),
    [str] (substring). Anything else raises [TypeError]. *)
Definition json_e_str (k : string) (j : json) : bool :=
  match j with
  | JStr s => String.eqb s k
  | _ => false
  end.

Definition py_in (k : string) (d : json) : res bool :=
  match d with
  | JObj kv => ok (match assoc k kv with Some _ => true | None => false end)
  | JArr l => ok (existsb (json_e_str k) l)
  | JStr s => ok (contem k s)
  | _ => raise (Exn "TypeError"
                  ("argument of type '" ++ tipo_de d ++ "' is not iterable"))
  end.

(** [for x in j]: the elements of a list, the keys of a dict, the
    characters of a string. *)
Definition py_iter (j : json) : res (list json) :=
  match j with
  | JArr l => ok l
  | JObj kv => ok (map (fun p => JStr (fst p)) kv)
  | JStr s => ok (map JStr (chars s))
  | _ => raise (Exn "TypeError"
                  ("'" ++ tipo_de j ++ "' object is not iterable"))
  end.

(** The number a JSON value stands for in arithmetic and comparisons
    ([True] is [1], [False] is [0]). *)
Definition como_num (j : json) : option num :=
  match j with
  | JBool b => Some (PyInt (if b then 1 else 0))
  | JInt n => Some (PyInt n)
  | JFloat x => Some (PyFloat x)
  | _ => None
  end.

(** [a > b]: numbers compare by value; the program never compares two
    strings or two lists here, so every other pairing is reported as the
    [TypeError] Python raises for mixed types. *)
Definition py_gt (a b : json) : res bool :=
  match como_num a, como_num b with
  | Some x, Some y => ok (num_gtb x y)
  | _, _ => raise (Exn "TypeError"
                     ("'>' not supported between instances of '"
                      ++ tipo_de a ++ "' and '" ++ tipo_de b ++ "'"))
  end.

End Json.

(* ===================================================================== *)
(** ** gerador.py *)
(* ===================================================================== *)

Module Gerador.
Import Texto Numero Json.

(** *** Configuration and tables *)

Definition BASE_URL : string := "https://qedu.org.br/api/v1".
Definition LINE : string := repetir 80 "=".
Definition SUBLINE : string := repetir 80 "-".

Definition CICLOS : list (string * string) :=
  [("AI", "Anos Iniciais (1º ao 5º)");
   ("AF", "Anos Finais (6º ao 9º)");
   ("EM", "Ensino Médio")].

Definition UF_CODES : list (string * (string * string)) :=
  [("11", ("Rondônia", "RO")); ("12", ("Acre", "AC")); ("13", ("Amazonas", "AM"));
   ("14", ("Roraima", "RR")); ("15", ("Pará", "PA")); ("16", ("Amapá", "AP"));
   ("17", ("Tocantins", "TO")); ("21", ("Maranhão", "MA")); ("22", ("Piauí", "PI"));
   ("23", ("Ceará", "CE")); ("24", ("Rio Grande do Norte", "RN"));
   ("25", ("Paraíba", "PB")); ("26", ("Pernambuco", "PE")); ("27", ("Alagoas", "AL"));
   ("28", ("Sergipe", "SE")); ("29", ("Bahia", "BA")); ("31", ("Minas Gerais", "MG"));
   ("32", ("Espírito Santo", "ES")); ("33", ("Rio de Janeiro", "RJ"));
   ("35", ("São Paulo", "SP")); ("41", ("Paraná", "PR")); ("42", ("Santa Catarina", "SC"));
   ("43", ("Rio Grande do Sul", "RS")); ("50", ("Mato Grosso do Sul", "MS"));
   ("51", ("Mato Grosso", "MT")); ("52", ("Goiás", "GO")); ("53", ("Distrito Federal", "DF"))].

Fixpoint uf_lookup (k : string) (t : list (string * (string * string)))
  : option (string * string) :=
  match t with
  | [] => None
  | (k', v) :: r => if String.eqb k k' then Some v else uf_lookup k r
  end.

(** *** Request parameters, cache keys and the state of a process *)

(** A value of the [params] dict: the program passes [int]s and [str]s. *)
Inductive pval :=
  | PInt (n : Z)
  | PStr (s : string).

#[global] Instance pval_eq_dec : EqDecision pval.
Proof. solve_decision. Defined.

#[global] Instance pval_countable : Countable pval.
Proof.
  refine (inj_countable'
            (fun p => match p with PInt n => inl n | PStr s => inr s end)
            (fun x => match x with inl n => PInt n | inr s => PStr s end) _).
  intros []; reflexivity.
Defined.

(** A [params] dict, in insertion order; the keys are distinct. *)
Definition params := list (string * pval).

(** [(url, tuple(sorted(params.items())))]. *)
Definition chave : Type := string * list (string * pval).

Fixpoint inserir_item (it : string * pval) (l : list (string * pval))
  : list (string * pval) :=
  match l with
  | [] => [it]
  | x :: r =>
      if String.leb (fst it) (fst x) then it :: l else x :: inserir_item it r
  end.

(** [sorted(params.items())]: the keys being distinct, the order of the
    pairs is the order of their keys. *)
Definition sorted_items (p : params) : list (string * pval) :=
  foldr inserir_item [] p.

Definition cache_key (url : string) (p : params) : chave :=
  (url, sorted_items p).

(** One call of [requests.get]. *)
Record pedido := Pedido { ped_url : string; ped_params : params }.

(** The mutable state of the process that the model follows: the module
    global [_FETCH_CACHE] and, as a ghost, the HTTP requests issued so far,
    oldest first. *)
Record mundo := Mundo {
  _FETCH_CACHE : gmap chave json;
  pedidos : list pedido;
}.

Definition mundo_inicial : mundo := Mundo ∅ [].

(** *** The reference tables *)

(** A row of the IDEB tables as [pandas.read_csv] delivers it, restricted to
    the columns the program reads. *)
Record linha_ideb := LinhaIdeb {
  codigo_ibge : string;
  indicador_municipio : string;
  indicador_uf : string;
  esfera : string;
  segmento : string;
  indicador_tipo_nome : string;
  ano : Z;
  valor_numerico : float;
}.

(** *** What the program takes from its environment *)

Record Ambiente := {
  (** [datetime.now().year] when the module is loaded. *)
  ANO_ATUAL : Z;
  (** [datetime.now().strftime('%d/%m/%Y %H:%M')] and
      [datetime.now().isoformat()]; the clock is read as one instant. *)
  agora : string;
  agora_iso : string;
  (** The outcome of the [n]-th HTTP attempt of the process (counting from
      0) for a URL and parameters: the decoded payload, or [None] when
      [requests.get], [raise_for_status] or [r.json()] raises. *)
  rede : nat -> string -> params -> option json;
  (** The character tables of the runtime. *)
  unicode : Unicode;
  (** [numpy], when installed: [float(np.polyfit(anos, valores, 1)[0])]. *)
  np : option (list Z -> list float -> res float);
  (** The two IDEB files, when they exist: municipalities and states. *)
  IDEB_MUN_CSV : option (list linha_ideb);
  IDEB_UF_CSV : option (list linha_ideb);
}.

(** *** Stateful computations that may raise *)

Definition M (A : Type) : Type := mundo -> res A * mundo.

Definition ret {A} (a : A) : M A := fun w => (ok a, w).

Definition bind {A B} (m : M A) (k : A -> M B) : M B :=
  fun w =>
    match m w with
    | (inl e, w') => (inl e, w')
    | (inr a, w') => k a w'
    end.

Definition lift {A} (r : res A) : M A := fun w => (r, w).

Notation "x <- m ; k" := (bind m (fun x => k))
  (at level 20, m at level 100, k at level 200, only parsing).
Notation "' p <- m ; k" := (bind m (fun x => let 'p := x in k))
  (at level 20, p pattern, m at level 100, k at level 200, only parsing).
Notation "x <-! r ; k" := (res_bind r (fun x => k))
  (at level 20, r at level 100, k at level 200, only parsing).
Notation "' p <-! r ; k" := (res_bind r (fun x => let 'p := x in k))
  (at level 20, p pattern, r at level 100, k at level 200, only parsing).

Section ComAmbiente.
Variable E : Ambiente.

(** [str(codigo).strip() in UF_CODES]. *)
Definition is_estado (codigo : string) : bool :=
  match uf_lookup (strip (unicode E) codigo) UF_CODES with
  | Some _ => true
  | None => false
  end.

(** *** Candidate years *)

(** [[ANO_ATUAL - i for i in range(n)]]. *)
Definition _anos_candidatos (n : Z) : list Z :=
  map (fun i => ANO_ATUAL E - Z.of_nat i) (seq 0 (Z.to_nat n)).

Definition _anos_saeb : list Z :=
  let a := if ANO_ATUAL E mod 2 =? 1 then ANO_ATUAL E else ANO_ATUAL E - 1 in
  map (fun i => a - 2 * Z.of_nat i) (seq 0 5).

(** *** HTTP with the per-run cache *)

Definition _clear_cache (w : mundo) : mundo := Mundo ∅ (pedidos w).

Definition registrar (url : string) (p : params) (w : mundo) : mundo :=
  Mundo (_FETCH_CACHE w) (pedidos w ++ [Pedido url p]).

Definition guardar (k : chave) (r : json) (w : mundo) : mundo :=
  Mundo (<[k := r]> (_FETCH_CACHE w)) (pedidos w).

(** The [for i in range(tentativas)] loop with [restantes] iterations to
    go. An attempt that raises on the last iteration stores [None]; the
    pause between attempts ([time.sleep]) has no effect on the state. *)
Fixpoint tentar (url : string) (p : params) (k : chave) (restantes : nat)
         (w : mundo) : json * mundo :=
  match restantes with
  | O => (JNull, w)
  | S n =>
      let w1 := registrar url p w in
      match rede E (length (pedidos w)) url p with
      | Some result => (result, guardar k result w1)
      | None =>
          match n with
          | O => (JNull, guardar k JNull w1)
          | S _ => tentar url p k n w1
          end
      end
  end.

(** [fetch_json(url, params, tentativas)]; it never raises. *)
Definition fetch_json (url : string) (p : params) (tentativas : Z) : M json :=
  fun w =>
    let k := cache_key url p in
    match _FETCH_CACHE w !! k with
    | Some r => (ok r, w)
    | None =>
        let '(r, w') := tentar url p k (Z.to_nat tentativas) w in (ok r, w')
    end.

(** *** Year-fallback fetchers *)

(** [[ano] if ano else _anos_candidatos()]. *)
Definition anos_a_tentar (ano : option Z) : list Z :=
  match ano with
  | Some a => if a =? 0 then _anos_candidatos 6 else [a]
  | None => _anos_candidatos 6
  end.

Definition url_censo : string := BASE_URL ++ "/censo/territorios/matriculas".

Definition params_censo (ibge : string) (a dep_id loc oferta : Z) : params :=
  [("ibge_id", PStr ibge); ("ano", PInt a); ("dependencia_id", PInt dep_id);
   ("localizacao_id", PInt loc); ("oferta_id", PInt oferta)].

(** [d and d.get("censo")], as a truth value. *)
Definition censo_presente (d : json) : res bool :=
  if truthy d then c <-! py_get d "censo" JNull ; ok (truthy c)
  else ok false.

Fixpoint fetch_censo_em (ibge : string) (dep_id loc oferta : Z)
         (anos : list Z) : M (json * Z) :=
  match anos with
  | [] => ret (JNull, 0)
  | a :: r =>
      d <- fetch_json url_censo (params_censo ibge a dep_id loc oferta) 3 ;
      tem <- lift (censo_presente d) ;
      if tem : bool then ret (d, a) else fetch_censo_em ibge dep_id loc oferta r
  end.

Definition fetch_censo (ibge : string) (dep_id : Z) (ano : option Z)
           (loc oferta : Z) : M (json * Z) :=
  fetch_censo_em ibge dep_id loc oferta (anos_a_tentar ano).

Definition url_infra (ibge : string) : string :=
  BASE_URL ++ "/infra/" ++ ibge ++ "/comparativo".

Definition params_infra (a dep_id : Z) : params :=
  [("dependencia_id", PInt dep_id); ("ano", PInt a)].

(** [for it in ...: if it.get("values"): return]. *)
Fixpoint algum_valor (its : list json) : res bool :=
  match its with
  | [] => ok false
  | it :: r =>
      v <-! py_get it "values" JNull ;
      if truthy v then ok true else algum_valor r
  end.

(** [for s in d: for it in s.get("items", []): ...]. *)
Fixpoint alguma_secao (secs : list json) : res bool :=
  match secs with
  | [] => ok false
  | s :: r =>
      items <-! py_get s "items" (JArr []) ;
      its <-! py_iter items ;
      b <-! algum_valor its ;
      if b : bool then ok true else alguma_secao r
  end.

(** [d and isinstance(d, list)] and some item with values. *)
Definition infra_presente (d : json) : res bool :=
  match d with
  | JArr (s :: r) => alguma_secao (s :: r)
  | _ => ok false
  end.

Fixpoint fetch_infra_em (ibge : string) (dep_id : Z) (anos : list Z)
  : M (json * Z) :=
  match anos with
  | [] => ret (JNull, 0)
  | a :: r =>
      d <- fetch_json (url_infra ibge) (params_infra a dep_id) 3 ;
      tem <- lift (infra_presente d) ;
      if tem : bool then ret (d, a) else fetch_infra_em ibge dep_id r
  end.

Definition fetch_infra (ibge : string) (dep_id : Z) (ano : option Z)
  : M (json * Z) :=
  fetch_infra_em ibge dep_id (anos_a_tentar ano).

Definition url_aprendizado (ibge : string) : string :=
  BASE_URL ++ "/aprendizado/" ++ ibge ++ "/ultimos-comparativo".

Definition params_aprendizado (dep_id : Z) (ciclo : string) : params :=
  [("dependencia_id", PInt dep_id); ("ciclo_id", PStr ciclo)].

Definition fetch_aprendizado (ibge : string) (dep_id : Z) (ciclo : string)
  : M json :=
  fetch_json (url_aprendizado ibge) (params_aprendizado dep_id ciclo) 3.

Definition get_or_vazio (kv : list (string * json)) (k : string) : json :=
  default JNull (assoc k kv).

Definition _normalizar_taxa_keys (d : json) : json :=
  match d with
  | JObj kv =>
      JObj [("municipio", py_or (get_or_vazio kv "entidade")
                            (py_or (get_or_vazio kv "municipio") (JArr [])));
            ("estado", py_or (get_or_vazio kv "parent")
                         (py_or (get_or_vazio kv "estado") (JArr [])));
            ("brasil", py_or (get_or_vazio kv "brasil") (JArr []))]
  | _ => d
  end.

Definition url_taxa (ibge : string) : string :=
  BASE_URL ++ "/taxa-rendimento/taxa-rendimento/" ++ ibge ++ "/comparacao".

Definition params_taxa (a dep_id : Z) (ciclo : string) (loc : Z) : params :=
  [("dependencia_id", PInt dep_id); ("ano", PInt a);
   ("ciclo_id", PStr ciclo); ("localizacao_id", PInt loc)].

(** [d and (d.get("entidade") or d.get("municipio") or d.get("brasil"))]. *)
Definition taxa_presente (d : json) : res bool :=
  if truthy d then
    e <-! py_get d "entidade" JNull ;
    m <-! py_get d "municipio" JNull ;
    b <-! py_get d "brasil" JNull ;
    ok (truthy (py_or e (py_or m b)))
  else ok false.

(** [for r in regs: ra = r.get("ano"); if ra and ra > ano_real: ...]. *)
Fixpoint maior_ano (regs : list json) (ano_real : json) : res json :=
  match regs with
  | [] => ok ano_real
  | r :: rest =>
      ra <-! py_get r "ano" JNull ;
      if truthy ra then
        maior <-! py_gt ra ano_real ;
        maior_ano rest (if maior : bool then ra else ano_real)
      else maior_ano rest ano_real
  end.

(** [for regs in norm.values(): if isinstance(regs, list): ...]. *)
Fixpoint maior_ano_em (valores : list json) (ano_real : json) : res json :=
  match valores with
  | [] => ok ano_real
  | JArr regs :: rest =>
      a <-! maior_ano regs ano_real ; maior_ano_em rest a
  | _ :: rest => maior_ano_em rest ano_real
  end.

Definition valores_de (d : json) : list json :=
  match d with
  | JObj kv => map snd kv
  | _ => []
  end.

Fixpoint fetch_taxa_em (ibge ciclo : string) (dep_id loc : Z)
         (anos : list Z) : M (json * json) :=
  match anos with
  | [] => ret (JNull, JInt 0)
  | a :: r =>
      d <- fetch_json (url_taxa ibge) (params_taxa a dep_id ciclo loc) 3 ;
      tem <- lift (taxa_presente d) ;
      if tem : bool then
        let norm := _normalizar_taxa_keys d in
        ano_real <- lift (maior_ano_em (valores_de norm) (JInt 0)) ;
        ret (norm, if truthy ano_real then ano_real else JInt a)
      else fetch_taxa_em ibge ciclo dep_id loc r
  end.

Definition fetch_taxa (ibge ciclo : string) (dep_id : Z) (ano : option Z)
           (loc : Z) : M (json * json) :=
  fetch_taxa_em ibge ciclo dep_id loc (anos_a_tentar ano).

(** *** IDEB tables *)

Definition _normalizar_segmento (s : string) : string :=
  let U := unicode E in
  let s := lower U (strip U s) in
  let s := replace "ê" "e" (replace "í" "i" (replace "é" "e" (replace "ã" "a" s))) in
  let s := if contem "medio" s && negb (contem "ensino" s)
           then replace "medio" "ensino medio"
                  (replace "ensino médio" "ensino medio" s)
           else s in
  let s := replace "ano iniciais" "anos iniciais" s in
  let s := replace "anos inicias" "anos iniciais" s in
  let s := replace "ano finais" "anos finais" s in
  strip U s.

Definition normalizar_linha (l : linha_ideb) : linha_ideb :=
  LinhaIdeb (codigo_ibge l) (indicador_municipio l) (indicador_uf l)
            (esfera l) (_normalizar_segmento (segmento l))
            (indicador_tipo_nome l) (ano l) (valor_numerico l).

Definition linhas_onde (f : linha_ideb -> string) (v : string)
           (df : list linha_ideb) : list linha_ideb :=
  List.filter (fun l => String.eqb (f l) v) df.

(** What [load_ideb] hands to the IDEB renderer: the rows of the entity,
    the rows of its state (absent for a state code) and the state table
    from which the national statistics are grouped. *)
Record dados_ideb := DadosIdeb {
  df_mun : list linha_ideb;
  df_uf : option (list linha_ideb);
  brasil_stats : list linha_ideb;
}.

(** [load_ideb(ibge)]; [None] stands for [(None, None, None)]. *)
Definition load_ideb (ibge : string) : option dados_ideb :=
  match IDEB_MUN_CSV E, IDEB_UF_CSV E with
  | Some mun_csv, Some uf_csv =>
      let mun_df := map normalizar_linha mun_csv in
      let uf_df := map normalizar_linha uf_csv in
      let df_mun := linhas_onde codigo_ibge ibge mun_df in
      if is_estado ibge then
        let uf_sigla := match uf_lookup ibge UF_CODES with
                        | Some (_, sigla) => sigla
                        | None => EmptyString
                        end in
        let df_estado := if String.eqb uf_sigla EmptyString then []
                         else linhas_onde indicador_uf uf_sigla uf_df in
        match df_estado with
        | [] => None
        | _ => Some (DadosIdeb df_estado None uf_df)
        end
      else
        match df_mun with
        | [] => None
        | l :: _ =>
            let uf_sigla := indicador_uf l in
            let df_uf := if String.eqb uf_sigla EmptyString then []
                         else linhas_onde indicador_uf uf_sigla uf_df in
            Some (DadosIdeb df_mun (Some df_uf) uf_df)
        end
  | _, _ => None
  end.

End ComAmbiente.

(** *** Formatting *)

Definition nl : string := String (ascii_of_nat 10) EmptyString.

(** The [val = v * 100 if abs(v) <= 1.01 else v] of [_pct], [_pp],
    [_safe_taxa] and [_classificar_taxa]. *)
Definition escala_101 (v : num) : num :=
  if num_leb (num_abs v) (PyFloat 1.01) then vezes100 v else v.

Definition _pct (v : option num) : string :=
  match v with
  | None => "sem dados"
  | Some v => fixo false 1 (escala_101 v) ++ "%"
  end.

Definition _pp (v : option num) (decimais : nat) : string :=
  match v with
  | None => "sem dados"
  | Some v => fixo true decimais (escala_101 v) ++ "pp"
  end.


Definition _slug (nome : string) : string :=
  replace "ô" "o" (replace "ê" "e" (replace "â" "a"
  (replace "ú" "u" (replace "ó" "o" (replace "í" "i"
  (replace "ç" "c" (replace "é" "e" (replace "ã" "a"
  (replace "/" "_" (replace "'" EmptyString (replace " " "_" nome))))))))))).

Definition opt_linha (rotulo : string) (v : option string) : string :=
  match v with
  | Some x => if String.eqb x EmptyString then EmptyString
              else rotulo ++ x ++ nl
  | None => EmptyString
  end.

(** [_hdr(titulo, mun, rede=..., ciclo=..., ano=..., periodo=...)]; a
    keyword argument is given already as text. *)
Definition _hdr (gerado : string) (titulo mun : string)
           (rede ciclo ano periodo : option string) : string :=
  LINE ++ nl ++ titulo ++ nl ++ LINE ++ nl ++ nl
  ++ "📍 Território: " ++ mun ++ nl
  ++ opt_linha "🏫 Rede: " rede
  ++ opt_linha "📚 Ciclo: " ciclo
  ++ opt_linha "📅 Ano de referência: " ano
  ++ opt_linha "📅 Período histórico: " periodo
  ++ "📅 Gerado em: " ++ gerado ++ nl.

Definition _footer (fonte : string) : string :=
  nl ++ nl ++ LINE ++ nl ++ "Fonte: " ++ fonte ++ nl ++ LINE ++ nl.

Definition fonte_padrao : string := "QEdu (qedu.org.br)".

(** *** Learning report: classification and the evolution table *)

Definition _classificar_desempenho (pct_adequado : option num)
  : string * string :=
  match pct_adequado with
  | None => ("Dados não disponíveis", "⚪")
  | Some v =>
      let p := if num_leb v (PyInt 1) then vezes100 v else v in
      if num_geb p (PyInt 70) then ("Bom desempenho", "✅")
      else if num_geb p (PyInt 50) then ("Desempenho intermediário", "⚠️")
      else ("Desempenho crítico - oportunidade de atuação", "🔴")
  end.







(** *** Rates report: classification *)

Definition _classificar_taxa (valor : option num) (tipo : string)
  : string * string :=
  match valor with
  | None => ("Sem dados", "⚪")
  | Some valor =>
      let v := escala_101 valor in
      if String.eqb tipo "aprovacao" then
        if num_geb v (PyInt 98) then ("Excelente", "✅")
        else if num_geb v (PyInt 95) then ("Bom", "🟢")
        else if num_geb v (PyInt 90) then ("Regular", "🟡")
        else ("Crítico", "🔴")
      else if String.eqb tipo "reprovacao" then
        if num_leb v (PyInt 1) then ("Excelente", "✅")
        else if num_leb v (PyInt 3) then ("Bom", "🟢")
        else if num_leb v (PyInt 5) then ("Regular", "🟡")
        else ("Crítico", "🔴")
      else
        if num_leb v (PyFloat 0.5) then ("Excelente", "✅")
        else if num_leb v (PyFloat 1.5) then ("Bom", "🟢")
        else if num_leb v (PyInt 3) then ("Regular", "🟡")
        else ("Crítico", "🔴")
  end.

Definition _safe_taxa (v : option num) : string :=
  match v with
  | None => "sem dados"
  | Some v => fixo false 1 (escala_101 v) ++ "%"
  end.

(** *** Trend of a series *)

(** [_trend_slope(anos, valores)] with [np] the installed numpy, if any. A
    failing [polyfit] is swallowed; the fallback indexes both lists and
    divides a float by an [int]. *)
Definition _trend_slope (np : option (list Z -> list float -> res float))
           (anos : list Z) (valores : list float) : res float :=
  let declive :=
    match valores, last valores with
    | v0 :: _, Some vn =>
        match anos, last anos with
        | a0 :: _, Some an =>
            if an - a0 =? 0
            then raise (Exn "ZeroDivisionError" "float division by zero")
            else ok ((vn - v0) / Z2float (an - a0))%float
        | _, _ => raise (Exn "IndexError" "list index out of range")
        end
    | _, _ => raise (Exn "IndexError" "list index out of range")
    end in
  if (2 <=? length anos)%nat then
    match np with
    | Some polyfit =>
        match polyfit anos valores with
        | inr s => ok s
        | inl _ => declive
        end
    | None => declive
    end
  else ok 0%float.

(** *** The parts kept abstract

    The renderers and the collector fetch first and then format what they
    fetched. The fetching, the tests that decide between data and "no data"
    and the handling of failures are modelled in full; the long stretches
    of pure formatting over a payload are taken as functions that return
    text or raise. Each field names the source lines it stands for. *)
Record Formatadores := {
  (** [_extrair_territorios], lines 479–493: the loop over a non-empty list
      payload, giving the records of the entity, of the similar group and
      of Brazil. *)
  separar_territorios :
    list json -> string -> res (list json * list json * list json);
  (** [gerar_txt_aprendizado], lines 508–736: the block of one cycle
      ([cid], [cnome]) that has records of the entity. *)
  bloco_aprendizado :
    string -> string -> string -> list json * list json * list json -> res string;
  (** [gerar_txt_infra], lines 761–881. *)
  corpo_infra : string -> json -> Z -> res string;
  (** [gerar_txt_censo], lines 899–994. *)
  corpo_censo : string -> json -> Z -> res string;
  (** [gerar_txt_ideb], lines 1051–1238: the history, insights and
      statistics of one sphere that has IDEB rows. *)
  secao_ideb :
    string -> list linha_ideb -> option (list linha_ideb) -> list linha_ideb
    -> res string;
  (** [gerar_txt_taxa], lines 1322–1328: the entry of one cycle. *)
  etapa_taxa : string -> string -> json -> json -> res json;
  (** [gerar_txt_taxa], lines 1335–1587. *)
  corpo_taxa : string -> json -> list (string * json) -> res string;
  (** [coletar_dados_estruturados], lines 1608–1623, 1632–1640, 1647–1658
      and 1666–1674. *)
  estrut_aprendizado : list json * list json * list json -> res json;
  estrut_censo : json -> Z -> res json;
  estrut_infra : json -> Z -> res json;
  estrut_taxa : string -> json -> json -> res (option json);
  (** [str(x)] for a float, a list or a dict. *)
  str_outros : json -> string;
}.

(** The aggregate [gerar_todos] returns. [arquivos] is a dict in insertion
    order. *)
Record pacote := Pacote {
  municipio : string;
  uf : json;
  ibge_de : string;
  arquivos : list (string * string);
  dados_estruturados : json;
}.

(** [d[k] = v] on a dict kept in insertion order. *)
Fixpoint dict_set {A} (k : string) (v : A) (d : list (string * A))
  : list (string * A) :=
  match d with
  | [] => [(k, v)]
  | (k', v') :: r =>
      if String.eqb k k' then (k, v) :: r else (k', v') :: dict_set k v r
  end.

Fixpoint dict_get {A} (k : string) (d : list (string * A)) : option A :=
  match d with
  | [] => None
  | (k', v) :: r => if String.eqb k k' then Some v else dict_get k r
  end.

Section Relatorios.
Variable E : Ambiente.
Variable F : Formatadores.

(** [str(x)], as an f-string interpolates it. *)
Definition py_str (j : json) : string :=
  match j with
  | JStr s => s
  | JNull => "None"
  | JBool b => if b then "True" else "False"
  | JInt n => pretty n
  | _ => str_outros F j
  end.

(** *** Name and state of the entity *)

(** The body of the inner loop of step 1 once a payload arrived. *)
Definition nome_no_payload (raw : json) : res (option (json * json)) :=
  e1 <-! py_get raw "entidade" JNull ;
  e2 <-! py_get raw "municipio" JNull ;
  let ent := py_or e1 (py_or e2 (JArr [])) in
  p1 <-! py_get raw "parent" JNull ;
  p2 <-! py_get raw "estado" JNull ;
  let par := py_or p1 (py_or p2 (JArr [])) in
  match ent with
  | JArr (ent0 :: _) =>
      rend <-! py_get ent0 "rendimento" ent0 ;
      terr <-! py_get rend "territorio" (JObj []) ;
      nome <-! py_get terr "nome" JNull ;
      sigla <-! match par with
                | JArr (par0 :: _) =>
                    rend_p <-! py_get par0 "rendimento" par0 ;
                    terr_p <-! py_get rend_p "territorio" (JObj []) ;
                    py_get terr_p "sigla" (JStr "??")
                | _ => ok (JStr "??")
                end ;
      ok (if truthy nome then Some (nome, sigla) else None)
  | _ => ok None
  end.

(** [for ano_t in _anos_candidatos(): ...] for one cycle: years without a
    payload are skipped, the first payload ends the loop. *)
Fixpoint nome_por_taxa_em (ibge ciclo : string) (anos : list Z)
  : M (option (json * json)) :=
  match anos with
  | [] => ret None
  | a :: r =>
      raw <- fetch_json E (url_taxa ibge) (params_taxa a 0 ciclo 0) 3 ;
      if truthy raw then lift (nome_no_payload raw)
      else nome_por_taxa_em ibge ciclo r
  end.

Fixpoint nome_por_taxa (ibge : string) (ciclos : list string)
  : M (option (json * json)) :=
  match ciclos with
  | [] => ret None
  | c :: r =>
      achado <- nome_por_taxa_em ibge c (_anos_candidatos E 6) ;
      match achado with
      | Some p => ret (Some p)
      | None => nome_por_taxa ibge r
      end
  end.

(** Step 2: the name inside a census payload. *)
Definition nome_no_censo (d : json) (ibge : string)
  : res (option (json * json)) :=
  if truthy d then
    tem <-! py_in "censo" d ;
    if tem : bool then
      c <-! py_get d "censo" JNull ;
      t <-! py_get c "territorio" (JObj []) ;
      if truthy t then
        n <-! py_get t "nome" JNull ;
        if truthy n then
          p <-! py_get t "parent" (JObj []) ;
          nome <-! py_get t "nome" (JStr ("IBGE_" ++ ibge)) ;
          sigla <-! (if truthy p then py_get p "sigla" (JStr "??")
                     else ok (JStr "??")) ;
          ok (Some (nome, sigla))
        else ok None
      else ok None
    else ok None
  else ok None.

(** Step 3: the first of the first 300000 rows of the municipal table
    with the code; any failure there is swallowed. *)
Definition nome_no_csv (ibge : string) : json * json :=
  match IDEB_MUN_CSV E with
  | Some df =>
      match linhas_onde codigo_ibge ibge (firstn (Z.to_nat 300000) df) with
      | l :: _ => (JStr (indicador_municipio l), JStr (indicador_uf l))
      | [] => (JStr ("IBGE_" ++ ibge), JStr "??")
      end
  | None => (JStr ("IBGE_" ++ ibge), JStr "??")
  end.

Definition descobrir_municipio (ibge : string) : M (json * json) :=
  let ibge := strip (unicode E) ibge in
  match uf_lookup ibge UF_CODES with
  | Some (nome, sigla) => ret (JStr nome, JStr sigla)
  | None =>
      por_taxa <- nome_por_taxa ibge ["AI"; "AF"] ;
      match por_taxa with
      | Some p => ret p
      | None =>
          '(d, _) <- fetch_censo E ibge 5 None 0 0 ;
          por_censo <- lift (nome_no_censo d ibge) ;
          match por_censo with
          | Some p => ret p
          | None => ret (nome_no_csv ibge)
          end
      end
  end.

(** *** The five renderers *)

(** [_extrair_territorios(dados, ibge)]. *)
Definition _extrair_territorios (dados : json) (ibge : string)
  : res (list json * list json * list json) :=
  match dados with
  | JArr (g :: gs) => separar_territorios F (g :: gs) ibge
  | _ => ok ([], [], [])
  end.

Definition titulo_aprendizado : string :=
  "RELATÓRIO COMPLETO DE APRENDIZADO - DADOS QEDU".

(** The loop of [gerar_txt_aprendizado] over the cycles, with the text
    gathered so far. *)
Fixpoint aprendizado_ciclos (ibge mun : string)
         (ciclos : list (string * string)) (txt_final : string) : M string :=
  match ciclos with
  | [] => ret txt_final
  | (cid, cnome) :: r =>
      dados <- fetch_aprendizado E ibge 5 cid ;
      terr <- lift (_extrair_territorios dados ibge) ;
      match terr with
      | ([], _, _) => aprendizado_ciclos ibge mun r txt_final
      | _ =>
          bloco <- lift (bloco_aprendizado F cid cnome mun terr) ;
          aprendizado_ciclos ibge mun r (txt_final ++ bloco)
      end
  end.

Definition gerar_txt_aprendizado (ibge mun : string) (uf : json) : M string :=
  txt_final <- aprendizado_ciclos ibge mun CICLOS EmptyString ;
  if String.eqb txt_final EmptyString then
    ret (_hdr (agora E) titulo_aprendizado mun None None None None
         ++ nl ++ "  ⚠️ Sem dados de aprendizado disponíveis." ++ nl
         ++ _footer fonte_padrao)
  else ret txt_final.

Definition titulo_infra : string :=
  "RELATÓRIO DE INFRAESTRUTURA ESCOLAR - DADOS QEDU".

Definition gerar_txt_infra (ibge mun : string) (uf : json) : M string :=
  '(dados, ano) <- fetch_infra E ibge 3 None ;
  if truthy dados then lift (corpo_infra F mun dados ano)
  else ret (_hdr (agora E) titulo_infra mun None None (Some "N/D") None
            ++ nl ++ "  ⚠️ Sem dados." ++ nl ++ _footer fonte_padrao).

Definition titulo_censo : string :=
  "RELATÓRIO DO CENSO ESCOLAR - DADOS QEDU".

Definition gerar_txt_censo (ibge mun : string) (uf : json) : M string :=
  '(dados, ano) <- fetch_censo E ibge 3 None 0 0 ;
  tem <- lift (if truthy dados then py_in "censo" dados else ok false) ;
  if tem : bool then lift (corpo_censo F mun dados ano)
  else ret (_hdr (agora E) titulo_censo mun None None None None
            ++ nl ++ "  ⚠️ Sem dados." ++ nl ++ _footer fonte_padrao).

(** [has_data]: some segment in use has a row of the IDEB indicator. *)
Definition tem_ideb (df_esf : list linha_ideb) (segs_usar : list string)
  : bool :=
  existsb (fun seg =>
             match linhas_onde indicador_tipo_nome "IDEB"
                     (linhas_onde segmento seg df_esf) with
             | [] => false
             | _ => true
             end) segs_usar.

(** [for esfera in esferas: ...]. *)
Fixpoint ideb_esferas (d : dados_ideb) (esferas : list string) (txt : string)
  : res string :=
  match esferas with
  | [] => ok txt
  | esf :: r =>
      let df_esf := linhas_onde esfera esf (df_mun d) in
      let segs_usar :=
        if String.eqb esf "municipal"
        then ["anos iniciais"; "anos finais"; "ensino medio"]
        else ["ensino medio"] in
      match df_esf with
      | [] => ideb_esferas d r txt
      | _ =>
          if tem_ideb df_esf segs_usar then
            sec <-! secao_ideb F esf df_esf (df_uf d) (brasil_stats d) ;
            ideb_esferas d r (txt ++ sec)
          else ideb_esferas d r txt
      end
  end.

Definition gerar_txt_ideb (ibge mun : string) (uf : json) : M string :=
  match load_ideb E ibge with
  | Some d =>
      let txt :=
        LINE ++ nl ++ "RELATÓRIO DE ANÁLISE IDEB" ++ nl
        ++ "Gerado em: " ++ agora E ++ nl ++ LINE ++ nl
        ++ nl ++ "📍 ESCOPO DA ANÁLISE" ++ nl ++ repetir 40 "-" ++ nl
        ++ "Município: " ++ mun ++ nl ++ "Estado: " ++ py_str uf ++ nl
        ++ "Comparativo: Município vs Estado vs Brasil" ++ nl
        ++ "Nota: Ensino Médio usa dados da rede estadual (não há IDEB municipal para EM)"
        ++ nl in
      txt <- lift (ideb_esferas d ["municipal"; "estadual"] txt) ;
      ret (txt ++ nl ++ LINE ++ nl ++ "Fim do Relatório" ++ nl)
  | None =>
      ret (_hdr (agora E) "RELATÓRIO DE ANÁLISE IDEB" mun None None None None
           ++ nl ++ "  ⚠️ Sem dados IDEB disponíveis." ++ nl
           ++ _footer "IDEB/SAEB - INEP/MEC")
  end.

Definition titulo_taxa : string :=
  "RELATÓRIO DE TAXAS DE RENDIMENTO - DADOS QEDU".

(** The first loop of [gerar_txt_taxa]: [etapas_dados] and [ano_ref]. *)
Fixpoint taxa_ciclos (ibge : string) (ciclos : list (string * string))
         (etapas_dados : list (string * json)) (ano_ref : json)
  : M (list (string * json) * json) :=
  match ciclos with
  | [] => ret (etapas_dados, ano_ref)
  | (cid, cnome) :: r =>
      '(dados, a) <- fetch_taxa E ibge cid 0 None 0 ;
      if truthy dados then
        maior <- lift (py_gt a ano_ref) ;
        let ano_ref := if maior : bool then a else ano_ref in
        etapa <- lift (etapa_taxa F cid cnome dados a) ;
        taxa_ciclos ibge r (dict_set cid etapa etapas_dados) ano_ref
      else taxa_ciclos ibge r (dict_set cid JNull etapas_dados) ano_ref
  end.

Definition gerar_txt_taxa (ibge mun : string) (uf : json) : M string :=
  '(etapas_dados, ano_ref) <- taxa_ciclos ibge CICLOS [] (JInt 0) ;
  if truthy ano_ref then lift (corpo_taxa F mun ano_ref etapas_dados)
  else ret (_hdr (agora E) titulo_taxa mun None None None None
            ++ nl ++ "  ⚠️ Sem dados." ++ nl ++ _footer fonte_padrao).

(** *** Structured data *)

Fixpoint estrut_aprendizado_ciclos (ibge : string)
         (ciclos : list (string * string)) (aprendizado : list (string * json))
  : M (list (string * json)) :=
  match ciclos with
  | [] => ret aprendizado
  | (cid, cnome) :: r =>
      raw <- fetch_aprendizado E ibge 5 cid ;
      terr <- lift (_extrair_territorios raw ibge) ;
      match terr with
      | ([], _, _) => estrut_aprendizado_ciclos ibge r aprendizado
      | _ =>
          ciclo_d <- lift (estrut_aprendizado F terr) ;
          estrut_aprendizado_ciclos ibge r (dict_set cid ciclo_d aprendizado)
      end
  end.

Fixpoint estrut_taxa_ciclos (ibge : string) (ciclos : list (string * string))
         (taxa_d : list (string * json)) : M (list (string * json)) :=
  match ciclos with
  | [] => ret taxa_d
  | (cid, cnome) :: r =>
      '(raw_t, ano_t) <- fetch_taxa E ibge cid 0 None 0 ;
      if truthy raw_t then
        reg <- lift (estrut_taxa F cnome raw_t ano_t) ;
        match reg with
        | Some d => estrut_taxa_ciclos ibge r (dict_set cid d taxa_d)
        | None => estrut_taxa_ciclos ibge r taxa_d
        end
      else estrut_taxa_ciclos ibge r taxa_d
  end.

(** [if secao: dados[nome] = secao] for a dict. *)
Definition com_secao (nome : string) (secao : list (string * json))
           (dados : list (string * json)) : list (string * json) :=
  match secao with
  | [] => dados
  | _ => dict_set nome (JObj secao) dados
  end.

Definition coletar_dados_estruturados (ibge mun : string) (uf : json)
  : M json :=
  let dados :=
    [("entidade", JStr mun); ("uf", uf);
     ("tipo", JStr (if is_estado E ibge then "estado" else "municipio"))] in
  aprendizado <- estrut_aprendizado_ciclos ibge CICLOS [] ;
  let dados := com_secao "aprendizado" aprendizado dados in
  '(raw_c, ano_c) <- fetch_censo E ibge 3 None 0 0 ;
  tem_c <- lift (if truthy raw_c then py_in "censo" raw_c else ok false) ;
  dados <- (if tem_c : bool
            then censo_d <- lift (estrut_censo F raw_c ano_c) ;
                 ret (dict_set "censo" censo_d dados)
            else ret dados) ;
  '(raw_i, ano_i) <- fetch_infra E ibge 3 None ;
  dados <- (if truthy raw_i
            then infra_d <- lift (estrut_infra F raw_i ano_i) ;
                 ret (dict_set "infra" infra_d dados)
            else ret dados) ;
  taxa_d <- estrut_taxa_ciclos ibge CICLOS [] ;
  ret (JObj (com_secao "taxa_rendimento" taxa_d dados)).

(** *** The orchestrator *)

Definition geradores : list (string * (string -> string -> json -> M string)) :=
  [("aprendizado", gerar_txt_aprendizado);
   ("infra", gerar_txt_infra);
   ("censo", gerar_txt_censo);
   ("ideb", gerar_txt_ideb);
   ("taxa_rendimento", gerar_txt_taxa)].

(** [try: txt = fn(...) except Exception as e: txt = f"❌ Erro ao gerar
    {nome}: {e}"]. *)
Definition tentar_gerador (nome : string) (m : M string) : M string :=
  fun w =>
    match m w with
    | (inl e, w') => (ok ("❌ Erro ao gerar " ++ nome ++ ": " ++ exn_msg e), w')
    | (inr txt, w') => (ok txt, w')
    end.

Fixpoint gerar_arquivos (ibge mun : string) (uf : json) (slug : string)
         (gs : list (string * (string -> string -> json -> M string)))
         (arquivos : list (string * string)) : M (list (string * string)) :=
  match gs with
  | [] => ret arquivos
  | (nome, fn) :: r =>
      txt <- tentar_gerador nome (fn ibge mun uf) ;
      gerar_arquivos ibge mun uf slug r
        (dict_set (slug ++ "_" ++ nome ++ ".txt") txt arquivos)
  end.

(** [_slug(mun)] on what [descobrir_municipio] returned: only a [str] has
    [replace]. *)
Definition slug_de (mun : json) : res (string * string) :=
  match mun with
  | JStr s => ok (s, _slug s)
  | _ => raise (sem_atributo mun "replace")
  end.

(** [gerar_todos(ibge)] (with [output_dir] absent; writing the files does
    not change what is returned). *)
Definition gerar_todos (ibge : string) : M pacote :=
  fun w =>
    ('(mun, uf_sigla) <- descobrir_municipio ibge ;
     '(mun, slug) <- lift (slug_de mun) ;
     arquivos <- gerar_arquivos ibge mun uf_sigla slug geradores [] ;
     dados_estruturados <- coletar_dados_estruturados ibge mun uf_sigla ;
     ret (Pacote mun uf_sigla ibge arquivos dados_estruturados))
    (_clear_cache w).

End Relatorios.

End Gerador.

(* ===================================================================== *)
(** ** app.py *)
(* ===================================================================== *)

Module App.
Import Texto Numero Json Gerador.

Definition TIPOS_VALIDOS : list string :=
  ["aprendizado"; "infra"; "censo"; "ideb"; "taxa_rendimento"].

(** The JSON object [_gerar] builds for a generated bundle. *)
Record relatorio_json := RelatorioJson {
  r_municipio : string;
  r_uf : json;
  r_ibge : string;
  r_tipo : string;
  r_relatorios : list (string * string);
  r_dados : option json;
}.

(** The body of a response. *)
Inductive corpo :=
  | CorpoErro (erro : string) (ibge : option string)
  | CorpoRelatorios (r : relatorio_json) (gerado_em : string) (total : nat)
  | CorpoTexto (txt : string)
  | CorpoMunicipio (mun uf : json) (ibge : string)
  | CorpoHealth (timestamp : string)
  | CorpoErroInterno.

Record resposta := Resposta { status : Z; corpo_de : corpo }.

(** The requests the routes accept; a query parameter may be absent. *)
Inductive requisicao :=
  | GetHealth
  | GetGerarQuery (ibge : option string)
  | GetGerarPath (ibge : string)
  | GetRelatorio (ibge tipo : option string)
  | GetMunicipioQuery (ibge : option string)
  | GetMunicipioPath (ibge : string).

(** The territory code a request carries, as received. *)
Definition codigo_de (req : requisicao) : option string :=
  match req with
  | GetHealth => None
  | GetGerarQuery i | GetMunicipioQuery i | GetRelatorio i _ =>
      Some (default EmptyString i)
  | GetGerarPath i | GetMunicipioPath i => Some i
  end.

Section Servico.
Variable E : Ambiente.
(** [from gerador import gerar_todos, descobrir_municipio]. *)
Variable gerar_todos : string -> M pacote.
Variable descobrir_municipio : string -> M (json * json).

Let U := unicode E.

(** [len(ibge) not in (2, 7)], negated. *)
Definition tamanho_valido (ibge : string) : bool :=
  let n := py_len ibge in (n =? 2)%nat || (n =? 7)%nat.

(** [_validar_ibge(ibge)]: the cleaned code or the 400 response. *)
Definition _validar_ibge (ibge : string) : resposta + string :=
  let ibge := strip U ibge in
  if negb (isdigit U ibge) || negb (tamanho_valido ibge) then
    inl (Resposta 400
           (CorpoErro ("Código IBGE inválido: '" ++ ibge
                       ++ "'. Use 7 dígitos (município) ou 2 dígitos (estado).")
                      None))
  else inr ibge.

(** [for tipo in TIPOS_VALIDOS: if tipo in fname.lower(): ...; break]. *)
Fixpoint tipo_do_arquivo (fname : string) (tipos : list string)
  : option string :=
  match tipos with
  | [] => None
  | t :: r => if contem t (lower U fname) then Some t
              else tipo_do_arquivo fname r
  end.

Fixpoint organizar (arqs : list (string * string))
         (relatorios : list (string * string)) : list (string * string) :=
  match arqs with
  | [] => relatorios
  | (fname, conteudo) :: r =>
      match tipo_do_arquivo fname TIPOS_VALIDOS with
      | Some t => organizar r (dict_set t conteudo relatorios)
      | None => organizar r relatorios
      end
  end.

(** [_gerar(ibge)]: the bundle as JSON or the error response; a failure of
    the generator becomes a 500. (The generator is called with an output
    directory; the files it writes there are left out.) *)
Definition _gerar (ibge : string) (w : mundo)
  : (resposta + relatorio_json) * mundo :=
  match _validar_ibge ibge with
  | inl erro => (inl erro, w)
  | inr ibge =>
      match gerar_todos ibge w with
      | (inl e, w') =>
          (inl (Resposta 500
                  (CorpoErro ("Erro ao gerar: " ++ exn_msg e) (Some ibge))), w')
      | (inr resultado, w') =>
          (inr (RelatorioJson
                  (municipio resultado) (uf resultado) ibge
                  (if is_estado E ibge then "estado" else "municipio")
                  (organizar (arquivos resultado) [])
                  (if truthy (dados_estruturados resultado)
                   then Some (dados_estruturados resultado) else None)),
           w')
      end
  end.

Definition responder_relatorios (ibge : string) (w : mundo)
  : resposta * mundo :=
  match _gerar ibge w with
  | (inl erro, w') => (erro, w')
  | (inr r, w') =>
      (Resposta 200 (CorpoRelatorios r (agora_iso E) (length (r_relatorios r))), w')
  end.

(** A handler that lets an exception escape answers 500. *)
Definition responder_municipio (ibge : string) (w : mundo)
  : resposta * mundo :=
  match _validar_ibge ibge with
  | inl erro => (erro, w)
  | inr ibge =>
      match descobrir_municipio ibge w with
      | (inr (mun, uf), w') => (Resposta 200 (CorpoMunicipio mun uf ibge), w')
      | (inl _, w') => (Resposta 500 CorpoErroInterno, w')
      end
  end.

Definition falta_ibge (msg : string) : resposta :=
  Resposta 400 (CorpoErro msg None).

(** The routes of the application. *)
Definition atender (req : requisicao) (w : mundo) : resposta * mundo :=
  match req with
  | GetHealth => (Resposta 200 (CorpoHealth (agora_iso E)), w)
  | GetGerarQuery i =>
      let ibge := strip U (default EmptyString i) in
      if String.eqb ibge EmptyString then
        (falta_ibge "Parâmetro 'ibge' obrigatório. Ex: /gerar?ibge=2304400", w)
      else responder_relatorios ibge w
  | GetGerarPath ibge => responder_relatorios ibge w
  | GetRelatorio i t =>
      let ibge := strip U (default EmptyString i) in
      let tipo := lower U (strip U (default EmptyString t)) in
      if String.eqb ibge EmptyString then
        (falta_ibge "Parâmetro 'ibge' obrigatório.", w)
      else if negb (existsb (String.eqb tipo) TIPOS_VALIDOS) then
        (falta_ibge "Tipo inválido. Use: ['aprendizado', 'infra', 'censo', 'ideb', 'taxa_rendimento']", w)
      else
        match _gerar ibge w with
        | (inl erro, w') => (erro, w')
        | (inr r, w') =>
            match dict_get tipo (r_relatorios r) with
            | Some txt =>
                if String.eqb txt EmptyString
                then (Resposta 404
                        (CorpoErro ("Relatório '" ++ tipo
                                    ++ "' não gerado para IBGE " ++ ibge) None), w')
                else (Resposta 200 (CorpoTexto txt), w')
            | None =>
                (Resposta 404
                   (CorpoErro ("Relatório '" ++ tipo
                               ++ "' não gerado para IBGE " ++ ibge) None), w')
            end
        end
  | GetMunicipioQuery i =>
      let ibge := strip U (default EmptyString i) in
      if String.eqb ibge EmptyString then
        (falta_ibge "Parâmetro 'ibge' obrigatório.", w)
      else responder_municipio ibge w
  | GetMunicipioPath ibge => responder_municipio ibge w
  end.

End Servico.

(** The application wired to the generator. *)
Definition servico (E : Ambiente) (F : Formatadores)
  : requisicao -> mundo -> resposta * mundo :=
  atender E (Gerador.gerar_todos E F) (Gerador.descobrir_municipio E).

End App.

(* ===================================================================== *)
(** ** Vocabulary of the statements *)
(* ===================================================================== *)

Module Propriedades.
Import Texto Numero Json Gerador App.

(** [w'] comes after [w] in a run: nothing has left the cache and the
    requests of [w] are the first requests of [w']. *)
Definition estende (w w' : mundo) : Prop :=
  _FETCH_CACHE w ⊆ _FETCH_CACHE w' /\ pedidos w `prefix_of` pedidos w'.

(** The requests issued between [w] and [w']. *)
Definition novos (w w' : mundo) : list pedido :=
  drop (length (pedidos w)) (pedidos w').

(** The payload the cache holds for a request. *)
Definition payload (w : mundo) (url : string) (p : params) : option json :=
  _FETCH_CACHE w !! cache_key url p.

(** The cache holds a payload for the request and the fetcher's test finds
    it empty. *)
Definition vazio_em (presente : json -> res bool) (w : mundo)
           (url : string) (p : params) : Prop :=
  exists d, payload w url p = Some d /\ presente d = ok false.

(** Every request in [qs] is the request of [url] for one of the years. *)
Definition pedidos_dos_anos (url : string) (pars : Z -> params)
           (anos : list Z) (qs : list pedido) : Prop :=
  Forall (fun q => exists y, y ∈ anos /\ q = Pedido url (pars y)) qs.

(** The outcome of walking [anos] in order from [w] to [w']: either the
    first year [a] whose payload [d] passes the test, every year before it
    having an empty payload and no later year having been requested, or no
    year at all, every payload being empty. *)
Definition primeiro_nao_vazio (presente : json -> res bool) (url : string)
           (pars : Z -> params) (anos : list Z) (w w' : mundo)
           (achado : option (Z * json)) : Prop :=
  estende w w' /\
  match achado with
  | Some (a, d) =>
      exists antes depois,
        anos = (antes ++ a :: depois)%list
        /\ payload w' url (pars a) = Some d
        /\ presente d = ok true
        /\ Forall (fun y => vazio_em presente w' url (pars y)) antes
        /\ pedidos_dos_anos url pars (antes ++ [a])%list (novos w w')
  | None =>
      Forall (fun y => vazio_em presente w' url (pars y)) anos
      /\ pedidos_dos_anos url pars anos (novos w w')
  end.

(** The loop shared by [fetch_censo], [fetch_infra] and [fetch_taxa]: the
    years in order, one cached request each, the first payload that passes
    the test ends the walk. *)
Fixpoint percorrer {A} (E : Ambiente) (url : string) (pars : Z -> params)
         (presente : json -> res bool) (conclui : json -> Z -> res A)
         (nada : A) (anos : list Z) (w : mundo) : res A * mundo :=
  match anos with
  | [] => (ok nada, w)
  | a :: r =>
      match fetch_json E url (pars a) 3 w with
      | (inl e, w1) => (inl e, w1)
      | (inr d, w1) =>
          match presente d with
          | inl e => (inl e, w1)
          | inr true => (conclui d a, w1)
          | inr false => percorrer E url pars presente conclui nada r w1
          end
      end
  end.

(** How [fetch_taxa] ends once a payload passed the test. *)
Definition conclui_taxa (d : json) (a : Z) : res (json * json) :=
  let norm := _normalizar_taxa_keys d in
  match maior_ano_em (valores_de norm) (JInt 0) with
  | inl e => inl e
  | inr ano_real => ok (norm, if truthy ano_real then ano_real else JInt a)
  end.

(** The year a request carries, if it carries one. *)
Fixpoint ano_do_pedido (p : params) : option pval :=
  match p with
  | [] => None
  | (k, v) :: r => if String.eqb k "ano" then Some v else ano_do_pedido r
  end.

(** Every HTTP attempt fails. *)
Definition sem_rede (E : Ambiente) : Prop :=
  forall n url p, rede E n url p = None.

(** The cache holds failures only. *)
Definition so_falhas (w : mundo) : Prop :=
  forall k v, _FETCH_CACHE w !! k = Some v -> v = JNull.


(** A text made of continuation bytes only. *)
Fixpoint so_continuacao (s : string) : bool :=
  match s with
  | EmptyString => true
  | String c r => continuacao c && so_continuacao r
  end.

(** One character as [chars] cuts it: a byte and the continuation bytes
    after it. *)
Definition segmento (c : string) : bool :=
  match c with
  | EmptyString => false
  | String _ r => so_continuacao r
  end.

(** A list of characters as [chars] yields it: every element is one
    character and only the first may open with a continuation byte. *)
Definition segmentada (cs : list string) : Prop :=
  match cs with
  | [] => True
  | c :: r =>
      segmento c = true
      /\ Forall (fun x => segmento x = true /\ comeca_continuacao x = false) r
  end.

(** No white space at the head of a list of characters. *)
Definition sem_espaco_a_frente (U : Unicode) (cs : list string) : Prop :=
  match cs with
  | [] => True
  | c :: _ => char_isspace U c = false
  end.

(** From a cache of failures only, the computation returns [a] and leaves
    a cache of failures only. *)
Definition devolve {A} (m : M A) (a : A) : Prop :=
  forall w, so_falhas w -> exists w', m w = (ok a, w') /\ so_falhas w'.

(** The text carries the notice the renderers print when they have nothing
    to show. *)
Definition avisa_sem_dados (txt : string) : Prop :=
  contem "Sem dados" txt = true.

(** The entry of [arquivos] for an outcome of a renderer. *)
Definition texto_ou_erro (nome : string) (r : res string) : string :=
  match r with
  | inr txt => txt
  | inl e => "❌ Erro ao gerar " ++ nome ++ ": " ++ exn_msg e
  end.

Definition nome_arquivo (slug nome : string) : string :=
  slug ++ "_" ++ nome ++ ".txt".

(** The scaling rule as the specification words it: a value whose absolute
    value is at most 1.01 is multiplied by 100, any other is used as it
    is. *)
Definition convencao_spec (v : num) : num :=
  if num_leb (num_abs v) (PyFloat 1.01) then vezes100 v else v.

(** The tiers of [_classificar_desempenho] applied to a percentage. *)
Definition faixa_desempenho (p : num) : string * string :=
  if num_geb p (PyInt 70) then ("Bom desempenho", "✅")
  else if num_geb p (PyInt 50) then ("Desempenho intermediário", "⚠️")
  else ("Desempenho crítico - oportunidade de atuação", "🔴").

(** The tiers of [_classificar_taxa] applied to a percentage. *)
Definition faixa_taxa (tipo : string) (v : num) : string * string :=
  if String.eqb tipo "aprovacao" then
    if num_geb v (PyInt 98) then ("Excelente", "✅")
    else if num_geb v (PyInt 95) then ("Bom", "🟢")
    else if num_geb v (PyInt 90) then ("Regular", "🟡")
    else ("Crítico", "🔴")
  else if String.eqb tipo "reprovacao" then
    if num_leb v (PyInt 1) then ("Excelente", "✅")
    else if num_leb v (PyInt 3) then ("Bom", "🟢")
    else if num_leb v (PyInt 5) then ("Regular", "🟡")
    else ("Crítico", "🔴")
  else
    if num_leb v (PyFloat 0.5) then ("Excelente", "✅")
    else if num_leb v (PyFloat 1.5) then ("Bom", "🟢")
    else if num_leb v (PyInt 3) then ("Regular", "🟡")
    else ("Crítico", "🔴").

(** *** Codes *)

(** A character that is ASCII and is not one of [0..9]. *)
Definition ascii_nao_digito (ch : string) : bool :=
  match ch with
  | String a EmptyString =>
      (N_of_ascii a <? 128)%N && negb (ascii_entre 48 57 a)
  | _ => false
  end.

(** The text holds such a character. *)
Definition tem_ascii_nao_digito (s : string) : bool :=
  existsb ascii_nao_digito (chars s).

(** The text is ASCII throughout. *)
Definition so_ascii (s : string) : bool :=
  forallb (fun a => (N_of_ascii a <? 128)%N) (list_ascii_of_string s).

(** The text is made of the ten digits [0..9], at least one of them. *)
Definition digitos_0a9 (s : string) : bool :=
  match s with
  | EmptyString => false
  | _ => forallb (ascii_entre 48 57) (list_ascii_of_string s)
  end.

End Propriedades.

(* ===================================================================== *)
(** ** Concrete runs *)
(* ===================================================================== *)

Module Cenarios.
Import Texto Numero Json Gerador App Propriedades.

Definition nao_alcancado : exn := Exn "AssertionError" "formatador alcançado".

(** Formatters that refuse to run: a run that reaches one of them shows it
    in its result. *)
Definition F_recusa : Formatadores :=
  {| separar_territorios := fun _ _ => raise nao_alcancado;
     bloco_aprendizado := fun _ _ _ _ => raise nao_alcancado;
     corpo_infra := fun _ _ _ => raise nao_alcancado;
     corpo_censo := fun _ _ _ => raise nao_alcancado;
     secao_ideb := fun _ _ _ _ => raise nao_alcancado;
     etapa_taxa := fun _ _ _ _ => raise nao_alcancado;
     corpo_taxa := fun _ _ _ => raise nao_alcancado;
     estrut_aprendizado := fun _ => raise nao_alcancado;
     estrut_censo := fun _ _ => raise nao_alcancado;
     estrut_infra := fun _ _ => raise nao_alcancado;
     estrut_taxa := fun _ _ _ => raise nao_alcancado;
     str_outros := fun _ => "?" |}.

(** A process started in 2026 with no network and no IDEB files. *)
Definition E_sem_rede : Ambiente :=
  {| ANO_ATUAL := 2026;
     agora := "03/11/2026 10:00";
     agora_iso := "2026-11-03T10:00:00";
     rede := fun _ _ _ => None;
     unicode := unicode_ascii;
     np := None;
     IDEB_MUN_CSV := None;
     IDEB_UF_CSV := None |}.

(** A runtime table with some of the digits CPython knows outside ASCII:
    the superscripts two and three and the Arabic-Indic two and three, for
    which [str.isdigit] is true. *)
Definition unicode_digitos : Unicode :=
  {| u_isdigit := fun c => existsb (String.eqb c) ["²"; "³"; "٢"; "٣"];
     u_isspace := fun _ => false;
     u_lower   := fun c => c |}.

(** The process without network on that runtime. *)
Definition E_digitos : Ambiente :=
  {| ANO_ATUAL := 2026;
     agora := "03/11/2026 10:00";
     agora_iso := "2026-11-03T10:00:00";
     rede := fun _ _ _ => None;
     unicode := unicode_digitos;
     np := None;
     IDEB_MUN_CSV := None;
     IDEB_UF_CSV := None |}.

(** The same process with the IDEB files in place: the state table has a
    row of Ceará for the early years of the state network. *)
Definition linha_ceara : linha_ideb :=
  LinhaIdeb "23" "-" "CE" "estadual" "Anos Iniciais" "IDEB" 2023 6.1%float.

Definition E_com_ideb : Ambiente :=
  {| ANO_ATUAL := 2026;
     agora := "03/11/2026 10:00";
     agora_iso := "2026-11-03T10:00:00";
     rede := fun _ _ _ => None;
     unicode := unicode_ascii;
     np := None;
     IDEB_MUN_CSV := Some [];
     IDEB_UF_CSV := Some [linha_ceara] |}.

(** The same files with a row the IDEB renderer formats: the secondary
    school of the state network of Ceará. *)
Definition linha_ceara_medio : linha_ideb :=
  LinhaIdeb "23" "-" "CE" "estadual" "Ensino Médio" "IDEB" 2023 4.4%float.

Definition E_ideb_medio : Ambiente :=
  {| ANO_ATUAL := 2026;
     agora := "03/11/2026 10:00";
     agora_iso := "2026-11-03T10:00:00";
     rede := fun _ _ _ => None;
     unicode := unicode_ascii;
     np := None;
     IDEB_MUN_CSV := Some [];
     IDEB_UF_CSV := Some [linha_ceara; linha_ceara_medio] |}.

(** A network whose census endpoint answers every request with a JSON
    list, and where nothing else answers. *)
Definition E_censo_lista : Ambiente :=
  {| ANO_ATUAL := 2026;
     agora := "03/11/2026 10:00";
     agora_iso := "2026-11-03T10:00:00";
     rede := fun _ url _ =>
               if String.eqb url url_censo
               then Some (JArr [JStr "indisponível"]) else None;
     unicode := unicode_ascii;
     np := None;
     IDEB_MUN_CSV := None;
     IDEB_UF_CSV := None |}.

(** A network whose census endpoint has data for 2024 only. *)
Definition censo_2024 : json :=
  JObj [("censo", JObj [("qtd_escolas", JInt 12);
                        ("matriculas_creche", JInt 340)])].

Definition pede_ano (a : Z) (p : params) : bool :=
  match ano_do_pedido p with
  | Some (PInt y) => y =? a
  | _ => false
  end.

Definition E_censo_2024 : Ambiente :=
  {| ANO_ATUAL := 2026;
     agora := "03/11/2026 10:00";
     agora_iso := "2026-11-03T10:00:00";
     rede := fun _ url p =>
               if String.eqb url url_censo && pede_ano 2024 p
               then Some censo_2024 else None;
     unicode := unicode_ascii;
     np := None;
     IDEB_MUN_CSV := None;
     IDEB_UF_CSV := None |}.

(** A stand-in for [numpy.polyfit] that answers a fixed slope. *)
Definition polyfit_fixo (s : float) : list Z -> list float -> res float :=
  fun _ _ => ok s.

(** A stand-in for a [numpy.polyfit] that raises, as it does on a series
    with a NaN in it. *)
Definition polyfit_falha : list Z -> list float -> res float :=
  fun _ _ => raise (Exn "LinAlgError"
                      "SVD did not converge in Linear Least Squares").

End Cenarios.

(* ===================================================================== *)
(** ** gerador.py: the helpers the renderers call *)
(* ===================================================================== *)

Module Auxiliares.
Import Texto Numero Json Gerador.

(** *** Addition *)

Definition num_json (v : num) : json :=
  match v with
  | PyInt n => JInt n
  | PyFloat x => JFloat x
  end.

(** The double quote, which the messages of Python put around a type. *)
Definition aspas : string := String (ascii_of_nat 34) EmptyString.

(** [a + b] on decoded JSON: numbers add ([True] is [1]), two strings and
    two lists concatenate, anything else raises [TypeError]. *)
Definition py_add (a b : json) : res json :=
  match como_num a, como_num b with
  | Some x, Some y => ok (num_json (num_add x y))
  | _, _ =>
      match a, b with
      | JStr s, JStr t => ok (JStr (s ++ t))
      | JArr l, JArr k => ok (JArr (l ++ k))
      | JStr _, _ =>
          raise (Exn "TypeError"
                   ("can only concatenate str (not " ++ aspas ++ tipo_de b
                    ++ aspas ++ ") to str"))
      | JArr _, _ =>
          raise (Exn "TypeError"
                   ("can only concatenate list (not " ++ aspas ++ tipo_de b
                    ++ aspas ++ ") to list"))
      | _, _ =>
          raise (Exn "TypeError"
                   ("unsupported operand type(s) for +: '" ++ tipo_de a
                    ++ "' and '" ++ tipo_de b ++ "'"))
      end
  end.

(** [x is None]. *)
Definition e_none (j : json) : bool :=
  match j with
  | JNull => true
  | _ => false
  end.

(** *** Learning records *)

(** [_adeq(rec, disc)]. *)
Definition _adeq (rec : json) (disc : string) : res json :=
  v <-! py_get rec (disc ++ "_adequado") JNull ;
  if e_none v then
    vp <-! py_get rec (disc ++ "_proficiente") JNull ;
    va <-! py_get rec (disc ++ "_avancado") JNull ;
    if negb (e_none vp) || negb (e_none va)
    then py_add (py_or vp (JInt 0)) (py_or va (JInt 0))
    else ok JNull
  else ok v.

(** *** Rates records *)

(** [_get_rendimento(reg)]. *)
Definition _get_rendimento (reg : json) : res (json * json * json) :=
  r <-! py_get reg "rendimento" reg ;
  aprov <-! py_get r "aprovados" JNull ;
  reprov <-! py_get r "reprovados" JNull ;
  aband <-! py_get r "abandonos" JNull ;
  ok (aprov, reprov, aband).

(** The keys [sorted(regs, key=lambda x: x.get("ano", 0))] computes, in
    the order of the list; the first record without [get] raises. *)
Fixpoint chaves_ano (regs : list json) : res (list json) :=
  match regs with
  | [] => ok []
  | x :: r =>
      k <-! py_get x "ano" (JInt 0) ;
      ks <-! chaves_ano r ;
      ok (k :: ks)
  end.

Fixpoint inteiros (ks : list json) : option (list Z) :=
  match ks with
  | [] => Some []
  | JInt n :: r => option_map (cons n) (inteiros r)
  | _ :: r => None
  end.

(** The last element of a stable ascending sort by integer keys: the last
    of the records with the greatest key. *)
Fixpoint ultimo_maior (k : Z) (x : json) (resto : list (Z * json)) : json :=
  match resto with
  | [] => x
  | (k', x') :: r =>
      if k <=? k' then ultimo_maior k' x' r else ultimo_maior k x r
  end.

(** [_get_ultimo_reg(regs)]. The sort of the runtime is followed when
    every key is an [int]; for other keys (floats, strings, mixed types)
    its outcome is taken from [sorted_ultimo], given the keys and the
    records. *)
Definition _get_ultimo_reg
           (sorted_ultimo : list json -> list json -> res json) (regs : json)
  : res json :=
  match regs with
  | JArr (x :: r) =>
      ks <-! chaves_ano (x :: r) ;
      match inteiros ks with
      | Some (k :: kr) => ok (ultimo_maior k x (combine kr r))
      | _ => sorted_ultimo ks (x :: r)
      end
  | _ => ok JNull
  end.

(** *** History of the rates *)

(** [resultados[a] = v] on a dict with [int] keys, in insertion order. *)
Fixpoint ano_set (a : Z) (v : json) (d : list (Z * json)) : list (Z * json) :=
  match d with
  | [] => [(a, v)]
  | (a', v') :: r => if a =? a' then (a, v) :: r else (a', v') :: ano_set a v r
  end.

Section Historico.
Variable E : Ambiente.

(** The loop of [fetch_taxa_historico] over the years still to try. *)
Fixpoint fetch_taxa_historico_em (ibge ciclo : string) (dep_id loc : Z)
         (anos : list Z) (resultados : list (Z * json))
  : M (list (Z * json)) :=
  match anos with
  | [] => ret resultados
  | a :: r =>
      d <- fetch_json E (url_taxa ibge) (params_taxa a dep_id ciclo loc) 3 ;
      tem <- lift (taxa_presente d) ;
      let resultados :=
        if tem : bool then ano_set a (_normalizar_taxa_keys d) resultados
        else resultados in
      if (3 <=? length resultados)%nat then ret resultados
      else fetch_taxa_historico_em ibge ciclo dep_id loc r resultados
  end.

(** [fetch_taxa_historico(ibge, ciclo, dep_id, loc)]. *)
Definition fetch_taxa_historico (ibge ciclo : string) (dep_id loc : Z)
  : M (list (Z * json)) :=
  fetch_taxa_historico_em ibge ciclo dep_id loc (_anos_candidatos E 8) [].

End Historico.

(** *** Enrolments of the census *)

Definition CAMPOS_MATRICULA : list (string * string) :=
  [("matriculas_creche", "Creche");
   ("matriculas_pre_escolar", "Pré-Escola");
   ("matriculas_anos_iniciais", "Anos Iniciais (1º ao 5º)");
   ("matriculas_anos_finais", "Anos Finais (6º ao 9º)");
   ("matriculas_ensino_medio", "Ensino Médio");
   ("matriculas_eja", "EJA");
   ("matriculas_educacao_especial", "Educação Especial")].

Definition tipo_num (v : num) : string :=
  match v with
  | PyInt _ => "int"
  | PyFloat _ => "float"
  end.

(** [total += v] with [total] a number. *)
Definition somar_total (total : num) (v : json) : res num :=
  match como_num v with
  | Some y => ok (num_add total y)
  | None =>
      raise (Exn "TypeError"
               ("unsupported operand type(s) for +=: '" ++ tipo_num total
                ++ "' and '" ++ tipo_de v ++ "'"))
  end.

(** The loop over [CAMPOS_MATRICULA] that [gerar_txt_censo] and
    [coletar_dados_estruturados] share: the enrolments that are present,
    by label, and their total. *)
Fixpoint somar_matriculas (c : json) (campos : list (string * string))
         (matriculas : list (string * json)) (total : num)
  : res (list (string * json) * num) :=
  match campos with
  | [] => ok (matriculas, total)
  | (campo, label) :: r =>
      v <-! py_get c campo JNull ;
      if e_none v then somar_matriculas c r matriculas total
      else
        total' <-! somar_total total v ;
        somar_matriculas c r (dict_set label v matriculas) total'
  end.

(** The census entry of the structured data, from [c = raw_c["censo"]]
    on. *)
Definition censo_estruturado (c : json) (ano_c : Z) : res json :=
  qtd <-! py_get c "qtd_escolas" JNull ;
  '(matriculas, total) <-! somar_matriculas c CAMPOS_MATRICULA [] (PyInt 0) ;
  ok (JObj [("ano", JInt ano_c); ("qtd_escolas", qtd);
            ("matriculas", JObj matriculas);
            ("total_matriculas", num_json total)]).

End Auxiliares.

(* ===================================================================== *)
(** ** gerador.py: the records of the learning payload, by territory *)
(* ===================================================================== *)

Module Territorios.
Import Texto Numero Json Gerador.

(** [isinstance(r, dict)]. *)
Definition e_dict (j : json) : bool :=
  match j with
  | JObj _ => true
  | _ => false
  end.

(** [rid == 7]: a number equal to 7. *)
Definition igual_a_7 (rid : json) : bool :=
  match como_num rid with
  | Some x => match cmp_num x (PyInt 7) with
              | Some Eq => true
              | _ => false
              end
  | None => false
  end.

(** [pid is not None and pid <= 27]. *)
Definition ate_27 (pid : json) : res bool :=
  match pid with
  | JNull => ok false
  | _ =>
      match como_num pid with
      | Some x => ok (num_leb x (PyInt 27))
      | None =>
          raise (Exn "TypeError"
                   ("'<=' not supported between instances of '"
                    ++ tipo_de pid ++ "' and 'int'"))
      end
  end.

(** The list a record is appended to. *)
Inductive destino :=
  | ParaMun
  | ParaBr
  | ParaEst
  | ParaNenhuma.

Definition destino_eqb (a b : destino) : bool :=
  match a, b with
  | ParaMun, ParaMun | ParaBr, ParaBr | ParaEst, ParaEst
  | ParaNenhuma, ParaNenhuma => true
  | _, _ => false
  end.

Section ComFormatadores.
Variable F : Formatadores.

(** The body of the inner loop for a dict record. *)
Definition destino_de (ibge : string) (r : json) : res destino :=
  t <-! py_get r "territorio" (JObj []) ;
  rid <-! py_get t "ibge_id" JNull ;
  t' <-! py_get r "territorio" (JObj []) ;
  pid <-! py_get t' "parent_id" JNull ;
  if String.eqb (py_str F rid) ibge then ok ParaMun
  else if igual_a_7 rid then ok ParaBr
  else b <-! ate_27 pid ; ok (if b : bool then ParaEst else ParaNenhuma).

Definition acrescentar (d : destino) (r : json)
           (acc : list json * list json * list json)
  : list json * list json * list json :=
  let '(mun, est, br) := acc in
  match d with
  | ParaMun => (mun ++ [r], est, br)
  | ParaBr => (mun, est, br ++ [r])
  | ParaEst => (mun, est ++ [r], br)
  | ParaNenhuma => acc
  end%list.

(** [for r in grupo: ...]. *)
Fixpoint extrair_grupo (ibge : string) (rs : list json)
         (acc : list json * list json * list json)
  : res (list json * list json * list json) :=
  match rs with
  | [] => ok acc
  | r :: resto =>
      if e_dict r then
        d <-! destino_de ibge r ;
        extrair_grupo ibge resto (acrescentar d r acc)
      else extrair_grupo ibge resto acc
  end.

(** [for grupo in dados: ...]. *)
Fixpoint extrair_grupos (ibge : string) (gs : list json)
         (acc : list json * list json * list json)
  : res (list json * list json * list json) :=
  match gs with
  | [] => ok acc
  | JArr rs :: resto =>
      acc' <-! extrair_grupo ibge rs acc ;
      extrair_grupos ibge resto acc'
  | _ :: resto => extrair_grupos ibge resto acc
  end.

(** [_extrair_territorios(dados, ibge)], the loops included: the records
    of the entity, of the states and of Brazil. *)
Definition _extrair_territorios (dados : json) (ibge : string)
  : res (list json * list json * list json) :=
  match dados with
  | JArr (g :: gs) => extrair_grupos ibge (g :: gs) ([], [], [])
  | _ => ok ([], [], [])
  end.

(** The dict records of the groups of a payload that are lists, in
    order. *)
Definition registros (dados : json) : list json :=
  match dados with
  | JArr gs =>
      flat_map (fun g => match g with
                         | JArr rs => List.filter e_dict rs
                         | _ => []
                         end) gs
  | _ => []
  end.

(** The record goes to the list [d]. *)
Definition vai_para (ibge : string) (d : destino) (r : json) : bool :=
  match destino_de ibge r with
  | inr d' => destino_eqb d d'
  | inl _ => false
  end.

End ComFormatadores.

End Territorios.

(* ===================================================================== *)
(** ** Vocabulary for whole runs *)
(* ===================================================================== *)

Module Medidas.
Import Texto Numero Json Gerador App Propriedades Auxiliares.

(** A computation made of cached requests (three attempts each, every key
    in [K]), of pure steps that may raise, and of the handler that turns
    an exception into text. *)
Inductive so_busca (E : Ambiente) (K : chave -> Prop) : forall {A}, M A -> Prop :=
  | busca_ret {A} (a : A) : so_busca E K (ret a)
  | busca_lift {A} (r : res A) : so_busca E K (lift r)
  | busca_fetch url p :
      K (cache_key url p) -> so_busca E K (fetch_json E url p 3)
  | busca_bind {A B} (m : M A) (k : A -> M B) :
      so_busca E K m -> (forall a, so_busca E K (k a)) -> so_busca E K (bind m k)
  | busca_tentar nome (m : M string) :
      so_busca E K m -> so_busca E K (tentar_gerador nome m).

(** Run again from any later state, the computation gives the same
    outcome and leaves that state as it found it. *)
Definition repetivel {A} (m : M A) : Prop :=
  forall w r w1, m w = (r, w1) ->
    estende w w1 /\ forall w2, estende w1 w2 -> m w2 = (r, w2).

(** The computation leaves the state [w] as it found it. *)
Definition quieto {A} (w : mundo) (m : M A) : Prop :=
  exists r, m w = (r, w).

(** The computation extends the state, caches no key outside [K] and
    issues at most three requests for each key it adds to the cache. *)
Definition limitado (K : chave -> Prop) {A} (m : M A) : Prop :=
  forall w,
    estende w (snd (m w))
    /\ (forall k, is_Some (_FETCH_CACHE (snd (m w)) !! k) ->
                  is_Some (_FETCH_CACHE w !! k) \/ K k)
    /\ (length (novos w (snd (m w))) + 3 * size (_FETCH_CACHE w)
        <= 3 * size (_FETCH_CACHE (snd (m w))))%nat.

(** The byte occurs in the text. *)
Fixpoint tem_byte (c : ascii) (s : string) : bool :=
  match s with
  | EmptyString => false
  | String a r => Ascii.eqb a c || tem_byte c r
  end.

(** The sum, starting from [total], of the numbers in [vs], added in
    order; nothing when one of them is not a number. *)
Fixpoint soma_valores (total : num) (vs : list json) : option num :=
  match vs with
  | [] => Some total
  | v :: r =>
      match como_num v with
      | Some y => soma_valores (num_add total y) r
      | None => None
      end
  end.

(** The fields of [campos] that the dict [kv] holds with a value other
    than [None], by label, in the order of [campos]. *)
Fixpoint presentes (kv : list (string * json)) (campos : list (string * string))
  : list (string * json) :=
  match campos with
  | [] => []
  | (campo, label) :: r =>
      match default JNull (assoc campo kv) with
      | JNull => presentes kv r
      | v => (label, v) :: presentes kv r
      end
  end.

(** An entry of the history of the rates: the normalised form of the
    payload the cache of [w] holds for its year, which passes the test of
    the fetcher. *)
Definition entrada_do_historico (w : mundo) (ibge ciclo : string)
           (dep_id loc : Z) (q : Z * json) : Prop :=
  exists d,
    payload w (url_taxa ibge) (params_taxa (fst q) dep_id ciclo loc) = Some d
    /\ taxa_presente d = ok true
    /\ snd q = _normalizar_taxa_keys d.

Section Chaves.
Variable E : Ambiente.

(** The keys [descobrir_municipio] may ask for a stripped code: the rates
    of the two cycles of the [Ensino Fundamental] and the census of the
    public schools, six years each. *)
Definition chaves_do_nome (ibge : string) : list chave :=
  (map (fun a => cache_key (url_taxa ibge) (params_taxa a 0 "AI" 0))
       (_anos_candidatos E 6)
   ++ map (fun a => cache_key (url_taxa ibge) (params_taxa a 0 "AF" 0))
          (_anos_candidatos E 6)
   ++ map (fun a => cache_key url_censo (params_censo ibge a 5 0 0))
          (_anos_candidatos E 6))%list.

(** The keys the five renderers and the collector may ask. *)
Definition chaves_dos_relatorios (ibge : string) : list chave :=
  (map (fun c => cache_key (url_aprendizado ibge) (params_aprendizado 5 c))
       ["AI"; "AF"; "EM"]
   ++ map (fun a => cache_key (url_infra ibge) (params_infra a 3))
          (_anos_candidatos E 6)
   ++ map (fun a => cache_key url_censo (params_censo ibge a 3 0 0))
          (_anos_candidatos E 6)
   ++ map (fun a => cache_key (url_taxa ibge) (params_taxa a 0 "AI" 0))
          (_anos_candidatos E 6)
   ++ map (fun a => cache_key (url_taxa ibge) (params_taxa a 0 "AF" 0))
          (_anos_candidatos E 6)
   ++ map (fun a => cache_key (url_taxa ibge) (params_taxa a 0 "EM" 0))
          (_anos_candidatos E 6))%list.

(** The keys of a run of [gerar_todos] on a stripped code: those of the
    renderers and, for the name, the census of the public schools. *)
Definition chaves_da_corrida (ibge : string) : list chave :=
  (map (fun a => cache_key url_censo (params_censo ibge a 5 0 0))
       (_anos_candidatos E 6)
   ++ chaves_dos_relatorios ibge)%list.

End Chaves.

End Medidas.

(* ===================================================================== *)
(** ** More concrete runs *)
(* ===================================================================== *)

Module Exemplos.
Import Texto Numero Json Gerador App Propriedades Auxiliares.

(** A network that fails twice and answers from the third attempt on. *)
Definition resposta_tardia : json := JObj [("censo", JObj [("qtd_escolas", JInt 3)])].

Definition E_instavel : Ambiente :=
  {| ANO_ATUAL := 2026;
     agora := "03/11/2026 10:00";
     agora_iso := "2026-11-03T10:00:00";
     rede := fun n _ _ => if (n <? 2)%nat then None else Some resposta_tardia;
     unicode := unicode_ascii;
     np := None;
     IDEB_MUN_CSV := None;
     IDEB_UF_CSV := None |}.

(** A rates payload with three records of the entity, out of order and
    with a tie on the most recent year. *)
Definition reg_2021 : json :=
  JObj [("ano", JInt 2021); ("aprovados", JFloat 0.91)].
Definition reg_2023_a : json :=
  JObj [("ano", JInt 2023); ("aprovados", JFloat 0.95)].
Definition reg_2023_b : json :=
  JObj [("ano", JInt 2023); ("rendimento", JObj [("aprovados", JFloat 0.96)])].

(** A sort that is never reached when the keys are integers. *)
Definition sort_recusa : list json -> list json -> res json :=
  fun _ _ => raise Cenarios.nao_alcancado.

(** A census entry with two stages present, one explicitly null. *)
Definition censo_pequeno : json :=
  JObj [("qtd_escolas", JInt 12);
        ("matriculas_creche", JInt 340);
        ("matriculas_pre_escolar", JNull);
        ("matriculas_eja", JInt 25)].

(** A network whose rates endpoint answers for the years 2025, 2023, 2022
    and 2021. *)
Definition taxa_do_ano (a : Z) : json :=
  JObj [("entidade", JArr [JObj [("ano", JInt a)]])].

Definition E_taxa_historica : Ambiente :=
  {| ANO_ATUAL := 2026;
     agora := "03/11/2026 10:00";
     agora_iso := "2026-11-03T10:00:00";
     rede := fun _ url p =>
               match ano_do_pedido p with
               | Some (PInt a) =>
                   if (a =? 2025) || (a =? 2023) || (a =? 2022) || (a =? 2021)
                   then Some (taxa_do_ano a) else None
               | _ => None
               end;
     unicode := unicode_ascii;
     np := None;
     IDEB_MUN_CSV := None;
     IDEB_UF_CSV := None |}.

(** A learning payload of two groups for the code 2304400: a record of
    the entity, one of its state and one of Brazil, and things that are
    not records. *)
Definition rec_mun : json :=
  JObj [("ano", JInt 2023);
        ("territorio", JObj [("ibge_id", JInt 2304400); ("parent_id", JInt 23)])].
Definition rec_est : json :=
  JObj [("ano", JInt 2023);
        ("territorio", JObj [("ibge_id", JInt 23); ("parent_id", JInt 7)])].
Definition rec_br : json :=
  JObj [("ano", JInt 2023);
        ("territorio", JObj [("ibge_id", JInt 7); ("parent_id", JNull)])].

Definition aprendizado_pequeno : json :=
  JArr [JArr [rec_br; JStr "?"; rec_mun]; JNull; JArr [rec_est]].

End Exemplos.
(* ===================================================================== *)
(** ** Proofs *)
(* ===================================================================== *)

Import Texto Numero Json Gerador App Propriedades.

(** *** The cached HTTP helper *)

Section Busca.
Variable E : Ambiente.

Lemma tentar_guarda url p k n w :
  (0 < n)%nat ->
  exists m, (1 <= m <= n)%nat /\
    snd (tentar E url p k n w)
    = Mundo (<[k := fst (tentar E url p k n w)]> (_FETCH_CACHE w))
            (pedidos w ++ replicate m (Pedido url p)).
Proof.
  revert w. induction n as [|n IH]; intros w Hn; [lia|].
  cbn [tentar].
  destruct (rede E (length (pedidos w)) url p) as [result|].
  - exists 1%nat. split; [lia|]. reflexivity.
  - destruct n as [|n'].
    + exists 1%nat. split; [lia|]. reflexivity.
    + destruct (IH (registrar url p w)) as (m & Hm & Heq); [lia|].
      exists (S m). split; [lia|].
      rewrite Heq. cbn [registrar _FETCH_CACHE pedidos].
      rewrite <- app_assoc. reflexivity.
Qed.

Lemma tentar_falha url p k n w :
  (0 < n)%nat ->
  (forall i, (i < n)%nat -> rede E (length (pedidos w) + i) url p = None) ->
  tentar E url p k n w
  = (JNull, Mundo (<[k := JNull]> (_FETCH_CACHE w))
                  (pedidos w ++ replicate n (Pedido url p))).
Proof.
  revert w. induction n as [|n IH]; intros w Hn Hr; [lia|].
  cbn [tentar].
  rewrite <- (Nat.add_0_r (length (pedidos w))), Hr by lia.
  destruct n as [|n']; [reflexivity|].
  rewrite IH; [| lia |].
  - cbn [registrar _FETCH_CACHE pedidos]. rewrite <- app_assoc. reflexivity.
  - intros i Hi. cbn [registrar pedidos]. rewrite length_app. cbn [length].
    replace (length (pedidos w) + 1 + i)%nat with (length (pedidos w) + S i)%nat by lia.
    apply Hr. lia.
Qed.

(** A hit returns the stored value and leaves the state as it is. *)
Lemma fetch_json_hit url p t w r :
  _FETCH_CACHE w !! cache_key url p = Some r ->
  fetch_json E url p t w = (ok r, w).
Proof. intros H. unfold fetch_json. rewrite H. reflexivity. Qed.

(** A miss with at least one attempt stores what it returns. *)
Lemma fetch_json_miss url p t w :
  0 < t ->
  _FETCH_CACHE w !! cache_key url p = None ->
  exists r m,
    (1 <= m <= Z.to_nat t)%nat /\
    fetch_json E url p t w
    = (ok r, Mundo (<[cache_key url p := r]> (_FETCH_CACHE w))
                   (pedidos w ++ replicate m (Pedido url p))).
Proof.
  intros Ht Hc. unfold fetch_json. rewrite Hc.
  destruct (tentar_guarda url p (cache_key url p) (Z.to_nat t) w) as (m & Hm & Heq);
    [lia|].
  destruct (tentar E url p (cache_key url p) (Z.to_nat t) w) as [r w'] eqn:Ht'.
  cbn [fst snd] in Heq. subst w'. exists r, m. split; [exact Hm|reflexivity].
Qed.

Lemma fetch_json_ok url p t w :
  exists r w', fetch_json E url p t w = (ok r, w').
Proof.
  unfold fetch_json. destruct (_FETCH_CACHE w !! cache_key url p); [eauto|].
  destruct (tentar E url p (cache_key url p) (Z.to_nat t) w); eauto.
Qed.

(** After a call with at least one attempt the key is in the cache with
    the value returned. *)
Lemma fetch_json_guarda url p t w r w' :
  0 < t ->
  fetch_json E url p t w = (ok r, w') ->
  _FETCH_CACHE w' !! cache_key url p = Some r.
Proof.
  intros Ht H. destruct (_FETCH_CACHE w !! cache_key url p) as [r0|] eqn:Hc.
  - rewrite (fetch_json_hit _ _ _ _ _ Hc) in H. congruence.
  - destruct (fetch_json_miss url p t w Ht Hc) as (r1 & m & _ & Heq).
    rewrite Heq in H. inversion H; subst. cbn [_FETCH_CACHE].
    apply lookup_insert_eq.
Qed.

End Busca.

Section Chaves.

Lemma leb_false_true a b : String.leb a b = false -> String.leb b a = true.
Proof. destruct (String.leb_total a b) as [H|H]; congruence. Qed.

Lemma leb_trans a b c :
  String.leb a b = true -> String.leb b c = true -> String.leb a c = true.
Proof.
  intros H1 H2. apply Is_true_true.
  apply (@transitivity _ String.le _ a b c); apply Is_true_true; assumption.
Qed.

Lemma inserir_item_comm a b l :
  fst a <> fst b ->
  inserir_item a (inserir_item b l) = inserir_item b (inserir_item a l).
Proof.
  intros Hab. induction l as [|x l IH]; cbn [inserir_item].
  - destruct (String.leb (fst a) (fst b)) eqn:H1, (String.leb (fst b) (fst a)) eqn:H2;
      try reflexivity.
    + exfalso. apply Hab. apply String.leb_antisym; assumption.
    + apply leb_false_true in H1. congruence.
  - destruct (String.leb (fst b) (fst x)) eqn:Hbx, (String.leb (fst a) (fst x)) eqn:Hax;
      cbn [inserir_item]; rewrite ?Hbx, ?Hax.
    + destruct (String.leb (fst a) (fst b)) eqn:H1, (String.leb (fst b) (fst a)) eqn:H2;
        try reflexivity.
      * exfalso. apply Hab. apply String.leb_antisym; assumption.
      * apply leb_false_true in H1. congruence.
    + (* b <= x < a *)
      destruct (String.leb (fst a) (fst b)) eqn:H1; [|reflexivity].
      exfalso. assert (String.leb (fst a) (fst x) = true); [|congruence].
      eapply leb_trans; eassumption.
    + (* a <= x < b *)
      destruct (String.leb (fst b) (fst a)) eqn:H1; [|reflexivity].
      exfalso. assert (String.leb (fst b) (fst x) = true); [|congruence].
      eapply leb_trans; eassumption.
    + f_equal. exact IH.
Qed.

(** Two dicts with the same items give the same cache key, whatever the
    order in which their items were written. *)
Lemma sorted_items_perm (p p' : params) :
  NoDup (map fst p) -> p ≡ₚ p' -> sorted_items p = sorted_items p'.
Proof.
  intros Hnd Hp. unfold sorted_items.
  apply (foldr_permutation eq inserir_item []); [|exact Hp].
  intros j1 a1 j2 a2 b Hj H1 H2. apply inserir_item_comm.
  intros Heq. apply Hj.
  eapply NoDup_lookup; [exact Hnd| |].
  - rewrite list_lookup_fmap, H1. reflexivity.
  - rewrite list_lookup_fmap, H2. cbn. congruence.
Qed.

Lemma cache_key_perm url (p p' : params) :
  NoDup (map fst p) -> p ≡ₚ p' -> cache_key url p = cache_key url p'.
Proof. intros. unfold cache_key. f_equal. apply sorted_items_perm; assumption. Qed.

End Chaves.

(** *** States of a run *)

Section Estados.

Lemma estende_refl w : estende w w.
Proof. split; reflexivity. Qed.

Lemma estende_trans w1 w2 w3 : estende w1 w2 -> estende w2 w3 -> estende w1 w3.
Proof. intros [H1 H2] [H3 H4]. split; etransitivity; eassumption. Qed.

Lemma novos_refl w : novos w w = [].
Proof. unfold novos. apply drop_all. Qed.

Lemma novos_app w w' qs :
  pedidos w' = (pedidos w ++ qs)%list -> novos w w' = qs.
Proof. intros H. unfold novos. rewrite H. apply drop_app_length. Qed.

Lemma novos_trans w1 w2 w3 :
  estende w1 w2 -> estende w2 w3 ->
  novos w1 w3 = (novos w1 w2 ++ novos w2 w3)%list.
Proof.
  intros [_ [q1 H1]] [_ [q2 H2]].
  rewrite (novos_app w1 w2 q1 H1), (novos_app w2 w3 q2 H2).
  apply novos_app. rewrite H2, H1, app_assoc. reflexivity.
Qed.

Lemma payload_estende w w' url p d :
  estende w w' -> payload w url p = Some d -> payload w' url p = Some d.
Proof. intros [H _] Hp. unfold payload in *. eapply lookup_weaken; eassumption. Qed.

Lemma vazio_em_estende presente w w' url p :
  estende w w' -> vazio_em presente w url p -> vazio_em presente w' url p.
Proof.
  intros He (d & Hd & Hv). exists d. split; [|exact Hv].
  eapply payload_estende; eassumption.
Qed.

Lemma pedidos_dos_anos_mais url pars anos anos' qs :
  anos ⊆ anos' -> pedidos_dos_anos url pars anos qs ->
  pedidos_dos_anos url pars anos' qs.
Proof.
  intros Hs H. unfold pedidos_dos_anos in *.
  eapply Forall_impl; [exact H|]. intros q (y & Hy & Hq). exists y. split; [|exact Hq].
  apply Hs, Hy.
Qed.

End Estados.

Section Passo.
Variable E : Ambiente.

(** One call of [fetch_json] with the default three attempts, as the
    fetchers see it. *)
Lemma fetch_json_passo url p w :
  exists r w',
    fetch_json E url p 3 w = (ok r, w')
    /\ estende w w'
    /\ payload w' url p = Some r
    /\ exists m, novos w w' = replicate m (Pedido url p).
Proof.
  destruct (_FETCH_CACHE w !! cache_key url p) as [r|] eqn:Hc.
  - exists r, w. rewrite (fetch_json_hit E url p 3 w r Hc).
    split; [reflexivity|]. split; [apply estende_refl|]. split; [exact Hc|].
    exists 0%nat. apply novos_refl.
  - destruct (fetch_json_miss E url p 3 w) as (r & m & _ & Heq); [lia|exact Hc|].
    eexists r, _. split; [exact Heq|]. split; [|split].
    + split; cbn [_FETCH_CACHE pedidos].
      * apply insert_subseteq, Hc.
      * eexists; reflexivity.
    + unfold payload. cbn [_FETCH_CACHE]. apply lookup_insert_eq.
    + exists m. apply novos_app. reflexivity.
Qed.

Lemma fetch_json_estende url p t w :
  estende w (snd (fetch_json E url p t w)).
Proof.
  destruct (_FETCH_CACHE w !! cache_key url p) as [r|] eqn:Hc.
  - rewrite (fetch_json_hit E url p t w r Hc). apply estende_refl.
  - destruct (Z_lt_le_dec 0 t) as [Ht|Ht].
    + destruct (fetch_json_miss E url p t w Ht Hc) as (r & m & _ & Heq).
      rewrite Heq. split; cbn [snd _FETCH_CACHE pedidos].
      * apply insert_subseteq, Hc.
      * eexists; reflexivity.
    + unfold fetch_json. rewrite Hc.
      replace (Z.to_nat t) with 0%nat by lia. apply estende_refl.
Qed.

End Passo.

(** *** Year fallback *)

Section Caminhada.
Variable E : Ambiente.

Lemma percorrer_spec {A} url pars presente (conclui : json -> Z -> res A)
      nada anos w r w' :
  percorrer E url pars presente conclui nada anos w = (ok r, w') ->
  exists achado,
    primeiro_nao_vazio presente url pars anos w w' achado
    /\ match achado with
       | Some (a, d) => conclui d a = ok r
       | None => r = nada
       end.
Proof.
  revert w. induction anos as [|a0 resto IH]; intros w H; cbn [percorrer] in H.
  - inversion H; subst. exists None. split; [|reflexivity].
    split; [apply estende_refl|]. split; [constructor|].
    unfold pedidos_dos_anos. rewrite novos_refl. constructor.
  - destruct (fetch_json_passo E url (pars a0) w) as (d0 & w1 & Hf & He & Hp & m & Hn).
    rewrite Hf in H.
    assert (Hped : pedidos_dos_anos url pars [a0] (novos w w1)).
    { unfold pedidos_dos_anos. rewrite Hn. apply Forall_replicate.
      exists a0. split; [apply list_elem_of_here|reflexivity]. }
    destruct (presente d0) as [e|[|]] eqn:Hpres; [discriminate| |].
    + injection H as H1 H2. subst w'. exists (Some (a0, d0)). split; [|exact H1].
      split; [exact He|]. exists [], resto. repeat split; try assumption.
      constructor.
    + destruct (IH w1 H) as (achado & [He' Hach] & Hres).
      exists achado. split; [|exact Hres].
      assert (Hv : vazio_em presente w' url (pars a0)).
      { eapply vazio_em_estende; [exact He'|]. exists d0. split; assumption. }
      split; [eapply estende_trans; eassumption|].
      destruct achado as [[a d]|].
      * destruct Hach as (antes & depois & Hanos & Hpay & Hok & Hvz & Hpd).
        exists (a0 :: antes), depois. subst resto.
        repeat split; try assumption; [constructor; assumption|].
        unfold pedidos_dos_anos. rewrite (novos_trans w w1 w' He He').
        apply Forall_app. split.
        -- eapply pedidos_dos_anos_mais; [|exact Hped].
           intros y Hy. apply list_elem_of_singleton in Hy. subst.
           apply list_elem_of_here.
        -- eapply pedidos_dos_anos_mais; [|exact Hpd].
           intros y Hy. apply list_elem_of_further. exact Hy.
      * destruct Hach as (Hvz & Hpd). split; [constructor; assumption|].
        unfold pedidos_dos_anos. rewrite (novos_trans w w1 w' He He').
        apply Forall_app. split.
        -- eapply pedidos_dos_anos_mais; [|exact Hped].
           intros y Hy. apply list_elem_of_singleton in Hy. subst.
           apply list_elem_of_here.
        -- eapply pedidos_dos_anos_mais; [|exact Hpd].
           intros y Hy. apply list_elem_of_further. exact Hy.
Qed.

(** The walk raises only what its test or its ending raises on a payload it
    fetched. *)
Lemma percorrer_falha {A} url pars presente (conclui : json -> Z -> res A)
      nada anos w e w' :
  percorrer E url pars presente conclui nada anos w = (inl e, w') ->
  exists a d,
    a ∈ anos /\ payload w' url (pars a) = Some d
    /\ (presente d = inl e \/ (presente d = ok true /\ conclui d a = inl e)).
Proof.
  revert w. induction anos as [|a0 resto IH]; intros w H; cbn [percorrer] in H.
  - discriminate H.
  - destruct (fetch_json_passo E url (pars a0) w) as (d0 & w1 & Hf & He & Hp & _).
    rewrite Hf in H.
    destruct (presente d0) as [e0|[|]] eqn:Hpres.
    + injection H as -> ->. exists a0, d0.
      split; [apply list_elem_of_here|]. split; [exact Hp|]. left. exact Hpres.
    + injection H as H ->. exists a0, d0.
      split; [apply list_elem_of_here|]. split; [exact Hp|]. right.
      split; [exact Hpres|exact H].
    + destruct (IH w1 H) as (a & d & Ha & Hpay & Hor).
      exists a, d. split; [apply list_elem_of_further, Ha|]. split; assumption.
Qed.

(** Each fetcher is the shared walk with its own request, test and
    ending. *)
Lemma fetch_censo_em_percorrer ibge dep loc oferta anos w :
  fetch_censo_em E ibge dep loc oferta anos w
  = percorrer E url_censo (fun y => params_censo ibge y dep loc oferta)
      censo_presente (fun d a => ok (d, a)) (JNull, 0) anos w.
Proof.
  revert w. induction anos as [|a r IH]; intros w; [reflexivity|].
  cbn [fetch_censo_em percorrer]. unfold bind, lift, ret.
  destruct (fetch_json E url_censo (params_censo ibge a dep loc oferta) 3 w)
    as [[e|d] w1]; [reflexivity|].
  destruct (censo_presente d) as [e|[|]]; [reflexivity|reflexivity|apply IH].
Qed.

Lemma fetch_infra_em_percorrer ibge dep anos w :
  fetch_infra_em E ibge dep anos w
  = percorrer E (url_infra ibge) (fun y => params_infra y dep)
      infra_presente (fun d a => ok (d, a)) (JNull, 0) anos w.
Proof.
  revert w. induction anos as [|a r IH]; intros w; [reflexivity|].
  cbn [fetch_infra_em percorrer]. unfold bind, lift, ret.
  destruct (fetch_json E (url_infra ibge) (params_infra a dep) 3 w)
    as [[e|d] w1]; [reflexivity|].
  destruct (infra_presente d) as [e|[|]]; [reflexivity|reflexivity|apply IH].
Qed.

Lemma fetch_taxa_em_percorrer ibge ciclo dep loc anos w :
  fetch_taxa_em E ibge ciclo dep loc anos w
  = percorrer E (url_taxa ibge) (fun y => params_taxa y dep ciclo loc)
      taxa_presente conclui_taxa (JNull, JInt 0) anos w.
Proof.
  revert w. induction anos as [|a r IH]; intros w; [reflexivity|].
  cbn [fetch_taxa_em percorrer]. unfold bind, lift, ret.
  destruct (fetch_json E (url_taxa ibge) (params_taxa a dep ciclo loc) 3 w)
    as [[e|d] w1]; [reflexivity|].
  destruct (taxa_presente d) as [e|[|]]; [reflexivity| |apply IH].
  unfold conclui_taxa.
  destruct (maior_ano_em (valores_de (_normalizar_taxa_keys d)) (JInt 0));
    reflexivity.
Qed.

Lemma anos_candidatos_6 :
  _anos_candidatos E 6
  = [ANO_ATUAL E; ANO_ATUAL E - 1; ANO_ATUAL E - 2; ANO_ATUAL E - 3;
     ANO_ATUAL E - 4; ANO_ATUAL E - 5].
Proof.
  unfold _anos_candidatos. change (Z.to_nat 6) with 6%nat. cbn [seq map].
  change (Z.of_nat 0) with 0. rewrite Z.sub_0_r. reflexivity.
Qed.

End Caminhada.

(** *** Claims on the cache *)

(** C2. With at least one attempt allowed, [fetch_json] returns a result
    [r] and leaves a state from which, and from every later state of the
    run (one whose cache still holds what this one holds), a call with the
    same URL and the same items in [params], in any order, returns [r]
    again and leaves the state (cache and requests issued) as it found it.
    And [gerar_todos] behaves from any state as from the same state with
    an empty cache. *)
Theorem fetch_json_repetido (E : Ambiente) (F : Formatadores)
        (url ibge : string) (p p' : params) (t t' : Z) (w : mundo) :
  0 < t -> NoDup (map fst p) -> p ≡ₚ p' ->
  (exists r w1,
      fetch_json E url p t w = (ok r, w1)
      /\ estende w w1
      /\ forall w2, _FETCH_CACHE w1 ⊆ _FETCH_CACHE w2 ->
                    fetch_json E url p' t' w2 = (ok r, w2))
  /\ gerar_todos E F ibge w = gerar_todos E F ibge (Mundo ∅ (pedidos w)).
Proof.
  intros Ht Hnd Hperm. split; [|reflexivity].
  destruct (fetch_json_ok E url p t w) as (r & w1 & Hf).
  exists r, w1. split; [exact Hf|]. split.
  - pose proof (fetch_json_estende E url p t w) as He. rewrite Hf in He. exact He.
  - intros w2 Hsub. apply fetch_json_hit.
    rewrite <- (cache_key_perm url p p' Hnd Hperm).
    eapply lookup_weaken; [|exact Hsub].
    eapply fetch_json_guarda; eassumption.
Qed.

Lemma fetch_json_repetido_witness :
  (exists r w1,
      fetch_json Cenarios.E_sem_rede url_censo
        [("ano", PInt 2026); ("ibge_id", PStr "23")] 3 mundo_inicial = (ok r, w1)
      /\ estende mundo_inicial w1
      /\ forall w2, _FETCH_CACHE w1 ⊆ _FETCH_CACHE w2 ->
           fetch_json Cenarios.E_sem_rede url_censo
             [("ibge_id", PStr "23"); ("ano", PInt 2026)] 1 w2 = (ok r, w2))
  /\ gerar_todos Cenarios.E_sem_rede Cenarios.F_recusa "23" mundo_inicial
     = gerar_todos Cenarios.E_sem_rede Cenarios.F_recusa "23"
         (Mundo ∅ (pedidos mundo_inicial)).
Proof.
  apply (fetch_json_repetido Cenarios.E_sem_rede Cenarios.F_recusa url_censo "23"
           [("ano", PInt 2026); ("ibge_id", PStr "23")]
           [("ibge_id", PStr "23"); ("ano", PInt 2026)] 3 1 mundo_inicial).
  - reflexivity.
  - cbn. apply NoDup_cons. split.
    + intros H. apply list_elem_of_singleton in H. discriminate H.
    + apply NoDup_singleton.
  - apply Permutation_swap.
Defined.

(** C10. When the key is not cached and each of the [tentativas] >= 1
    attempts fails, [fetch_json] returns [None], has issued exactly
    [tentativas] requests and has stored [None] under the key; from then
    on, while the entry stays, every call for the key returns [None] and
    leaves the state untouched, whatever number of attempts it allows. *)
Theorem fetch_json_falha_guardada (E : Ambiente) (url : string) (p : params)
        (t : Z) (w : mundo) :
  0 < t ->
  _FETCH_CACHE w !! cache_key url p = None ->
  (forall i, (i < Z.to_nat t)%nat ->
             rede E (length (pedidos w) + i) url p = None) ->
  let w1 := Mundo (<[cache_key url p := JNull]> (_FETCH_CACHE w))
                  (pedidos w ++ replicate (Z.to_nat t) (Pedido url p)) in
  fetch_json E url p t w = (ok JNull, w1)
  /\ forall t' w2, _FETCH_CACHE w1 ⊆ _FETCH_CACHE w2 ->
                   fetch_json E url p t' w2 = (ok JNull, w2).
Proof.
  intros Ht Hc Hr w1. split.
  - unfold fetch_json. rewrite Hc.
    rewrite (tentar_falha E url p (cache_key url p) (Z.to_nat t) w); [reflexivity|lia|exact Hr].
  - intros t' w2 Hsub. apply fetch_json_hit.
    eapply lookup_weaken; [|exact Hsub]. subst w1. cbn [_FETCH_CACHE].
    apply lookup_insert_eq.
Qed.

Lemma fetch_json_falha_guardada_witness :
  let p := params_aprendizado 5 "AI" in
  let w1 := Mundo (<[cache_key (url_aprendizado "23") p := JNull]> ∅)
                  (replicate 3 (Pedido (url_aprendizado "23") p)) in
  fetch_json Cenarios.E_sem_rede (url_aprendizado "23") p 3 mundo_inicial
  = (ok JNull, w1)
  /\ forall t' w2, _FETCH_CACHE w1 ⊆ _FETCH_CACHE w2 ->
       fetch_json Cenarios.E_sem_rede (url_aprendizado "23") p t' w2
       = (ok JNull, w2).
Proof.
  apply (fetch_json_falha_guardada Cenarios.E_sem_rede (url_aprendizado "23")
           (params_aprendizado 5 "AI") 3 mundo_inicial).
  - reflexivity.
  - apply lookup_empty.
  - intros i _. reflexivity.
Defined.

(** *** Claims on the year fallback *)

(** C6, as the code has it. With no year given, the census, the
    infrastructure and the rates fetchers walk the six years from the
    current one backwards, one cached request per year, and stop at the
    first year whose payload passes their test: every year before it had
    an empty payload, no later year is requested, and what is returned is
    that payload (for the rates its normalised form, with the most recent
    year found inside it, or the candidate year when it names none); when
    no year passes, the result is [(None, 0)]. The biennial odd years of
    [_anos_saeb] are computed, but the exam-proficiency fetcher issues a
    single cached request that carries no year. A fetcher raises only what
    its test of a payload (or, for the rates, the scan for the most recent
    year) raises on a payload it fetched. *)
Theorem fallback_de_anos (E : Ambiente) (ibge ciclo : string)
        (dep loc oferta : Z) (w : mundo) :
  let anos := [ANO_ATUAL E; ANO_ATUAL E - 1; ANO_ATUAL E - 2;
               ANO_ATUAL E - 3; ANO_ATUAL E - 4; ANO_ATUAL E - 5] in
  let impar := if ANO_ATUAL E mod 2 =? 1 then ANO_ATUAL E
               else ANO_ATUAL E - 1 in
  _anos_candidatos E 6 = anos
  /\ (forall d a w',
        fetch_censo E ibge dep None loc oferta w = (ok (d, a), w') ->
        exists achado,
          primeiro_nao_vazio censo_presente url_censo
            (fun y => params_censo ibge y dep loc oferta) anos w w' achado
          /\ (d, a) = match achado with
                      | Some (a, d) => (d, a)
                      | None => (JNull, 0)
                      end)
  /\ (forall d a w',
        fetch_infra E ibge dep None w = (ok (d, a), w') ->
        exists achado,
          primeiro_nao_vazio infra_presente (url_infra ibge)
            (fun y => params_infra y dep) anos w w' achado
          /\ (d, a) = match achado with
                      | Some (a, d) => (d, a)
                      | None => (JNull, 0)
                      end)
  /\ (forall norm ano w',
        fetch_taxa E ibge ciclo dep None loc w = (ok (norm, ano), w') ->
        exists achado,
          primeiro_nao_vazio taxa_presente (url_taxa ibge)
            (fun y => params_taxa y dep ciclo loc) anos w w' achado
          /\ match achado with
             | Some (a, d) =>
                 norm = _normalizar_taxa_keys d
                 /\ exists ano_real,
                      maior_ano_em (valores_de norm) (JInt 0) = ok ano_real
                      /\ ano = if truthy ano_real then ano_real else JInt a
             | None => norm = JNull /\ ano = JInt 0
             end)
  /\ (forall e w',
        fetch_censo E ibge dep None loc oferta w = (raise e, w') ->
        exists a d,
          a ∈ anos
          /\ payload w' url_censo (params_censo ibge a dep loc oferta) = Some d
          /\ censo_presente d = raise e)
  /\ (forall e w',
        fetch_infra E ibge dep None w = (raise e, w') ->
        exists a d,
          a ∈ anos
          /\ payload w' (url_infra ibge) (params_infra a dep) = Some d
          /\ infra_presente d = raise e)
  /\ (forall e w',
        fetch_taxa E ibge ciclo dep None loc w = (raise e, w') ->
        exists a d,
          a ∈ anos
          /\ payload w' (url_taxa ibge) (params_taxa a dep ciclo loc) = Some d
          /\ (taxa_presente d = raise e
              \/ (taxa_presente d = ok true
                  /\ maior_ano_em (valores_de (_normalizar_taxa_keys d)) (JInt 0)
                     = raise e)))
  /\ _anos_saeb E = [impar; impar - 2; impar - 4; impar - 6; impar - 8]
  /\ (exists r w',
        fetch_aprendizado E ibge dep ciclo w = (ok r, w')
        /\ Forall (fun q => ano_do_pedido (ped_params q) = None) (novos w w')).
Proof.
  intros anos impar. split; [apply anos_candidatos_6|].
  split; [|split; [|split; [|split; [|split; [|split; [|split]]]]]].
  - intros d a w' H. unfold fetch_censo, anos_a_tentar in H.
    rewrite anos_candidatos_6, fetch_censo_em_percorrer in H.
    destruct (percorrer_spec E _ _ _ _ _ _ _ _ _ H) as (achado & Hp & Hr).
    exists achado. split; [exact Hp|].
    destruct achado as [[a' d']|]; congruence.
  - intros d a w' H. unfold fetch_infra, anos_a_tentar in H.
    rewrite anos_candidatos_6, fetch_infra_em_percorrer in H.
    destruct (percorrer_spec E _ _ _ _ _ _ _ _ _ H) as (achado & Hp & Hr).
    exists achado. split; [exact Hp|].
    destruct achado as [[a' d']|]; congruence.
  - intros norm ano w' H. unfold fetch_taxa, anos_a_tentar in H.
    rewrite anos_candidatos_6, fetch_taxa_em_percorrer in H.
    destruct (percorrer_spec E _ _ _ _ _ _ _ _ _ H) as (achado & Hp & Hr).
    exists achado. split; [exact Hp|].
    destruct achado as [[a' d']|].
    + unfold conclui_taxa in Hr.
      destruct (maior_ano_em (valores_de (_normalizar_taxa_keys d')) (JInt 0))
        as [e|ano_real] eqn:Hm; [discriminate|].
      injection Hr as Hn Ha. subst norm. split; [reflexivity|].
      exists ano_real. split; [exact Hm|]. symmetry. exact Ha.
    + injection Hr as Hn Ha. split; assumption.
  - intros e w' H. unfold fetch_censo, anos_a_tentar in H.
    rewrite anos_candidatos_6, fetch_censo_em_percorrer in H.
    destruct (percorrer_falha E _ _ _ _ _ _ _ _ _ H) as (a & d & Ha & Hp & [Hr|[_ Hr]]);
      [|discriminate Hr].
    exists a, d. repeat split; assumption.
  - intros e w' H. unfold fetch_infra, anos_a_tentar in H.
    rewrite anos_candidatos_6, fetch_infra_em_percorrer in H.
    destruct (percorrer_falha E _ _ _ _ _ _ _ _ _ H) as (a & d & Ha & Hp & [Hr|[_ Hr]]);
      [|discriminate Hr].
    exists a, d. repeat split; assumption.
  - intros e w' H. unfold fetch_taxa, anos_a_tentar in H.
    rewrite anos_candidatos_6, fetch_taxa_em_percorrer in H.
    destruct (percorrer_falha E _ _ _ _ _ _ _ _ _ H) as (a & d & Ha & Hp & Hr).
    exists a, d. split; [exact Ha|]. split; [exact Hp|].
    destruct Hr as [Hr|[Ht Hr]]; [left; exact Hr|right].
    split; [exact Ht|]. unfold conclui_taxa in Hr.
    destruct (maior_ano_em (valores_de (_normalizar_taxa_keys d)) (JInt 0));
      [injection Hr as ->; reflexivity|discriminate Hr].
  - unfold _anos_saeb. fold impar. cbn [seq map].
    change (Z.of_nat 0) with 0. rewrite Z.mul_0_r, Z.sub_0_r. reflexivity.
  - unfold fetch_aprendizado.
    destruct (fetch_json_passo E (url_aprendizado ibge)
                (params_aprendizado dep ciclo) w) as (r & w' & Hf & _ & _ & m & Hn).
    exists r, w'. split; [exact Hf|]. rewrite Hn.
    apply Forall_replicate. reflexivity.
Qed.

Lemma fallback_de_anos_witness :
  let w' := snd (fetch_censo Cenarios.E_censo_2024 "2304400" 3 None 0 0
                   mundo_inicial) in
  primeiro_nao_vazio censo_presente url_censo
    (fun y => params_censo "2304400" y 3 0 0)
    [2026; 2025; 2024; 2023; 2022; 2021] mundo_inicial w'
    (Some (2024, Cenarios.censo_2024))
  /\ map (fun q => ano_do_pedido (ped_params q)) (pedidos w')
     = [Some (PInt 2026); Some (PInt 2026); Some (PInt 2026);
        Some (PInt 2025); Some (PInt 2025); Some (PInt 2025);
        Some (PInt 2024)].
Proof.
  intros w'. split; [|vm_compute; reflexivity].
  destruct (fallback_de_anos Cenarios.E_censo_2024 "2304400" "AI" 3 0 0
              mundo_inicial) as (_ & Hc & _).
  destruct (Hc Cenarios.censo_2024 2024 w') as (achado & Hp & Heq).
  - vm_compute. reflexivity.
  - destruct achado as [[a d]|]; [|discriminate Heq].
    injection Heq as <- <-. exact Hp.
Defined.

(** C6, as stated, fails for the exam-proficiency data: with every request
    failing, the fetcher tries none of the biennial years 2025, 2023, ...;
    it issues the three attempts of one request that carries no year. *)
Lemma aprendizado_sem_fallback :
  _anos_saeb Cenarios.E_sem_rede = [2025; 2023; 2021; 2019; 2017]
  /\ fst (fetch_aprendizado Cenarios.E_sem_rede "2304400" 5 "AI" mundo_inicial)
     = ok JNull
  /\ map (fun q => ano_do_pedido (ped_params q))
         (pedidos (snd (fetch_aprendizado Cenarios.E_sem_rede "2304400" 5 "AI"
                          mundo_inicial)))
     = [None; None; None].
Proof. vm_compute. repeat split. Qed.

(** *** Claims on scaling and formatting *)

(** C3, as the code has it. [_pct], [_pp], [_safe_taxa] and
    [_classificar_taxa] scale by the convention of the specification;
    [_classificar_desempenho] scales by a rule of its own: a value is
    multiplied by 100 when it is at most 1, without taking the absolute
    value. *)
Theorem escala_dos_auxiliares (v : num) (tipo : string) (decimais : nat) :
  _pct (Some v) = fixo false 1 (convencao_spec v) ++ "%"
  /\ _pp (Some v) decimais = fixo true decimais (convencao_spec v) ++ "pp"
  /\ _safe_taxa (Some v) = fixo false 1 (convencao_spec v) ++ "%"
  /\ _classificar_taxa (Some v) tipo = faixa_taxa tipo (convencao_spec v)
  /\ _classificar_desempenho (Some v)
     = faixa_desempenho (if num_leb v (PyInt 1) then vezes100 v else v)
  /\ (num_leb v (PyInt 1) = num_leb (num_abs v) (PyFloat 1.01) ->
      _classificar_desempenho (Some v) = faixa_desempenho (convencao_spec v)).
Proof.
  repeat split.
  intros H. unfold _classificar_desempenho, convencao_spec, faixa_desempenho.
  rewrite H. reflexivity.
Qed.

(** C3, as stated, fails for [_classificar_desempenho]: 1.0078125 is at
    most 1.01 in absolute value, so the convention reads it as 100.78125 %
    (the best tier), while the code leaves it at 1.0078125 (the worst). *)
Lemma desempenho_fora_da_convencao :
  num_leb (num_abs (PyFloat 1.0078125)) (PyFloat 1.01) = true
  /\ faixa_desempenho (convencao_spec (PyFloat 1.0078125))
     = ("Bom desempenho", "✅")
  /\ _classificar_desempenho (Some (PyFloat 1.0078125))
     = ("Desempenho crítico - oportunidade de atuação", "🔴").
Proof. vm_compute. repeat split. Qed.




(** *** Claims on missing values *)

Section Sentinelas.

Lemma app_cons a s t : String a s ++ t = String a (s ++ t).
Proof. reflexivity. Qed.









End Sentinelas.



(** *** Claim on the trend *)

(** C7, as the code has it. For a series of at least two points,
    [_trend_slope] returns the slope numpy's degree-one [polyfit] gives
    when numpy is installed and the fit does not raise. When numpy is not
    installed, or the fit raises (the exception is swallowed), the outcome
    is that of the fallback: the difference of the last and the first
    value divided by the difference of the last and the first year when
    these years differ, and [ZeroDivisionError] when they are equal. *)
Theorem trend_slope_spec (polyfit : list Z -> list float -> res float)
        (anos : list Z) (valores : list float)
        (a0 an : Z) (v0 vn : float) :
  (2 <= length anos)%nat ->
  head anos = Some a0 -> last anos = Some an ->
  head valores = Some v0 -> last valores = Some vn ->
  let recurso := _trend_slope None anos valores in
  (forall s, polyfit anos valores = ok s ->
             _trend_slope (Some polyfit) anos valores = ok s)
  /\ (forall e, polyfit anos valores = raise e ->
                _trend_slope (Some polyfit) anos valores = recurso)
  /\ (an <> a0 -> recurso = ok ((vn - v0) / Z2float (an - a0))%float)
  /\ (an = a0 ->
      recurso = raise (Exn "ZeroDivisionError" "float division by zero")).
Proof.
  intros Hlen Ha0 Han Hv0 Hvn recurso.
  assert (Hl : (2 <=? length anos)%nat = true) by (apply Nat.leb_le; exact Hlen).
  assert (Hr : recurso
               = if an - a0 =? 0
                 then raise (Exn "ZeroDivisionError" "float division by zero")
                 else ok ((vn - v0) / Z2float (an - a0))%float).
  { unfold recurso, _trend_slope. rewrite Hl.
    destruct valores as [|v valores']; [discriminate|].
    destruct anos as [|a anos']; [discriminate|].
    cbn in Ha0, Hv0. injection Ha0 as ->. injection Hv0 as ->.
    rewrite Hvn, Han. reflexivity. }
  split; [|split; [|split]].
  - intros s Hp. unfold _trend_slope. rewrite Hl, Hp. reflexivity.
  - intros e Hp. unfold recurso, _trend_slope. rewrite Hl, Hp. reflexivity.
  - intros Hne. rewrite Hr.
    destruct (an - a0 =? 0) eqn:Hz; [apply Z.eqb_eq in Hz; lia|reflexivity].
  - intros ->. rewrite Hr, Z.sub_diag. reflexivity.
Qed.

Lemma trend_slope_spec_witness :
  _trend_slope (Some (Cenarios.polyfit_fixo 0.25)) [2019; 2021; 2023]
               [5.0; 5.5; 6.0]%float = ok 0.25%float
  /\ _trend_slope None [2019; 2021; 2023] [5.0; 5.5; 6.0]%float
     = ok ((6.0 - 5.0) / Z2float (2023 - 2019))%float.
Proof.
  destruct (trend_slope_spec (Cenarios.polyfit_fixo 0.25) [2019; 2021; 2023]
              [5.0; 5.5; 6.0]%float 2019 2023 5.0%float 6.0%float)
    as (H1 & _ & H3 & _).
  - cbn. lia.
  - reflexivity.
  - reflexivity.
  - reflexivity.
  - reflexivity.
  - split; [apply H1; reflexivity|apply H3; lia].
Defined.

(** C7, as stated, fails on both sides. Without numpy, a series whose
    first and last year are equal has no quotient: the call raises. With
    numpy, a fit that raises (here on a series with a NaN in it) is
    swallowed and the quotient of the end points is returned, not a
    regression slope. *)
Lemma declive_sem_quociente :
  _trend_slope None [2020; 2020] [5.0; 6.0]%float
  = raise (Exn "ZeroDivisionError" "float division by zero")
  /\ _trend_slope (Some Cenarios.polyfit_falha) [2019; 2021; 2023]
                  [5.0; PrimFloat.nan; 6.0]%float
     = ok 0.25%float.
Proof. vm_compute. split; reflexivity. Qed.

(** *** Cleaning of a code *)

Section Limpeza.
Variable U : Unicode.

Lemma chars_cons a s :
  chars (String a s)
  = if comeca_continuacao s
    then match chars s with
         | x :: xs => String a x :: xs
         | [] => [String a EmptyString]
         end
    else String a EmptyString :: chars s.
Proof. reflexivity. Qed.

(** A character followed by a text that opens a new character is cut off
    as it stands. *)
Lemma chars_segmento_app r t a :
  so_continuacao r = true -> comeca_continuacao t = false ->
  chars (String a (r ++ t)) = String a r :: chars t.
Proof.
  revert a. induction r as [|b r IH]; intros a Hr Ht.
  - change (EmptyString ++ t) with t. rewrite chars_cons, Ht. reflexivity.
  - cbn [so_continuacao] in Hr. apply andb_true_iff in Hr as [Hb Hr].
    rewrite app_cons, chars_cons. cbn [comeca_continuacao]. rewrite Hb.
    rewrite (IH b Hr Ht). reflexivity.
Qed.

Lemma concat_vazio_cons c r :
  String.concat EmptyString (c :: r) = c ++ String.concat EmptyString r.
Proof.
  destruct r as [|x r]; cbn [String.concat].
  - induction c as [|a c IH]; [reflexivity|]. rewrite app_cons, <- IH. reflexivity.
  - reflexivity.
Qed.

Lemma comeca_continuacao_app c t :
  c <> EmptyString -> comeca_continuacao (c ++ t) = comeca_continuacao c.
Proof. destruct c; [congruence|reflexivity]. Qed.

Lemma segmento_nao_vazio c : segmento c = true -> c <> EmptyString.
Proof. destruct c; [discriminate|congruence]. Qed.

Lemma chars_concat cs :
  segmentada cs -> chars (String.concat EmptyString cs) = cs.
Proof.
  destruct cs as [|c r]; [reflexivity|]. intros [Hc Hr].
  revert c Hc. induction r as [|x r IH]; intros c Hc.
  - rewrite concat_vazio_cons. cbn [String.concat].
    destruct c as [|a c]; [discriminate|].
    rewrite app_cons, chars_segmento_app; [reflexivity|exact Hc|reflexivity].
  - apply Forall_cons in Hr as [[Hx Hi] Hr].
    rewrite concat_vazio_cons.
    destruct c as [|a c]; [discriminate|].
    rewrite app_cons, chars_segmento_app; [|exact Hc|].
    + rewrite (IH Hr x Hx). reflexivity.
    + rewrite concat_vazio_cons, comeca_continuacao_app; [exact Hi|].
      apply segmento_nao_vazio, Hx.
Qed.

Lemma chars_vazio s : chars s = [] -> s = EmptyString.
Proof.
  destruct s as [|a s]; [reflexivity|]. rewrite chars_cons.
  destruct (comeca_continuacao s); [destruct (chars s)|]; discriminate.
Qed.

Lemma chars_primeiro s x xs :
  chars s = x :: xs -> comeca_continuacao x = comeca_continuacao s.
Proof.
  destruct s as [|a s]; [discriminate|]. rewrite chars_cons.
  destruct (comeca_continuacao s); [destruct (chars s)|];
    intros H; injection H as <- _; reflexivity.
Qed.

Lemma chars_segmentada s : segmentada (chars s).
Proof.
  induction s as [|a s IH]; [exact I|]. rewrite chars_cons.
  destruct (comeca_continuacao s) eqn:Hs.
  - destruct (chars s) as [|x xs] eqn:Hx.
    + split; [reflexivity|constructor].
    + destruct IH as [Hseg Hr]. split; [|exact Hr].
      pose proof (chars_primeiro s x xs Hx) as Hp. rewrite Hs in Hp.
      destruct x as [|b x]; [discriminate|].
      cbn [segmento so_continuacao]. cbn [comeca_continuacao] in Hp.
      rewrite Hp. exact Hseg.
  - split; [reflexivity|].
    destruct (chars s) as [|x xs] eqn:Hx; [constructor|].
    destruct IH as [Hseg Hr]. constructor; [|exact Hr].
    split; [exact Hseg|]. rewrite (chars_primeiro s x xs Hx). exact Hs.
Qed.

Lemma segmentada_sufixo k cs : segmentada (k ++ cs)%list -> segmentada cs.
Proof.
  induction k as [|c k IH]; [trivial|].
  change ((c :: k) ++ cs)%list with (c :: (k ++ cs))%list.
  intros H. destruct H as [_ H]. apply IH.
  destruct (k ++ cs)%list as [|x r]; [exact I|].
  apply Forall_cons in H as [[Hx _] Hr]. split; assumption.
Qed.

Lemma segmentada_prefixo cs k : segmentada (cs ++ k)%list -> segmentada cs.
Proof.
  destruct cs as [|c r]; [intros _; exact I|].
  change ((c :: r) ++ k)%list with (c :: (r ++ k))%list.
  intros H. destruct H as [Hc H]. split; [exact Hc|].
  apply Forall_app in H as [H _]. exact H.
Qed.

Lemma lstrip_sufixo cs : exists k, cs = (k ++ lstrip_chars U cs)%list.
Proof.
  induction cs as [|c r [k IH]]; [exists []; reflexivity|].
  cbn [lstrip_chars]. destruct (char_isspace U c).
  - exists (c :: k). cbn. rewrite <- IH. reflexivity.
  - exists []. reflexivity.
Qed.

Lemma lstrip_sem_espaco cs : sem_espaco_a_frente U (lstrip_chars U cs).
Proof.
  induction cs as [|c r IH]; [exact I|]. cbn [lstrip_chars].
  destruct (char_isspace U c) eqn:Hc; [exact IH|exact Hc].
Qed.

Lemma lstrip_fixo cs : sem_espaco_a_frente U cs -> lstrip_chars U cs = cs.
Proof.
  destruct cs as [|c r]; [reflexivity|]. cbn. intros ->. reflexivity.
Qed.

Lemma sem_espaco_prefixo cs k :
  sem_espaco_a_frente U (cs ++ k)%list -> sem_espaco_a_frente U cs.
Proof. destruct cs; [intros _; exact I|exact id]. Qed.

(** The characters [strip] keeps. *)
Lemma strip_chars s :
  exists cs,
    strip U s = String.concat EmptyString cs
    /\ segmentada cs
    /\ lstrip_chars U cs = cs
    /\ lstrip_chars U (rev cs) = rev cs.
Proof.
  set (A := lstrip_chars U (chars s)).
  exists (rev (lstrip_chars U (rev A))).
  destruct (lstrip_sufixo (rev A)) as [k Hk].
  assert (HA : A = (rev (lstrip_chars U (rev A)) ++ rev k)%list).
  { rewrite <- rev_app_distr, <- Hk, rev_involutive. reflexivity. }
  split; [reflexivity|]. split; [|split].
  - apply segmentada_prefixo with (k := rev k). rewrite <- HA.
    destruct (lstrip_sufixo (chars s)) as [k' Hk'].
    apply segmentada_sufixo with (k := k'). fold A in Hk'. rewrite <- Hk'.
    apply chars_segmentada.
  - apply lstrip_fixo. apply sem_espaco_prefixo with (k := rev k).
    rewrite <- HA. apply lstrip_sem_espaco.
  - rewrite rev_involutive. apply lstrip_fixo, lstrip_sem_espaco.
Qed.

(** Cleaning a cleaned code changes nothing. *)
Lemma strip_idempotente s : strip U (strip U s) = strip U s.
Proof.
  destruct (strip_chars s) as (cs & Hs & Hseg & Hl & Hr).
  rewrite Hs. unfold strip. rewrite (chars_concat cs Hseg), Hl, Hr.
  rewrite rev_involutive. reflexivity.
Qed.

End Limpeza.

(** *** Claim on malformed codes *)

Section Rejeicao.
Variable E : Ambiente.
Variable gerar : string -> M pacote.
Variable descobrir : string -> M (json * json).

Lemma validar_rejeita c :
  isdigit (unicode E) (strip (unicode E) c)
  && tamanho_valido (strip (unicode E) c) = false ->
  exists erro, _validar_ibge E c = inl erro /\ status erro = 400.
Proof.
  intros H. unfold _validar_ibge.
  destruct (isdigit (unicode E) (strip (unicode E) c)),
           (tamanho_valido (strip (unicode E) c));
    try discriminate; cbn [negb orb]; eexists; split; reflexivity.
Qed.

Lemma gerar_rejeita c w :
  isdigit (unicode E) (strip (unicode E) c)
  && tamanho_valido (strip (unicode E) c) = false ->
  exists erro, _gerar E gerar c w = (inl erro, w) /\ status erro = 400.
Proof.
  intros H. destruct (validar_rejeita c H) as (erro & Hv & Hs).
  exists erro. unfold _gerar. rewrite Hv. split; [reflexivity|exact Hs].
Qed.

(** An ASCII character other than [0..9] makes [isdigit] fail whatever the
    tables of the runtime hold. *)
Lemma isdigit_ascii_nao_digito s :
  tem_ascii_nao_digito s = true -> isdigit (unicode E) s = false.
Proof.
  unfold tem_ascii_nao_digito, isdigit. intros H.
  apply existsb_exists in H as (ch & Hin & Hch).
  destruct (chars s) as [|c r] eqn:Hc; [reflexivity|].
  apply not_true_is_false. intros Hall.
  rewrite forallb_forall in Hall. specialize (Hall ch Hin).
  destruct ch as [|a [|b t]]; try discriminate Hch.
  cbn in Hch, Hall. apply andb_true_iff in Hch as [Hlt Hnd].
  rewrite Hlt in Hall. rewrite Hall in Hnd. discriminate Hnd.
Qed.

End Rejeicao.

(** C8, as the code has it. Whatever the generator, a request whose code,
    once the white space around it is stripped, fails [str.isdigit] on the
    tables of the runtime (as it does when it is empty or holds an ASCII
    character other than [0..9], whatever these tables), or does not have
    2 or 7 characters, is answered with status 400 and leaves the state of
    the process as it was: nothing was fetched and the generator did not
    run. *)
Theorem codigo_malformado_rejeitado (E : Ambiente)
        (gerar : string -> M pacote) (descobrir : string -> M (json * json))
        (req : requisicao) (c : string) (w : mundo) :
  codigo_de req = Some c ->
  let s := strip (unicode E) c in
  s = EmptyString \/ tem_ascii_nao_digito s = true
  \/ isdigit (unicode E) s = false \/ tamanho_valido s = false ->
  status (fst (atender E gerar descobrir req w)) = 400
  /\ snd (atender E gerar descobrir req w) = w.
Proof.
  intros Hc s Hs.
  assert (Hm : isdigit (unicode E) (strip (unicode E) c)
               && tamanho_valido (strip (unicode E) c) = false).
  { fold s. destruct Hs as [->|[Hs|[Hs|Hs]]].
    - reflexivity.
    - rewrite (isdigit_ascii_nao_digito E _ Hs). reflexivity.
    - rewrite Hs. reflexivity.
    - rewrite Hs. apply andb_false_r. }
  clear s Hs.
  assert (Hm' : isdigit (unicode E) (strip (unicode E) (strip (unicode E) c))
                && tamanho_valido (strip (unicode E) (strip (unicode E) c)) = false)
    by (rewrite strip_idempotente; exact Hm).
  destruct req as [|i|i|i t|i|i]; cbn [codigo_de] in Hc;
    try discriminate; injection Hc as <-; cbn [atender].
  - destruct (String.eqb _ EmptyString); [split; reflexivity|].
    unfold responder_relatorios.
    destruct (gerar_rejeita E gerar _ w Hm') as (erro & -> & Hs).
    split; [exact Hs|reflexivity].
  - unfold responder_relatorios.
    destruct (gerar_rejeita E gerar _ w Hm) as (erro & -> & Hs).
    split; [exact Hs|reflexivity].
  - destruct (String.eqb _ EmptyString); [split; reflexivity|].
    destruct (negb _); [split; reflexivity|].
    destruct (gerar_rejeita E gerar _ w Hm') as (erro & -> & Hs).
    split; [exact Hs|reflexivity].
  - destruct (String.eqb _ EmptyString); [split; reflexivity|].
    unfold responder_municipio.
    destruct (validar_rejeita E _ Hm') as (erro & -> & Hs).
    split; [exact Hs|reflexivity].
  - unfold responder_municipio.
    destruct (validar_rejeita E _ Hm) as (erro & -> & Hs).
    split; [exact Hs|reflexivity].
Qed.

Lemma codigo_malformado_rejeitado_witness :
  status (fst (servico Cenarios.E_digitos Cenarios.F_recusa
                 (GetGerarQuery (Some " 23O4400 ")) mundo_inicial)) = 400
  /\ snd (servico Cenarios.E_digitos Cenarios.F_recusa
            (GetGerarQuery (Some " 23O4400 ")) mundo_inicial) = mundo_inicial.
Proof.
  apply (codigo_malformado_rejeitado Cenarios.E_digitos
           (gerar_todos Cenarios.E_digitos Cenarios.F_recusa)
           (descobrir_municipio Cenarios.E_digitos)
           (GetGerarQuery (Some " 23O4400 ")) " 23O4400 " mundo_inicial).
  - reflexivity.
  - right. left. vm_compute. reflexivity.
Defined.

(** C8, as stated, fails in two ways. A code with white space around it:
    [" 23"] is not all digits, and the service cleans it, answers 200 and
    has issued requests to the remote API by then. A code written in digits
    other than [0..9]: the superscripts of ["²³"] are digits for
    [str.isdigit] and count as two characters, so the code passes the
    validation, the generator runs on it and the service answers 200 after
    117 requests. *)
Lemma codigo_com_espaco_aceito :
  isdigit unicode_ascii " 23" = false
  /\ status (fst (servico Cenarios.E_sem_rede Cenarios.F_recusa
                    (GetGerarPath " 23") mundo_inicial)) = 200
  /\ length (pedidos (snd (servico Cenarios.E_sem_rede Cenarios.F_recusa
                             (GetGerarPath " 23") mundo_inicial))) = 99%nat
  /\ digitos_0a9 "²³" = false
  /\ isdigit Cenarios.unicode_digitos "²³" = true
  /\ py_len "²³" = 2%nat
  /\ status (fst (servico Cenarios.E_digitos Cenarios.F_recusa
                    (GetGerarPath "²³") mundo_inicial)) = 200
  /\ length (pedidos (snd (servico Cenarios.E_digitos Cenarios.F_recusa
                             (GetGerarPath "²³") mundo_inicial))) = 117%nat.
Proof. vm_compute. repeat split. Qed.

(** *** Claim on failing renderers *)

Section Orquestrador.
Variable E : Ambiente.
Variable F : Formatadores.

Lemma tentar_gerador_spec nome (m : M string) w :
  tentar_gerador nome m w = (ok (texto_ou_erro nome (fst (m w))), snd (m w)).
Proof. unfold tentar_gerador. destruct (m w) as [[e|txt] w']; reflexivity. Qed.

Lemma length_app_str a t :
  String.length (a ++ t) = (String.length a + String.length t)%nat.
Proof.
  induction a as [|x a IH]; [reflexivity|].
  rewrite app_cons. cbn [String.length]. rewrite IH. reflexivity.
Qed.

Lemma app_inv_cauda a b t : a ++ t = b ++ t -> a = b.
Proof.
  intros H.
  assert (Hl : String.length a = String.length b).
  { apply (f_equal String.length) in H. rewrite !length_app_str in H. lia. }
  revert b H Hl. induction a as [|x a IH]; intros [|y b] H Hl;
    try discriminate Hl; [reflexivity|].
  rewrite !app_cons in H. injection H as -> H. f_equal.
  apply IH; [exact H|]. cbn in Hl. lia.
Qed.

Lemma nomes_distintos slug a b :
  a <> b -> String.eqb (nome_arquivo slug a) (nome_arquivo slug b) = false.
Proof.
  intros Hab. apply String.eqb_neq. unfold nome_arquivo. intros H.
  apply String.app_inj in H. injection H as H.
  apply Hab. eapply app_inv_cauda. exact H.
Qed.

(** The loop over the renderers never raises: each entry is the text of its
    renderer or the error text of its exception, and each renderer starts
    from the state the one before it left. *)
Lemma gerar_arquivos_spec ibge mun uf slug w :
  let r1 := gerar_txt_aprendizado E F ibge mun uf w in
  let r2 := gerar_txt_infra E F ibge mun uf (snd r1) in
  let r3 := gerar_txt_censo E F ibge mun uf (snd r2) in
  let r4 := gerar_txt_ideb E F ibge mun uf (snd r3) in
  let r5 := gerar_txt_taxa E F ibge mun uf (snd r4) in
  gerar_arquivos ibge mun uf slug (geradores E F) [] w
  = (ok [(nome_arquivo slug "aprendizado", texto_ou_erro "aprendizado" (fst r1));
         (nome_arquivo slug "infra", texto_ou_erro "infra" (fst r2));
         (nome_arquivo slug "censo", texto_ou_erro "censo" (fst r3));
         (nome_arquivo slug "ideb", texto_ou_erro "ideb" (fst r4));
         (nome_arquivo slug "taxa_rendimento",
          texto_ou_erro "taxa_rendimento" (fst r5))],
     snd r5).
Proof.
  intros r1 r2 r3 r4 r5. unfold geradores. cbn [gerar_arquivos].
  unfold bind, ret. rewrite !tentar_gerador_spec. fold r1.
  cbn [fst snd]. fold r2. fold r3. fold r4. fold r5.
  change (?s ++ "_" ++ ?n ++ ".txt") with (nome_arquivo s n).
  repeat (cbn [dict_set]; rewrite ?nomes_distintos by discriminate).
  reflexivity.
Qed.

End Orquestrador.

(** C9, as the code has it. Once the entity is resolved, the five renderers
    run in order, each from the state the one before it left; a renderer
    that raises gets the inline error text as its entry and the others run
    all the same. The structured collector runs after them outside any
    handler: [gerar_todos] returns the bundle with the five entries when the
    collector returns, and raises what the collector raises. *)
Theorem falha_de_gerador_isolada (E : Ambiente) (F : Formatadores)
        (ibge mun : string) (uf : json) (w0 w : mundo) :
  descobrir_municipio E ibge (_clear_cache w0) = (ok (JStr mun, uf), w) ->
  let r1 := gerar_txt_aprendizado E F ibge mun uf w in
  let r2 := gerar_txt_infra E F ibge mun uf (snd r1) in
  let r3 := gerar_txt_censo E F ibge mun uf (snd r2) in
  let r4 := gerar_txt_ideb E F ibge mun uf (snd r3) in
  let r5 := gerar_txt_taxa E F ibge mun uf (snd r4) in
  let arqs :=
    [(nome_arquivo (_slug mun) "aprendizado", texto_ou_erro "aprendizado" (fst r1));
     (nome_arquivo (_slug mun) "infra", texto_ou_erro "infra" (fst r2));
     (nome_arquivo (_slug mun) "censo", texto_ou_erro "censo" (fst r3));
     (nome_arquivo (_slug mun) "ideb", texto_ou_erro "ideb" (fst r4));
     (nome_arquivo (_slug mun) "taxa_rendimento",
      texto_ou_erro "taxa_rendimento" (fst r5))] in
  gerar_todos E F ibge w0
  = match coletar_dados_estruturados E F ibge mun uf (snd r5) with
    | (inr dados, w') => (ok (Pacote mun uf ibge arqs dados), w')
    | (inl e, w') => (inl e, w')
    end.
Proof.
  intros Hd r1 r2 r3 r4 r5 arqs. unfold gerar_todos, bind. rewrite Hd.
  cbn [slug_de lift].
  rewrite (gerar_arquivos_spec E F ibge mun uf (_slug mun) w).
  fold r1 r2 r3 r4 r5. cbn [snd]. fold arqs.
  destruct (coletar_dados_estruturados E F ibge mun uf (snd r5)) as [[e|d] w'];
    reflexivity.
Qed.

Lemma falha_de_gerador_isolada_witness :
  exists arqs,
    fst (gerar_todos Cenarios.E_ideb_medio Cenarios.F_recusa "23" mundo_inicial)
    = ok (Pacote "Ceará" (JStr "CE") "23" arqs
            (JObj [("entidade", JStr "Ceará"); ("uf", JStr "CE");
                   ("tipo", JStr "estado")]))
    /\ map (fun p => (fst p, contem "❌ Erro ao gerar" (snd p))) arqs
       = [("Ceará_aprendizado.txt", false); ("Ceará_infra.txt", false);
          ("Ceará_censo.txt", false); ("Ceará_ideb.txt", true);
          ("Ceará_taxa_rendimento.txt", false)]
    /\ nth 3 (map snd arqs) EmptyString
       = "❌ Erro ao gerar ideb: formatador alcançado".
Proof.
  eexists. split; [|split].
  - rewrite (falha_de_gerador_isolada Cenarios.E_ideb_medio Cenarios.F_recusa
               "23" "Ceará" (JStr "CE") mundo_inicial mundo_inicial eq_refl).
    vm_compute. reflexivity.
  - vm_compute. reflexivity.
  - vm_compute. reflexivity.
Defined.

(** C9, as stated, fails when the payload that makes a renderer raise also
    reaches the collector: the census endpoint answers with a JSON list,
    the census renderer alone raises and gets its error text, and the whole
    bundle is lost to the same exception raised by the collector. *)
Lemma coletor_aborta_pacote :
  fst (gerar_todos Cenarios.E_censo_lista Cenarios.F_recusa "23" mundo_inicial)
  = raise (Exn "AttributeError" "'list' object has no attribute 'get'")
  /\ match fst (gerar_arquivos "23" "Ceará" (JStr "CE") "Ceará"
                  (geradores Cenarios.E_censo_lista Cenarios.F_recusa) []
                  mundo_inicial) with
     | inr arqs => map (fun p => (fst p, contem "❌ Erro ao gerar" (snd p))) arqs
     | inl _ => []
     end
     = [("Ceará_aprendizado.txt", false); ("Ceará_infra.txt", false);
        ("Ceará_censo.txt", true); ("Ceará_ideb.txt", false);
        ("Ceará_taxa_rendimento.txt", false)].
Proof. vm_compute. split; reflexivity. Qed.

(** *** Claim on a run without network *)

Section Avisos.

Lemma contem_app_r sub s t : contem sub t = true -> contem sub (s ++ t) = true.
Proof.
  intros H. induction s as [|a s IH]; [exact H|].
  rewrite app_cons. cbn [contem]. rewrite IH. apply orb_true_r.
Qed.

Lemma aviso_apos_cabecalho cab corpo :
  contem "Sem dados" corpo = true -> avisa_sem_dados (cab ++ corpo).
Proof. apply contem_app_r. Qed.

End Avisos.

Section Devolve.

Lemma devolve_ret {A} (a : A) : devolve (ret a) a.
Proof. intros w Hw. exists w. split; [reflexivity|exact Hw]. Qed.

Lemma devolve_lift {A} (r : res A) (a : A) : r = ok a -> devolve (lift r) a.
Proof. intros ->. apply devolve_ret. Qed.

Lemma devolve_bind {A B} (m : M A) (k : A -> M B) a b :
  devolve m a -> devolve (k a) b -> devolve (bind m k) b.
Proof.
  intros Hm Hk w Hw. destruct (Hm w Hw) as (w1 & H1 & Hw1).
  destruct (Hk w1 Hw1) as (w2 & H2 & Hw2).
  exists w2. split; [|exact Hw2]. unfold bind. rewrite H1. exact H2.
Qed.

End Devolve.

Create HintDb sem_rede.
#[local] Hint Resolve devolve_ret : sem_rede.
#[local] Hint Extern 1 (devolve (lift _) _) =>
  apply devolve_lift; reflexivity : sem_rede.

(** Follows a chain of binds whose steps are known to return. *)
Ltac decide_ramo :=
  cbn beta iota; cbn [truthy num_truthy negb Z.eqb String.eqb].

Ltac encadeia :=
  decide_ramo;
  repeat (eapply devolve_bind; [solve [eauto with sem_rede]|]; decide_ramo);
  try solve [eauto with sem_rede].

Section SemRede.
Variable E : Ambiente.
Variable F : Formatadores.
Hypothesis Hrede : sem_rede E.

Lemma fetch_json_sem_rede url p : devolve (fetch_json E url p 3) JNull.
Proof.
  intros w Hw. destruct (_FETCH_CACHE w !! cache_key url p) as [r|] eqn:Hc.
  - exists w. rewrite (fetch_json_hit E url p 3 w r Hc).
    rewrite (Hw _ _ Hc). split; [reflexivity|exact Hw].
  - unfold fetch_json. rewrite Hc.
    rewrite (tentar_falha E url p (cache_key url p) (Z.to_nat 3) w);
      [|cbn; lia|intros; apply Hrede].
    eexists. split; [reflexivity|].
    intros k v Hk. cbn [_FETCH_CACHE] in Hk.
    apply lookup_insert_Some in Hk as [[_ <-]|[_ Hk]]; [reflexivity|].
    exact (Hw _ _ Hk).
Qed.
#[local] Hint Resolve fetch_json_sem_rede : sem_rede.

Lemma fetch_aprendizado_sem_rede ibge dep ciclo :
  devolve (fetch_aprendizado E ibge dep ciclo) JNull.
Proof. apply fetch_json_sem_rede. Qed.
#[local] Hint Resolve fetch_aprendizado_sem_rede : sem_rede.

Lemma fetch_censo_sem_rede ibge dep ano loc oferta :
  devolve (fetch_censo E ibge dep ano loc oferta) (JNull, 0).
Proof.
  unfold fetch_censo. induction (anos_a_tentar E ano) as [|a r IH];
    cbn [fetch_censo_em]; encadeia.
Qed.
#[local] Hint Resolve fetch_censo_sem_rede : sem_rede.

Lemma fetch_infra_sem_rede ibge dep ano :
  devolve (fetch_infra E ibge dep ano) (JNull, 0).
Proof.
  unfold fetch_infra. induction (anos_a_tentar E ano) as [|a r IH];
    cbn [fetch_infra_em]; encadeia.
Qed.
#[local] Hint Resolve fetch_infra_sem_rede : sem_rede.

Lemma fetch_taxa_sem_rede ibge ciclo dep ano loc :
  devolve (fetch_taxa E ibge ciclo dep ano loc) (JNull, JInt 0).
Proof.
  unfold fetch_taxa. induction (anos_a_tentar E ano) as [|a r IH];
    cbn [fetch_taxa_em]; encadeia.
Qed.
#[local] Hint Resolve fetch_taxa_sem_rede : sem_rede.

Lemma nome_por_taxa_em_sem_rede ibge ciclo anos :
  devolve (nome_por_taxa_em E ibge ciclo anos) None.
Proof. induction anos as [|a r IH]; cbn [nome_por_taxa_em]; encadeia. Qed.
#[local] Hint Resolve nome_por_taxa_em_sem_rede : sem_rede.

Lemma nome_por_taxa_sem_rede ibge ciclos :
  devolve (nome_por_taxa E ibge ciclos) None.
Proof. induction ciclos as [|c r IH]; cbn [nome_por_taxa]; encadeia. Qed.
#[local] Hint Resolve nome_por_taxa_sem_rede : sem_rede.

(** Without network the entity is named by the table of states or by the
    municipal IDEB table, and in the last resort by its code. *)
Lemma descobrir_municipio_sem_rede ibge :
  exists mun sigla,
    devolve (descobrir_municipio E ibge) (JStr mun, JStr sigla).
Proof.
  unfold descobrir_municipio.
  destruct (uf_lookup (strip (unicode E) ibge) UF_CODES) as [[nome sigla]|].
  - exists nome, sigla. apply devolve_ret.
  - destruct (nome_no_csv E (strip (unicode E) ibge)) as [m s] eqn:Hcsv.
    assert (exists mun sigla, (m, s) = (JStr mun, JStr sigla)) as (mun & sigla & Heq).
    { unfold nome_no_csv in Hcsv.
      destruct (IDEB_MUN_CSV E); [destruct (linhas_onde _ _ _)|];
        injection Hcsv as <- <-; eauto. }
    injection Heq as -> ->. exists mun, sigla. encadeia.
Qed.

Lemma aprendizado_ciclos_sem_rede ibge mun ciclos txt :
  devolve (aprendizado_ciclos E F ibge mun ciclos txt) txt.
Proof.
  induction ciclos as [|[cid cnome] r IH]; cbn [aprendizado_ciclos]; encadeia.
Qed.
#[local] Hint Resolve aprendizado_ciclos_sem_rede : sem_rede.

Lemma taxa_ciclos_sem_rede ibge ciclos etapas :
  exists etapas',
    devolve (taxa_ciclos E F ibge ciclos etapas (JInt 0)) (etapas', JInt 0).
Proof.
  revert etapas. induction ciclos as [|[cid cnome] r IH]; intros etapas.
  - exists etapas. apply devolve_ret.
  - destruct (IH (dict_set cid JNull etapas)) as [etapas' H].
    exists etapas'. cbn [taxa_ciclos]. encadeia.
Qed.

Lemma estrut_aprendizado_ciclos_sem_rede ibge ciclos acc :
  devolve (estrut_aprendizado_ciclos E F ibge ciclos acc) acc.
Proof.
  induction ciclos as [|[cid cnome] r IH]; cbn [estrut_aprendizado_ciclos];
    encadeia.
Qed.
#[local] Hint Resolve estrut_aprendizado_ciclos_sem_rede : sem_rede.

Lemma estrut_taxa_ciclos_sem_rede ibge ciclos acc :
  devolve (estrut_taxa_ciclos E F ibge ciclos acc) acc.
Proof.
  induction ciclos as [|[cid cnome] r IH]; cbn [estrut_taxa_ciclos]; encadeia.
Qed.
#[local] Hint Resolve estrut_taxa_ciclos_sem_rede : sem_rede.

Lemma coletar_sem_rede ibge mun uf :
  devolve (coletar_dados_estruturados E F ibge mun uf)
    (JObj [("entidade", JStr mun); ("uf", uf);
           ("tipo", JStr (if is_estado E ibge then "estado" else "municipio"))]).
Proof. unfold coletar_dados_estruturados. encadeia. Qed.

Lemma gerar_txt_aprendizado_sem_rede ibge mun uf :
  exists txt, devolve (gerar_txt_aprendizado E F ibge mun uf) txt
              /\ avisa_sem_dados txt.
Proof.
  eexists. split.
  - unfold gerar_txt_aprendizado. encadeia.
  - apply aviso_apos_cabecalho. vm_compute. reflexivity.
Qed.

Lemma gerar_txt_infra_sem_rede ibge mun uf :
  exists txt, devolve (gerar_txt_infra E F ibge mun uf) txt
              /\ avisa_sem_dados txt.
Proof.
  eexists. split.
  - unfold gerar_txt_infra. encadeia.
  - apply aviso_apos_cabecalho. vm_compute. reflexivity.
Qed.

Lemma gerar_txt_censo_sem_rede ibge mun uf :
  exists txt, devolve (gerar_txt_censo E F ibge mun uf) txt
              /\ avisa_sem_dados txt.
Proof.
  eexists. split.
  - unfold gerar_txt_censo. encadeia.
  - apply aviso_apos_cabecalho. vm_compute. reflexivity.
Qed.

Lemma gerar_txt_taxa_sem_rede ibge mun uf :
  exists txt, devolve (gerar_txt_taxa E F ibge mun uf) txt
              /\ avisa_sem_dados txt.
Proof.
  destruct (taxa_ciclos_sem_rede ibge CICLOS []) as [etapas He].
  eexists. split.
  - unfold gerar_txt_taxa. encadeia.
  - apply aviso_apos_cabecalho. vm_compute. reflexivity.
Qed.

End SemRede.

Section Ideb.
Variable E : Ambiente.
Variable F : Formatadores.

(** The IDEB renderer reads the tables only: it neither looks at the state
    nor changes it, and with no rows for the code it prints its notice. *)
Lemma gerar_txt_ideb_puro ibge mun uf :
  exists r,
    (forall w, gerar_txt_ideb E F ibge mun uf w = (r, w))
    /\ (load_ideb E ibge = None -> exists txt, r = ok txt /\ avisa_sem_dados txt).
Proof.
  unfold gerar_txt_ideb. destruct (load_ideb E ibge) as [d|].
  - unfold bind, lift, ret.
    destruct (ideb_esferas F d _ _) as [e|txt]; eexists; split;
      try (intros w; reflexivity); discriminate.
  - eexists. split; [intros w; reflexivity|]. intros _. eexists. split; [reflexivity|].
    apply aviso_apos_cabecalho. vm_compute. reflexivity.
Qed.

End Ideb.

(** C1, as the code has it. When every HTTP attempt fails, [gerar_todos]
    returns, for any code, a bundle with exactly five entries in
    [arquivos], one per kind, and the structured summary of the entity
    alone. The four reports fed by the remote API carry the "Sem dados"
    notice. The IDEB report is fed by the local tables: it carries the
    notice when they hold no row for the code. *)
Theorem gerar_todos_sem_rede (E : Ambiente) (F : Formatadores)
        (ibge : string) (w : mundo) :
  sem_rede E ->
  exists mun sigla t1 t2 t3 t4 t5 w',
    gerar_todos E F ibge w
    = (ok (Pacote mun (JStr sigla) ibge
             [(nome_arquivo (_slug mun) "aprendizado", t1);
              (nome_arquivo (_slug mun) "infra", t2);
              (nome_arquivo (_slug mun) "censo", t3);
              (nome_arquivo (_slug mun) "ideb", t4);
              (nome_arquivo (_slug mun) "taxa_rendimento", t5)]
             (JObj [("entidade", JStr mun); ("uf", JStr sigla);
                    ("tipo", JStr (if is_estado E ibge then "estado"
                                   else "municipio"))])),
       w')
    /\ avisa_sem_dados t1 /\ avisa_sem_dados t2
    /\ avisa_sem_dados t3 /\ avisa_sem_dados t5
    /\ (load_ideb E ibge = None -> avisa_sem_dados t4).
Proof.
  intros Hrede.
  assert (H0 : so_falhas (_clear_cache w)).
  { intros k v Hk. cbn [_clear_cache _FETCH_CACHE] in Hk.
    rewrite lookup_empty in Hk. discriminate Hk. }
  destruct (descobrir_municipio_sem_rede E Hrede ibge) as (mun & sigla & Hd).
  destruct (Hd _ H0) as (w1 & Hd1 & Hw1).
  destruct (gerar_txt_aprendizado_sem_rede E F Hrede ibge mun (JStr sigla))
    as (t1 & Ht1 & Ha1).
  destruct (Ht1 _ Hw1) as (w2 & Hr1 & Hw2).
  destruct (gerar_txt_infra_sem_rede E F Hrede ibge mun (JStr sigla))
    as (t2 & Ht2 & Ha2).
  destruct (Ht2 _ Hw2) as (w3 & Hr2 & Hw3).
  destruct (gerar_txt_censo_sem_rede E F Hrede ibge mun (JStr sigla))
    as (t3 & Ht3 & Ha3).
  destruct (Ht3 _ Hw3) as (w4 & Hr3 & Hw4).
  destruct (gerar_txt_ideb_puro E F ibge mun (JStr sigla)) as (r4 & Hr4 & Hi).
  destruct (gerar_txt_taxa_sem_rede E F Hrede ibge mun (JStr sigla))
    as (t5 & Ht5 & Ha5).
  destruct (Ht5 _ Hw4) as (w5 & Hr5 & Hw5).
  destruct (coletar_sem_rede E F Hrede ibge mun (JStr sigla) _ Hw5)
    as (w6 & Hc & _).
  exists mun, sigla, t1, t2, t3, (texto_ou_erro "ideb" r4), t5, w6.
  split; [|repeat split; try assumption].
  - unfold gerar_todos, bind. rewrite Hd1. cbn [slug_de lift].
    rewrite (gerar_arquivos_spec E F ibge mun (JStr sigla) (_slug mun) w1).
    rewrite Hr1. cbn [fst snd]. rewrite Hr2. cbn [fst snd].
    rewrite Hr3. cbn [fst snd]. rewrite Hr4. cbn [fst snd].
    rewrite Hr5. cbn [fst snd]. rewrite Hc. reflexivity.
  - intros Hn. destruct (Hi Hn) as (txt & -> & Ha). exact Ha.
Qed.

Lemma gerar_todos_sem_rede_witness :
  exists mun sigla t1 t2 t3 t4 t5 w',
    gerar_todos Cenarios.E_sem_rede Cenarios.F_recusa "2304400" mundo_inicial
    = (ok (Pacote mun (JStr sigla) "2304400"
             [(nome_arquivo (_slug mun) "aprendizado", t1);
              (nome_arquivo (_slug mun) "infra", t2);
              (nome_arquivo (_slug mun) "censo", t3);
              (nome_arquivo (_slug mun) "ideb", t4);
              (nome_arquivo (_slug mun) "taxa_rendimento", t5)]
             (JObj [("entidade", JStr mun); ("uf", JStr sigla);
                    ("tipo", JStr (if is_estado Cenarios.E_sem_rede "2304400"
                                   then "estado" else "municipio"))])),
       w')
    /\ avisa_sem_dados t1 /\ avisa_sem_dados t2
    /\ avisa_sem_dados t3 /\ avisa_sem_dados t5
    /\ (load_ideb Cenarios.E_sem_rede "2304400" = None -> avisa_sem_dados t4).
Proof.
  apply (gerar_todos_sem_rede Cenarios.E_sem_rede Cenarios.F_recusa "2304400"
           mundo_inicial).
  intros n url p. reflexivity.
Defined.

(** C1, as stated, fails for the IDEB report: with every HTTP attempt
    failing and the tables holding a row for Ceará, the report of Ceará is
    built from the tables and carries no notice of missing data. *)
Lemma ideb_sem_aviso :
  match fst (gerar_todos Cenarios.E_com_ideb Cenarios.F_recusa "23" mundo_inicial) with
  | inr p =>
      match dict_get "Ceará_ideb.txt" (arquivos p) with
      | Some txt => (contem "Sem dados" txt || contem "sem dados" txt
                     || contem "N/D" txt || contem "Erro" txt,
                     contem "Fim do Relatório" txt)
      | None => (true, false)
      end
  | inl _ => (true, false)
  end = (false, true).
Proof. vm_compute. reflexivity. Qed.

(* ===================================================================== *)
(** ** Further properties *)
(* ===================================================================== *)

(** *** Codes the service accepts *)

Section Aceitacao.
Variable E : Ambiente.

Lemma validar_aceita c c' :
  _validar_ibge E c = inr c' ->
  c' = strip (unicode E) c
  /\ isdigit (unicode E) c' = true /\ tamanho_valido c' = true.
Proof.
  unfold _validar_ibge.
  destruct (isdigit (unicode E) (strip (unicode E) c)) eqn:Hd;
    destruct (tamanho_valido (strip (unicode E) c)) eqn:Ht;
    cbn [negb orb]; intros H; try discriminate H.
  injection H as <-. auto.
Qed.

Lemma validar_limpo c :
  isdigit (unicode E) c = true -> tamanho_valido c = true ->
  strip (unicode E) c = c -> _validar_ibge E c = inr c.
Proof.
  intros Hd Ht Hs. unfold _validar_ibge. rewrite Hs, Hd, Ht. reflexivity.
Qed.

(** The keys of [UF_CODES]. *)
Lemma uf_lookup_chave k v :
  uf_lookup k UF_CODES = Some v ->
  In k ["11"; "12"; "13"; "14"; "15"; "16"; "17"; "21"; "22"; "23"; "24";
        "25"; "26"; "27"; "28"; "29"; "31"; "32"; "33"; "35"; "41"; "42";
        "43"; "50"; "51"; "52"; "53"].
Proof.
  unfold UF_CODES. cbn [uf_lookup].
  repeat match goal with
         | |- context [String.eqb k ?s] =>
             destruct (String.eqb_spec k s) as [->|_];
             [intros _; cbn; tauto|]
         end.
  discriminate.
Qed.

Lemma estado_valido k v :
  uf_lookup k UF_CODES = Some v ->
  isdigit (unicode E) k = true /\ tamanho_valido k = true.
Proof.
  intros H. apply uf_lookup_chave in H. cbn [In] in H.
  repeat match goal with
         | H : _ \/ _ |- _ => destruct H as [<-|H]; [split; reflexivity|]
         end.
  destruct H.
Qed.

(** The characters of an ASCII text are its bytes. *)
Lemma chars_ascii s :
  so_ascii s = true ->
  chars s = map (fun a => String a EmptyString) (list_ascii_of_string s).
Proof.
  induction s as [|a s IH]; [reflexivity|].
  unfold so_ascii. cbn [list_ascii_of_string forallb map].
  intros H. apply andb_true_iff in H as [_ Hs].
  cbn [chars]. rewrite (IH Hs).
  replace (comeca_continuacao s) with false; [reflexivity|].
  destruct s as [|b s']; [reflexivity|].
  unfold so_ascii in Hs. cbn [list_ascii_of_string forallb] in Hs.
  apply andb_true_iff in Hs as [Hb _]. apply N.ltb_lt in Hb.
  unfold comeca_continuacao, continuacao. symmetry.
  apply andb_false_iff. left. apply N.leb_gt. exact Hb.
Qed.

Lemma length_bytes s : length (list_ascii_of_string s) = String.length s.
Proof. induction s as [|a s IH]; [reflexivity|]. cbn. rewrite IH. reflexivity. Qed.

Lemma digitos_dos_bytes (l : list ascii) :
  forallb (fun a => (N_of_ascii a <? 128)%N) l = true ->
  forallb (char_isdigit (unicode E)) (map (fun a => String a EmptyString) l)
  = forallb (ascii_entre 48 57) l.
Proof.
  induction l as [|x k IH]; [reflexivity|].
  cbn [forallb map]. intros H. apply andb_true_iff in H as [Hx Hk].
  rewrite (IH Hk). unfold char_isdigit. rewrite Hx. reflexivity.
Qed.

(** On an ASCII text [isdigit] asks for the digits [0..9] and nothing
    else, whatever the tables of the runtime. *)
Lemma isdigit_ascii s :
  so_ascii s = true -> isdigit (unicode E) s = digitos_0a9 s.
Proof.
  intros Hs. unfold isdigit, digitos_0a9. rewrite (chars_ascii s Hs).
  destruct s as [|a s]; [reflexivity|].
  rewrite <- (digitos_dos_bytes _ Hs). reflexivity.
Qed.

End Aceitacao.

(** X1. A code that [_validar_ibge] accepts is returned stripped of the
    white space around it, passes [str.isdigit] on the tables of the
    runtime and has 2 or 7 characters; validating the returned code again
    accepts it unchanged. Whatever these tables, the code holds no ASCII
    character other than [0..9], and when it is ASCII throughout it is
    made of 2 or of 7 of the digits [0..9]. *)
Theorem codigo_aceito_limpo (E : Ambiente) (c c' : string) :
  _validar_ibge E c = inr c' ->
  c' = strip (unicode E) c
  /\ isdigit (unicode E) c' = true
  /\ (py_len c' = 2%nat \/ py_len c' = 7%nat)
  /\ _validar_ibge E c' = inr c'
  /\ tem_ascii_nao_digito c' = false
  /\ (so_ascii c' = true ->
      digitos_0a9 c' = true
      /\ (String.length c' = 2%nat \/ String.length c' = 7%nat)).
Proof.
  intros H. destruct (validar_aceita E c c' H) as (Hs & Hd & Ht).
  assert (Hlen : py_len c' = 2%nat \/ py_len c' = 7%nat).
  { unfold tamanho_valido in Ht. apply orb_true_iff in Ht.
    destruct Ht as [Ht|Ht]; apply Nat.eqb_eq in Ht; auto. }
  split; [exact Hs|]. split; [exact Hd|]. split; [exact Hlen|].
  split; [|split].
  - apply validar_limpo; [exact Hd|exact Ht|].
    rewrite Hs. apply strip_idempotente.
  - destruct (tem_ascii_nao_digito c') eqn:Hn; [|reflexivity].
    rewrite (isdigit_ascii_nao_digito E c' Hn) in Hd. discriminate Hd.
  - intros Ha. split.
    + rewrite <- (isdigit_ascii E c' Ha). exact Hd.
    + unfold py_len in Hlen. rewrite (chars_ascii c' Ha) in Hlen.
      rewrite length_map, length_bytes in Hlen. exact Hlen.
Qed.

Lemma codigo_aceito_limpo_witness :
  "2304400" = strip (unicode Cenarios.E_sem_rede) "  2304400 "
  /\ isdigit (unicode Cenarios.E_sem_rede) "2304400" = true
  /\ (py_len "2304400" = 2%nat \/ py_len "2304400" = 7%nat)
  /\ _validar_ibge Cenarios.E_sem_rede "2304400" = inr "2304400"
  /\ tem_ascii_nao_digito "2304400" = false
  /\ (so_ascii "2304400" = true ->
      digitos_0a9 "2304400" = true
      /\ (String.length "2304400" = 2%nat \/ String.length "2304400" = 7%nat)).
Proof.
  apply (codigo_aceito_limpo Cenarios.E_sem_rede "  2304400 " "2304400").
  reflexivity.
Defined.

(** *** State codes *)

Section EstadosDaFederacao.
Variable E : Ambiente.

Lemma descobrir_estado c nome sigla w :
  uf_lookup (strip (unicode E) c) UF_CODES = Some (nome, sigla) ->
  descobrir_municipio E c w = (ok (JStr nome, JStr sigla), w).
Proof.
  intros H. unfold descobrir_municipio. rewrite H. reflexivity.
Qed.

Lemma estado_nao_vazio k v :
  uf_lookup k UF_CODES = Some v -> String.eqb k EmptyString = false.
Proof.
  intros H. destruct (String.eqb_spec k EmptyString) as [->|]; [|reflexivity].
  discriminate H.
Qed.

End EstadosDaFederacao.

(** X2. For a code that, stripped, is one of the 27 keys of [UF_CODES],
    both [/municipio] routes answer 200 with the name and the
    abbreviation of the table and the stripped code, and leave the state
    as it was: no request is issued and nothing is cached. *)
Theorem municipio_de_estado (E : Ambiente) (F : Formatadores)
        (c nome sigla : string) (w : mundo) :
  uf_lookup (strip (unicode E) c) UF_CODES = Some (nome, sigla) ->
  let resp := (Resposta 200 (CorpoMunicipio (JStr nome) (JStr sigla)
                               (strip (unicode E) c)), w) in
  servico E F (GetMunicipioPath c) w = resp
  /\ servico E F (GetMunicipioQuery (Some c)) w = resp.
Proof.
  intros H resp. subst resp.
  destruct (estado_valido E _ _ H) as [Hd Ht].
  assert (Hpath : forall x, strip (unicode E) x = strip (unicode E) c ->
            responder_municipio E (descobrir_municipio E) x w
            = (Resposta 200 (CorpoMunicipio (JStr nome) (JStr sigla)
                               (strip (unicode E) c)), w)).
  { intros x Hx. unfold responder_municipio, _validar_ibge.
    rewrite Hx, Hd, Ht. cbn [negb orb].
    rewrite (descobrir_estado E (strip (unicode E) c) nome sigla w)
      by (rewrite strip_idempotente; exact H).
    reflexivity. }
  split.
  - unfold servico, atender. apply Hpath. reflexivity.
  - unfold servico, atender. cbv zeta. cbn [default from_option id].
    rewrite (estado_nao_vazio _ _ H). apply Hpath. apply strip_idempotente.
Qed.

Lemma municipio_de_estado_witness :
  servico Cenarios.E_sem_rede Cenarios.F_recusa (GetMunicipioPath " 23") mundo_inicial
  = (Resposta 200 (CorpoMunicipio (JStr "Ceará") (JStr "CE") "23"), mundo_inicial)
  /\ servico Cenarios.E_sem_rede Cenarios.F_recusa
       (GetMunicipioQuery (Some " 23")) mundo_inicial
     = (Resposta 200 (CorpoMunicipio (JStr "Ceará") (JStr "CE") "23"), mundo_inicial).
Proof.
  apply (municipio_de_estado Cenarios.E_sem_rede Cenarios.F_recusa
           " 23" "Ceará" "CE" mundo_inicial).
  reflexivity.
Defined.

(** X3. A code for which [is_estado] holds passes [_validar_ibge], which
    returns it stripped, and the stripped code has two characters. *)
Theorem estado_passa_validacao (E : Ambiente) (c : string) :
  is_estado E c = true ->
  _validar_ibge E c = inr (strip (unicode E) c)
  /\ py_len (strip (unicode E) c) = 2%nat.
Proof.
  unfold is_estado.
  destruct (uf_lookup (strip (unicode E) c) UF_CODES) as [v|] eqn:H;
    [intros _|discriminate].
  destruct (estado_valido E _ _ H) as [Hd Ht]. split.
  - unfold _validar_ibge. rewrite Hd, Ht. reflexivity.
  - apply uf_lookup_chave in H. cbn [In] in H.
    repeat match goal with
           | H : _ \/ _ |- _ => destruct H as [<-|H]; [reflexivity|]
           end.
    destruct H.
Qed.

Lemma estado_passa_validacao_witness :
  _validar_ibge Cenarios.E_sem_rede "35 "
  = inr (strip (unicode Cenarios.E_sem_rede) "35 ")
  /\ py_len (strip (unicode Cenarios.E_sem_rede) "35 ") = 2%nat.
Proof.
  apply (estado_passa_validacao Cenarios.E_sem_rede "35 "). reflexivity.
Defined.

(** *** The routes *)

Section Rotas.
Variable E : Ambiente.
Variable gerar : string -> M pacote.
Variable descobrir : string -> M (json * json).

Lemma validar_400 c erro : _validar_ibge E c = inl erro -> status erro = 400.
Proof.
  unfold _validar_ibge.
  destruct (negb (isdigit (unicode E) (strip (unicode E) c))
            || negb (tamanho_valido (strip (unicode E) c)));
    intros H; [|discriminate H].
  injection H as <-. reflexivity.
Qed.

Lemma gerar_status c w erro w' :
  _gerar E gerar c w = (inl erro, w') -> status erro = 400 \/ status erro = 500.
Proof.
  unfold _gerar. destruct (_validar_ibge E c) as [e|c'] eqn:Hv.
  - intros H. injection H as <- _. left. eapply validar_400; eassumption.
  - destruct (gerar c' w) as [[e|r] w1]; intros H; [|discriminate H].
    injection H as <- _. right. reflexivity.
Qed.

Lemma responder_relatorios_status c w :
  let s := status (fst (responder_relatorios E gerar c w)) in
  s = 200 \/ s = 400 \/ s = 500.
Proof.
  unfold responder_relatorios.
  destruct (_gerar E gerar c w) as [[erro|r] w'] eqn:Hg; cbn [fst status].
  - destruct (gerar_status _ _ _ _ Hg); auto.
  - auto.
Qed.

Lemma responder_municipio_status c w :
  let s := status (fst (responder_municipio E descobrir c w)) in
  s = 200 \/ s = 400 \/ s = 500.
Proof.
  unfold responder_municipio.
  destruct (_validar_ibge E c) as [erro|c'] eqn:Hv; cbn [fst status].
  - right. left. eapply validar_400; eassumption.
  - destruct (descobrir c' w) as [[e|[mun uf]] w']; cbn [fst status]; auto.
Qed.

End Rotas.

(** X4. The status of a response, route by route: [/health] always answers
    200; [/gerar] and [/municipio] answer 200, 400 or 500; 404 comes from
    [/relatorio] only. *)
Theorem status_por_rota (E : Ambiente) (gerar : string -> M pacote)
        (descobrir : string -> M (json * json)) (req : requisicao) (w : mundo) :
  let s := status (fst (atender E gerar descobrir req w)) in
  match req with
  | GetHealth => s = 200
  | GetGerarQuery _ | GetGerarPath _ | GetMunicipioQuery _
  | GetMunicipioPath _ => s = 200 \/ s = 400 \/ s = 500
  | GetRelatorio _ _ => s = 200 \/ s = 400 \/ s = 404 \/ s = 500
  end.
Proof.
  destruct req as [|i|c|i t|i|c]; unfold atender; cbv zeta.
  - reflexivity.
  - destruct (String.eqb _ _); [right; left; reflexivity|].
    apply responder_relatorios_status.
  - apply responder_relatorios_status.
  - destruct (String.eqb _ _); [right; left; reflexivity|].
    destruct (negb _); [right; left; reflexivity|].
    destruct (_gerar E gerar _ w) as [[erro|r] w'] eqn:Hg; cbn [fst status].
    + destruct (gerar_status _ _ _ _ _ _ Hg); auto.
    + destruct (dict_get _ _) as [txt|]; [|auto].
      destruct (String.eqb txt EmptyString); auto.
  - destruct (String.eqb _ _); [right; left; reflexivity|].
    apply responder_municipio_status.
  - apply responder_municipio_status.
Qed.

(** X5. [/relatorio] with a [tipo] that, stripped and lower-cased, is not
    one of [TIPOS_VALIDOS] is answered 400 with the state as it was,
    whatever the code: the generator does not run. *)
Theorem tipo_invalido_rejeitado (E : Ambiente) (gerar : string -> M pacote)
        (descobrir : string -> M (json * json)) (i t : option string)
        (w : mundo) :
  existsb (String.eqb (lower (unicode E)
                         (strip (unicode E) (default EmptyString t))))
          TIPOS_VALIDOS = false ->
  status (fst (atender E gerar descobrir (GetRelatorio i t) w)) = 400
  /\ snd (atender E gerar descobrir (GetRelatorio i t) w) = w.
Proof.
  intros H. unfold atender; cbv zeta. rewrite H. cbn [negb].
  destruct (String.eqb _ _); split; reflexivity.
Qed.

Lemma tipo_invalido_rejeitado_witness :
  status (fst (servico Cenarios.E_sem_rede Cenarios.F_recusa
                 (GetRelatorio (Some "2304400") (Some "resumo")) mundo_inicial))
  = 400
  /\ snd (servico Cenarios.E_sem_rede Cenarios.F_recusa
            (GetRelatorio (Some "2304400") (Some "resumo")) mundo_inicial)
     = mundo_inicial.
Proof.
  apply (tipo_invalido_rejeitado Cenarios.E_sem_rede
           (gerar_todos Cenarios.E_sem_rede Cenarios.F_recusa)
           (descobrir_municipio Cenarios.E_sem_rede)
           (Some "2304400") (Some "resumo") mundo_inicial).
  reflexivity.
Defined.

(** X6. When the generator raises on an accepted code, [/gerar] answers
    500 with the text of the exception and the code, and the state is the
    one the generator left. *)
Theorem falha_do_gerador_500 (E : Ambiente) (gerar : string -> M pacote)
        (descobrir : string -> M (json * json)) (c c' : string) (e : exn)
        (w w' : mundo) :
  _validar_ibge E c = inr c' ->
  gerar c' w = (raise e, w') ->
  atender E gerar descobrir (GetGerarPath c) w
  = (Resposta 500 (CorpoErro ("Erro ao gerar: " ++ exn_msg e) (Some c')), w').
Proof.
  intros Hv Hg. unfold atender, responder_relatorios, _gerar.
  rewrite Hv, Hg. reflexivity.
Qed.

Lemma falha_do_gerador_500_witness :
  fst (servico Cenarios.E_censo_lista Cenarios.F_recusa
         (GetGerarPath "23") mundo_inicial)
  = Resposta 500 (CorpoErro "Erro ao gerar: 'list' object has no attribute 'get'"
                    (Some "23")).
Proof.
  pose proof (falha_do_gerador_500 Cenarios.E_censo_lista
                (gerar_todos Cenarios.E_censo_lista Cenarios.F_recusa)
                (descobrir_municipio Cenarios.E_censo_lista) "23" "23"
                (Exn "AttributeError" "'list' object has no attribute 'get'")
                mundo_inicial
                (snd (gerar_todos Cenarios.E_censo_lista Cenarios.F_recusa
                        "23" mundo_inicial))
                eq_refl) as H.
  unfold servico. rewrite H; [reflexivity|].
  rewrite (surjective_pairing
             (gerar_todos Cenarios.E_censo_lista Cenarios.F_recusa "23"
                mundo_inicial)) at 1.
  apply (f_equal2 pair); [vm_compute; reflexivity|reflexivity].
Defined.

(** *** Dicts in insertion order *)

Section Dicts.
Context {A : Type}.

Lemma dict_set_chaves (k : string) (v : A) d :
  map fst (dict_set k v d)
  = if existsb (String.eqb k) (map fst d) then map fst d
    else (map fst d ++ [k])%list.
Proof.
  induction d as [|[k' v'] r IH]; [reflexivity|].
  cbn [dict_set map fst existsb].
  destruct (String.eqb k k') eqn:Hk; cbn [orb map fst].
  - apply String.eqb_eq in Hk. subst k'. reflexivity.
  - rewrite IH. destruct (existsb _ _); reflexivity.
Qed.

Lemma dict_set_nodup (k : string) (v : A) d :
  NoDup (map fst d) -> NoDup (map fst (dict_set k v d)).
Proof.
  intros Hd. rewrite dict_set_chaves.
  destruct (existsb (String.eqb k) (map fst d)) eqn:Hk; [exact Hd|].
  apply NoDup_app. split; [exact Hd|]. split; [|apply NoDup_singleton].
  intros x Hx Hx'. apply list_elem_of_singleton in Hx'. subst x.
  assert (existsb (String.eqb k) (map fst d) = true); [|congruence].
  apply existsb_exists. exists k. split; [|apply String.eqb_refl].
  apply list_elem_of_In. exact Hx.
Qed.

Lemma dict_set_dentro (k : string) (v : A) d (P : string -> Prop) :
  P k -> Forall P (map fst d) -> Forall P (map fst (dict_set k v d)).
Proof.
  intros Hk Hd. rewrite dict_set_chaves.
  destruct (existsb _ _); [exact Hd|].
  apply Forall_app. split; [exact Hd|]. constructor; [exact Hk|constructor].
Qed.

Lemma dict_get_set (k : string) (v : A) d : dict_get k (dict_set k v d) = Some v.
Proof.
  induction d as [|[k' v'] r IH]; cbn [dict_set dict_get].
  - rewrite String.eqb_refl. reflexivity.
  - destruct (String.eqb k k') eqn:Hk; cbn [dict_get]; rewrite ?Hk.
    + rewrite String.eqb_refl. reflexivity.
    + exact IH.
Qed.

End Dicts.

Section Organizar.
Variable E : Ambiente.

Lemma tipo_do_arquivo_dentro fname tipos t :
  tipo_do_arquivo E fname tipos = Some t -> In t tipos.
Proof.
  induction tipos as [|x r IH]; cbn [tipo_do_arquivo]; [discriminate|].
  destruct (contem x _).
  - intros H. injection H as ->. left. reflexivity.
  - intros H. right. apply IH. exact H.
Qed.

Lemma organizar_chaves arqs rel :
  NoDup (map fst rel) -> Forall (fun k => In k TIPOS_VALIDOS) (map fst rel) ->
  NoDup (map fst (organizar E arqs rel))
  /\ Forall (fun k => In k TIPOS_VALIDOS) (map fst (organizar E arqs rel)).
Proof.
  revert rel. induction arqs as [|[fname conteudo] r IH]; intros rel Hn Hf;
    cbn [organizar]; [auto|].
  destruct (tipo_do_arquivo E fname TIPOS_VALIDOS) as [t|] eqn:Ht.
  - apply IH.
    + apply dict_set_nodup. exact Hn.
    + apply dict_set_dentro; [|exact Hf].
      eapply tipo_do_arquivo_dentro. exact Ht.
  - apply IH; assumption.
Qed.

Lemma chaves_limitadas (l : list string) :
  NoDup l -> Forall (fun k => In k TIPOS_VALIDOS) l -> (length l <= 5)%nat.
Proof.
  intros Hn Hf.
  change 5%nat with (length TIPOS_VALIDOS).
  apply submseteq_length, NoDup_submseteq; [exact Hn|].
  intros x Hx. apply list_elem_of_In.
  rewrite Forall_forall in Hf. apply Hf. exact Hx.
Qed.

End Organizar.

(** X7. Whenever a route answers with the reports of an entity, the
    object [relatorios] has each of its keys in [TIPOS_VALIDOS], no key
    twice, hence at most five entries, and [total_relatorios] is their
    number. *)
Theorem relatorios_por_tipo (E : Ambiente) (gerar : string -> M pacote)
        (descobrir : string -> M (json * json)) (req : requisicao) (w : mundo)
        (r : relatorio_json) (gerado_em : string) (total : nat) :
  corpo_de (fst (atender E gerar descobrir req w))
  = CorpoRelatorios r gerado_em total ->
  total = length (r_relatorios r)
  /\ (total <= 5)%nat
  /\ NoDup (map fst (r_relatorios r))
  /\ Forall (fun k => In k TIPOS_VALIDOS) (map fst (r_relatorios r)).
Proof.
  assert (Hg : forall c,
             corpo_de (fst (responder_relatorios E gerar c w))
             = CorpoRelatorios r gerado_em total ->
             total = length (r_relatorios r)
             /\ (total <= 5)%nat
             /\ NoDup (map fst (r_relatorios r))
             /\ Forall (fun k => In k TIPOS_VALIDOS) (map fst (r_relatorios r))).
  { intros c. unfold responder_relatorios, _gerar.
    destruct (_validar_ibge E c) as [erro|c'] eqn:Hv; cbn [fst corpo_de].
    - unfold _validar_ibge in Hv.
      destruct (negb _ || negb _) in Hv; [|discriminate Hv].
      injection Hv as <-. discriminate.
    - destruct (gerar c' w) as [[e|res] w']; cbn [fst corpo_de]; [discriminate|].
      intros H. injection H as <- _ <-. cbn [r_relatorios].
      destruct (organizar_chaves E (arquivos res) []) as [Hn Hf];
        [constructor|constructor|].
      split; [reflexivity|]. split; [|split; assumption].
      rewrite <- (length_map fst). apply chaves_limitadas; assumption. }
  destruct req as [|i|c|i t|i|c]; unfold atender; cbv zeta.
  - discriminate.
  - destruct (String.eqb _ _); [discriminate|]. apply Hg.
  - apply Hg.
  - destruct (String.eqb _ _); [discriminate|].
    destruct (negb _); [discriminate|].
    destruct (_gerar E gerar _ w) as [[erro|r'] w'] eqn:Hr; cbn [fst].
    + unfold _gerar in Hr.
      destruct (_validar_ibge E _) as [erro'|c'] eqn:Hv.
      * unfold _validar_ibge in Hv.
        destruct (negb _ || negb _) in Hv; [|discriminate Hv].
        injection Hv as <-. injection Hr as <- _. discriminate.
      * destruct (gerar c' w) as [[e|res] w'']; [|discriminate Hr].
        injection Hr as <- _. discriminate.
    + destruct (dict_get _ _) as [txt|]; [|discriminate].
      destruct (String.eqb txt EmptyString); discriminate.
  - destruct (String.eqb _ _); [discriminate|].
    unfold responder_municipio.
    destruct (_validar_ibge E _) as [erro'|c'] eqn:Hv.
    + unfold _validar_ibge in Hv.
      destruct (negb _ || negb _) in Hv; [|discriminate Hv].
      injection Hv as <-. discriminate.
    + destruct (descobrir c' w) as [[e|[mun uf]] w']; discriminate.
  - unfold responder_municipio.
    destruct (_validar_ibge E _) as [erro'|c'] eqn:Hv.
    + unfold _validar_ibge in Hv.
      destruct (negb _ || negb _) in Hv; [|discriminate Hv].
      injection Hv as <-. discriminate.
    + destruct (descobrir c' w) as [[e|[mun uf]] w']; discriminate.
Qed.

Lemma relatorios_por_tipo_witness :
  exists r gerado_em total,
    corpo_de (fst (servico Cenarios.E_sem_rede Cenarios.F_recusa
                     (GetGerarPath "23") mundo_inicial))
    = CorpoRelatorios r gerado_em total
    /\ total = 5%nat
    /\ total = length (r_relatorios r)
    /\ (total <= 5)%nat
    /\ NoDup (map fst (r_relatorios r))
    /\ Forall (fun k => In k TIPOS_VALIDOS) (map fst (r_relatorios r)).
Proof.
  eexists _, _, _. split; [vm_compute; reflexivity|].
  split; [reflexivity|].
  eapply (relatorios_por_tipo Cenarios.E_sem_rede
           (gerar_todos Cenarios.E_sem_rede Cenarios.F_recusa)
           (descobrir_municipio Cenarios.E_sem_rede)
           (GetGerarPath "23") mundo_inicial).
  vm_compute. reflexivity.
Defined.

(** *** Attempts of the HTTP helper *)

Section Tentativas.
Variable E : Ambiente.

Lemma tentar_S url p k n w :
  tentar E url p k (S n) w
  = match rede E (length (pedidos w)) url p with
    | Some result => (result, guardar k result (registrar url p w))
    | None =>
        match n with
        | O => (JNull, guardar k JNull (registrar url p w))
        | S _ => tentar E url p k n (registrar url p w)
        end
    end.
Proof. reflexivity. Qed.

Lemma tentar_sucesso url p k n i w r :
  (i < n)%nat ->
  (forall j, (j < i)%nat -> rede E (length (pedidos w) + j) url p = None) ->
  rede E (length (pedidos w) + i) url p = Some r ->
  tentar E url p k n w
  = (r, Mundo (<[k := r]> (_FETCH_CACHE w))
              (pedidos w ++ replicate (S i) (Pedido url p))).
Proof.
  revert n w. induction i as [|i IH]; intros n w Hn Hf Hs.
  - destruct n as [|n]; [lia|]. rewrite tentar_S.
    rewrite Nat.add_0_r in Hs. rewrite Hs. reflexivity.
  - destruct n as [|[|n]]; [lia|lia|]. rewrite tentar_S.
    pose proof (Hf 0%nat ltac:(lia)) as H0. rewrite Nat.add_0_r in H0.
    rewrite H0. cbv beta match.
    rewrite (IH (S n) (registrar url p w)); [| lia | |].
    + cbn [registrar _FETCH_CACHE pedidos]. rewrite <- app_assoc. reflexivity.
    + intros j Hj. cbn [registrar pedidos]. rewrite length_app. cbn [length].
      replace (length (pedidos w) + 1 + j)%nat
        with (length (pedidos w) + S j)%nat by lia.
      apply Hf. lia.
    + cbn [registrar pedidos]. rewrite length_app. cbn [length].
      replace (length (pedidos w) + 1 + i)%nat
        with (length (pedidos w) + S i)%nat by lia.
      exact Hs.
Qed.

End Tentativas.

(** X8. [fetch_json] never raises. It keeps every entry of the cache and
    every request already issued, and adds only requests for its own URL
    and parameters, at most [tentativas] of them. A key found in the cache
    is answered with the cached value and the state is left as it was.
    With no attempt allowed, a key not in the cache is answered [None] and
    nothing is stored. *)
Theorem fetch_json_limites (E : Ambiente) (url : string) (p : params) (t : Z)
        (w : mundo) :
  exists r w' m,
    fetch_json E url p t w = (ok r, w')
    /\ estende w w'
    /\ pedidos w' = (pedidos w ++ replicate m (Pedido url p))%list
    /\ (m <= Z.to_nat t)%nat
    /\ (forall c, payload w url p = Some c -> r = c /\ w' = w)
    /\ (t <= 0 -> payload w url p = None -> r = JNull /\ w' = w).
Proof.
  destruct (_FETCH_CACHE w !! cache_key url p) as [c|] eqn:Hc.
  - exists c, w, 0%nat. rewrite (fetch_json_hit E url p t w c Hc).
    split; [reflexivity|]. split; [apply estende_refl|].
    split; [cbn; rewrite app_nil_r; reflexivity|]. split; [lia|].
    unfold payload. rewrite Hc. split.
    + intros c' H. injection H as <-. auto.
    + intros _ H. discriminate H.
  - destruct (Z_lt_le_dec 0 t) as [Ht|Ht].
    + destruct (fetch_json_miss E url p t w Ht Hc) as (r & m & Hm & Hf).
      eexists r, _, m. split; [exact Hf|].
      split.
      { pose proof (fetch_json_estende E url p t w) as He.
        rewrite Hf in He. exact He. }
      split; [reflexivity|]. split; [lia|]. unfold payload. rewrite Hc.
      split; [intros c H; discriminate H|]. intros H. lia.
    + exists JNull, w, 0%nat. unfold fetch_json. rewrite Hc.
      replace (Z.to_nat t) with 0%nat by lia. cbn [tentar].
      split; [reflexivity|]. split; [apply estende_refl|].
      split; [cbn; rewrite app_nil_r; reflexivity|]. split; [lia|].
      unfold payload. rewrite Hc. split; [intros c H; discriminate H|auto].
Qed.

(** X9. When the key is not cached, the first [i] attempts fail and the
    next one, still within [tentativas], is answered, [fetch_json] returns
    that answer, has issued exactly [i + 1] requests and has stored the
    answer under the key. *)
Theorem fetch_json_repete_ate_responder (E : Ambiente) (url : string)
        (p : params) (t : Z) (i : nat) (r : json) (w : mundo) :
  payload w url p = None ->
  (i < Z.to_nat t)%nat ->
  (forall j, (j < i)%nat -> rede E (length (pedidos w) + j) url p = None) ->
  rede E (length (pedidos w) + i) url p = Some r ->
  fetch_json E url p t w
  = (ok r, Mundo (<[cache_key url p := r]> (_FETCH_CACHE w))
                 (pedidos w ++ replicate (S i) (Pedido url p))).
Proof.
  intros Hc Hi Hf Hs. unfold fetch_json. unfold payload in Hc. rewrite Hc.
  rewrite (tentar_sucesso E url p (cache_key url p) (Z.to_nat t) i w r Hi Hf Hs).
  reflexivity.
Qed.

Lemma fetch_json_repete_ate_responder_witness :
  fetch_json Exemplos.E_instavel url_censo (params_censo "23" 2026 3 0 0) 3
    mundo_inicial
  = (ok Exemplos.resposta_tardia,
     Mundo (<[cache_key url_censo (params_censo "23" 2026 3 0 0)
              := Exemplos.resposta_tardia]> ∅)
           (replicate 3 (Pedido url_censo (params_censo "23" 2026 3 0 0)))).
Proof.
  apply (fetch_json_repete_ate_responder Exemplos.E_instavel url_censo
           (params_censo "23" 2026 3 0 0) 3 2 Exemplos.resposta_tardia
           mundo_inicial).
  - reflexivity.
  - cbn. lia.
  - intros j Hj. destruct j as [|[|j]]; [reflexivity|reflexivity|lia].
  - reflexivity.
Defined.

(** *** Computations made of cached requests *)

Import Medidas.

Section Buscas.
Variable E : Ambiente.

Lemma so_busca_mais (K K' : chave -> Prop) {A} (m : M A) :
  (forall k, K k -> K' k) -> so_busca E K m -> so_busca E K' m.
Proof.
  intros HK H. induction H.
  - apply busca_ret.
  - apply busca_lift.
  - apply busca_fetch. auto.
  - apply busca_bind; auto.
  - apply busca_tentar. auto.
Qed.

Lemma so_busca_repetivel (K : chave -> Prop) {A} (m : M A) :
  so_busca E K m -> repetivel m.
Proof.
  intros H. induction H as [A a|A r|url p HK|A B m k Hm IHm Hk IHk|nome m Hm IHm];
    intros w r' w1 Hrun.
  - injection Hrun as <- <-. split; [apply estende_refl|]. reflexivity.
  - injection Hrun as <- <-. split; [apply estende_refl|]. reflexivity.
  - destruct (fetch_json_ok E url p 3 w) as (r0 & w' & Hf).
    rewrite Hf in Hrun. injection Hrun as <- <-. split.
    + pose proof (fetch_json_estende E url p 3 w) as He.
      rewrite Hf in He. exact He.
    + intros w2 [Hc _]. apply fetch_json_hit.
      eapply lookup_weaken; [|exact Hc].
      eapply fetch_json_guarda; [|exact Hf]. lia.
  - unfold bind in Hrun. destruct (m w) as [[e|a] wa] eqn:Hmw.
    + injection Hrun as <- <-. destruct (IHm _ _ _ Hmw) as [He Hrep].
      split; [exact He|]. intros w2 H2. unfold bind. rewrite (Hrep w2 H2).
      reflexivity.
    + destruct (IHm _ _ _ Hmw) as [He Hrep].
      destruct (IHk a _ _ _ Hrun) as [He' Hrep'].
      split; [eapply estende_trans; eassumption|].
      intros w2 H2. unfold bind.
      rewrite (Hrep w2) by (eapply estende_trans; eassumption).
      apply Hrep'. exact H2.
  - unfold tentar_gerador in Hrun. destruct (m w) as [[e|txt] wa] eqn:Hmw;
      injection Hrun as <- <-; destruct (IHm _ _ _ Hmw) as [He Hrep];
      (split; [exact He|]); intros w2 H2; unfold tentar_gerador;
      rewrite (Hrep w2 H2); reflexivity.
Qed.

Lemma limitado_parado (K : chave -> Prop) (w : mundo) :
  estende w w
  /\ (forall k, is_Some (_FETCH_CACHE w !! k) ->
                is_Some (_FETCH_CACHE w !! k) \/ K k)
  /\ (length (novos w w) + 3 * size (_FETCH_CACHE w)
      <= 3 * size (_FETCH_CACHE w))%nat.
Proof.
  split; [apply estende_refl|]. split; [auto|]. rewrite novos_refl. cbn. lia.
Qed.

Lemma so_busca_limitado (K : chave -> Prop) {A} (m : M A) :
  so_busca E K m -> limitado K m.
Proof.
  intros H. induction H as [A a|A r|url p HK|A B m k Hm IHm Hk IHk|nome m Hm IHm];
    intros w.
  - apply limitado_parado.
  - apply limitado_parado.
  - destruct (_FETCH_CACHE w !! cache_key url p) as [c|] eqn:Hc.
    + rewrite (fetch_json_hit E url p 3 w c Hc). apply limitado_parado.
    + destruct (fetch_json_miss E url p 3 w ltac:(lia) Hc) as (r & n & Hn & Hf).
      pose proof (fetch_json_estende E url p 3 w) as He.
      rewrite Hf in *. cbn [snd _FETCH_CACHE] in *.
      split; [exact He|]. split.
      * intros k [v Hk]. apply lookup_insert_Some in Hk.
        destruct Hk as [[<- _]|[_ Hk]]; [right; exact HK|left; eauto].
      * rewrite (novos_app w _ (replicate n (Pedido url p))) by reflexivity.
        rewrite length_replicate, map_size_insert_None by exact Hc.
        change (Z.to_nat 3) with 3%nat in Hn. lia.
  - unfold bind. specialize (IHm w). destruct (m w) as [[e|a] wa] eqn:Hmw;
      cbn [snd] in *; [exact IHm|].
    specialize (IHk a wa). destruct (k a wa) as [r w2]. cbn [snd] in *.
    destruct IHm as (He1 & Hk1 & Hn1). destruct IHk as (He2 & Hk2 & Hn2).
    split; [eapply estende_trans; eassumption|]. split.
    + intros x Hx. destruct (Hk2 x Hx) as [Hx'|Hx']; [|right; exact Hx'].
      apply Hk1. exact Hx'.
    + rewrite (novos_trans w wa w2 He1 He2), length_app. lia.
  - unfold tentar_gerador. specialize (IHm w).
    destruct (m w) as [[e|txt] wa]; exact IHm.
Qed.

(** The shared walk over the years. *)
Lemma busca_censo_em K ibge dep loc oferta anos :
  Forall (fun a => K (cache_key url_censo (params_censo ibge a dep loc oferta)))
         anos ->
  so_busca E K (fetch_censo_em E ibge dep loc oferta anos).
Proof.
  induction 1 as [|a r Ha Hr IH]; cbn [fetch_censo_em]; [apply busca_ret|].
  apply busca_bind; [apply busca_fetch; exact Ha|]. intros d.
  apply busca_bind; [apply busca_lift|]. intros [|]; [apply busca_ret|exact IH].
Qed.

Lemma busca_infra_em K ibge dep anos :
  Forall (fun a => K (cache_key (url_infra ibge) (params_infra a dep))) anos ->
  so_busca E K (fetch_infra_em E ibge dep anos).
Proof.
  induction 1 as [|a r Ha Hr IH]; cbn [fetch_infra_em]; [apply busca_ret|].
  apply busca_bind; [apply busca_fetch; exact Ha|]. intros d.
  apply busca_bind; [apply busca_lift|]. intros [|]; [apply busca_ret|exact IH].
Qed.

Lemma busca_taxa_em K ibge ciclo dep loc anos :
  Forall (fun a => K (cache_key (url_taxa ibge) (params_taxa a dep ciclo loc)))
         anos ->
  so_busca E K (fetch_taxa_em E ibge ciclo dep loc anos).
Proof.
  induction 1 as [|a r Ha Hr IH]; cbn [fetch_taxa_em]; [apply busca_ret|].
  apply busca_bind; [apply busca_fetch; exact Ha|]. intros d.
  apply busca_bind; [apply busca_lift|]. intros [|]; [|exact IH].
  apply busca_bind; [apply busca_lift|]. intros ?. apply busca_ret.
Qed.

Lemma busca_nome_por_taxa_em K ibge ciclo anos :
  Forall (fun a => K (cache_key (url_taxa ibge) (params_taxa a 0 ciclo 0)))
         anos ->
  so_busca E K (nome_por_taxa_em E ibge ciclo anos).
Proof.
  induction 1 as [|a r Ha Hr IH]; cbn [nome_por_taxa_em]; [apply busca_ret|].
  apply busca_bind; [apply busca_fetch; exact Ha|]. intros raw.
  destruct (truthy raw); [apply busca_lift|exact IH].
Qed.

End Buscas.

Ltac busca_passo :=
  lazymatch goal with
  | |- so_busca _ _ (ret _) => apply busca_ret
  | |- so_busca _ _ (lift _) => apply busca_lift
  | |- so_busca _ _ (bind _ _) => apply busca_bind; [|intros ?]
  | |- so_busca _ _ (tentar_gerador _ _) => apply busca_tentar
  | |- so_busca _ _ (if ?b then _ else _) => destruct b
  | |- so_busca _ _ (match ?x with _ => _ end) => destruct x
  end.

Ltac busca := repeat first [assumption | busca_passo].

Section BuscasDosRelatorios.
Variable E : Ambiente.
Variable F : Formatadores.
Variable K : chave -> Prop.
Variable ibge : string.

Let anos := _anos_candidatos E 6.

Hypothesis Kapr :
  forall c, In c (map fst CICLOS) ->
            K (cache_key (url_aprendizado ibge) (params_aprendizado 5 c)).
Hypothesis Kinfra :
  Forall (fun a => K (cache_key (url_infra ibge) (params_infra a 3))) anos.
Hypothesis Kcenso :
  Forall (fun a => K (cache_key url_censo (params_censo ibge a 3 0 0))) anos.
Hypothesis Ktaxa :
  forall c, In c (map fst CICLOS) ->
    Forall (fun a => K (cache_key (url_taxa ibge) (params_taxa a 0 c 0))) anos.

Lemma busca_fetch_aprendizado c :
  In c (map fst CICLOS) -> so_busca E K (fetch_aprendizado E ibge 5 c).
Proof. intros H. apply busca_fetch, Kapr, H. Qed.

Lemma busca_fetch_censo : so_busca E K (fetch_censo E ibge 3 None 0 0).
Proof. apply busca_censo_em, Kcenso. Qed.

Lemma busca_fetch_infra : so_busca E K (fetch_infra E ibge 3 None).
Proof. apply busca_infra_em, Kinfra. Qed.

Lemma busca_fetch_taxa c :
  In c (map fst CICLOS) -> so_busca E K (fetch_taxa E ibge c 0 None 0).
Proof. intros H. apply busca_taxa_em, Ktaxa, H. Qed.

Lemma busca_aprendizado_ciclos mun ciclos txt :
  incl (map fst ciclos) (map fst CICLOS) ->
  so_busca E K (aprendizado_ciclos E F ibge mun ciclos txt).
Proof.
  revert txt. induction ciclos as [|[cid cnome] r IH]; intros txt Hin;
    cbn [aprendizado_ciclos]; [apply busca_ret|].
  assert (Hr : incl (map fst r) (map fst CICLOS))
    by (intros x Hx; apply Hin; right; exact Hx).
  apply busca_bind; [apply busca_fetch_aprendizado, Hin; left; reflexivity|].
  intros dados. apply busca_bind; [apply busca_lift|]. intros [[[|m ms] est] br].
  - apply IH, Hr.
  - apply busca_bind; [apply busca_lift|]. intros bloco. apply IH, Hr.
Qed.

Lemma busca_taxa_ciclos ciclos etapas ano_ref :
  incl (map fst ciclos) (map fst CICLOS) ->
  so_busca E K (taxa_ciclos E F ibge ciclos etapas ano_ref).
Proof.
  revert etapas ano_ref. induction ciclos as [|[cid cnome] r IH];
    intros etapas ano_ref Hin; cbn [taxa_ciclos]; [apply busca_ret|].
  assert (Hr : incl (map fst r) (map fst CICLOS))
    by (intros x Hx; apply Hin; right; exact Hx).
  apply busca_bind; [apply busca_fetch_taxa, Hin; left; reflexivity|].
  intros [dados a]. destruct (truthy dados); [|apply IH, Hr].
  apply busca_bind; [apply busca_lift|]. intros maior.
  apply busca_bind; [apply busca_lift|]. intros etapa. apply IH, Hr.
Qed.

Lemma busca_estrut_aprendizado_ciclos ciclos acc :
  incl (map fst ciclos) (map fst CICLOS) ->
  so_busca E K (estrut_aprendizado_ciclos E F ibge ciclos acc).
Proof.
  revert acc. induction ciclos as [|[cid cnome] r IH]; intros acc Hin;
    cbn [estrut_aprendizado_ciclos]; [apply busca_ret|].
  assert (Hr : incl (map fst r) (map fst CICLOS))
    by (intros x Hx; apply Hin; right; exact Hx).
  apply busca_bind; [apply busca_fetch_aprendizado, Hin; left; reflexivity|].
  intros dados. apply busca_bind; [apply busca_lift|]. intros [[[|m ms] est] br].
  - apply IH, Hr.
  - apply busca_bind; [apply busca_lift|]. intros bloco. apply IH, Hr.
Qed.

Lemma busca_estrut_taxa_ciclos ciclos acc :
  incl (map fst ciclos) (map fst CICLOS) ->
  so_busca E K (estrut_taxa_ciclos E F ibge ciclos acc).
Proof.
  revert acc. induction ciclos as [|[cid cnome] r IH]; intros acc Hin;
    cbn [estrut_taxa_ciclos]; [apply busca_ret|].
  assert (Hr : incl (map fst r) (map fst CICLOS))
    by (intros x Hx; apply Hin; right; exact Hx).
  apply busca_bind; [apply busca_fetch_taxa, Hin; left; reflexivity|].
  intros [raw_t ano_t]. destruct (truthy raw_t); [|apply IH, Hr].
  apply busca_bind; [apply busca_lift|]. intros [d|]; apply IH, Hr.
Qed.

Lemma busca_gerar_txt_aprendizado mun uf :
  so_busca E K (gerar_txt_aprendizado E F ibge mun uf).
Proof.
  unfold gerar_txt_aprendizado.
  apply busca_bind; [apply busca_aprendizado_ciclos, incl_refl|].
  intros txt. busca.
Qed.

Lemma busca_gerar_txt_infra mun uf :
  so_busca E K (gerar_txt_infra E F ibge mun uf).
Proof.
  unfold gerar_txt_infra. apply busca_bind; [apply busca_fetch_infra|].
  intros [dados ano]. busca.
Qed.

Lemma busca_gerar_txt_censo mun uf :
  so_busca E K (gerar_txt_censo E F ibge mun uf).
Proof.
  unfold gerar_txt_censo. apply busca_bind; [apply busca_fetch_censo|].
  intros [dados ano]. busca.
Qed.

Lemma busca_gerar_txt_ideb mun uf :
  so_busca E K (gerar_txt_ideb E F ibge mun uf).
Proof. unfold gerar_txt_ideb. busca. Qed.

Lemma busca_gerar_txt_taxa mun uf :
  so_busca E K (gerar_txt_taxa E F ibge mun uf).
Proof.
  unfold gerar_txt_taxa.
  apply busca_bind; [apply busca_taxa_ciclos, incl_refl|].
  intros [etapas ano_ref]. busca.
Qed.

Lemma busca_coletar mun uf :
  so_busca E K (coletar_dados_estruturados E F ibge mun uf).
Proof.
  unfold coletar_dados_estruturados.
  apply busca_bind; [apply busca_estrut_aprendizado_ciclos, incl_refl|].
  intros aprendizado.
  apply busca_bind; [apply busca_fetch_censo|]. intros [raw_c ano_c].
  apply busca_bind; [apply busca_lift|]. intros tem_c.
  apply busca_bind; [busca|]. intros dados.
  apply busca_bind; [apply busca_fetch_infra|]. intros [raw_i ano_i].
  apply busca_bind; [busca|]. intros dados'.
  apply busca_bind; [apply busca_estrut_taxa_ciclos, incl_refl|].
  intros taxa_d. apply busca_ret.
Qed.

Lemma busca_gerar_arquivos mun uf slug :
  so_busca E K (gerar_arquivos ibge mun uf slug (geradores E F) []).
Proof.
  unfold geradores. cbn [gerar_arquivos].
  apply busca_bind;
    [apply busca_tentar, busca_gerar_txt_aprendizado|intros t1].
  apply busca_bind; [apply busca_tentar, busca_gerar_txt_infra|intros t2].
  apply busca_bind; [apply busca_tentar, busca_gerar_txt_censo|intros t3].
  apply busca_bind; [apply busca_tentar, busca_gerar_txt_ideb|intros t4].
  apply busca_bind; [apply busca_tentar, busca_gerar_txt_taxa|intros t5].
  apply busca_ret.
Qed.

End BuscasDosRelatorios.

(** *** Requests of a whole run *)

Section Corrida.
Variable E : Ambiente.
Variable F : Formatadores.

Lemma busca_nome_por_taxa K ibge ciclos :
  Forall (fun c => Forall (fun a => K (cache_key (url_taxa ibge)
                                         (params_taxa a 0 c 0)))
                          (_anos_candidatos E 6)) ciclos ->
  so_busca E K (nome_por_taxa E ibge ciclos).
Proof.
  induction 1 as [|c r Hc Hr IH]; cbn [nome_por_taxa]; [apply busca_ret|].
  apply busca_bind; [apply busca_nome_por_taxa_em, Hc|].
  intros [p|]; [apply busca_ret|exact IH].
Qed.

Lemma no_mapa {A} (f : A -> chave) (a : A) (l : list A) :
  a ∈ l -> f a ∈ map f l.
Proof. intros H. apply list_elem_of_In, in_map, list_elem_of_In, H. Qed.

Lemma todos_no_mapa {A} (K : chave -> Prop) (f : A -> chave) (l : list A) :
  (forall k, k ∈ map f l -> K k) -> Forall (fun a => K (f a)) l.
Proof.
  intros H. apply Forall_forall. intros a Ha. apply H, no_mapa, Ha.
Qed.

Lemma busca_descobrir (K : chave -> Prop) ibge :
  (forall k, k ∈ chaves_do_nome E (strip (unicode E) ibge) -> K k) ->
  so_busca E K (descobrir_municipio E ibge).
Proof.
  intros HK. unfold descobrir_municipio.
  destruct (uf_lookup _ _) as [[nome sigla]|]; [apply busca_ret|].
  apply busca_bind.
  { apply busca_nome_por_taxa.
    constructor; [|constructor; [|constructor]];
      apply todos_no_mapa; intros k Hk; apply HK; unfold chaves_do_nome;
      rewrite !elem_of_app; auto. }
  intros [p|]; [apply busca_ret|].
  apply busca_bind.
  { apply busca_censo_em, todos_no_mapa. intros k Hk. apply HK.
    unfold chaves_do_nome. rewrite !elem_of_app. auto. }
  intros [d a]. busca.
Qed.

Lemma chaves_dos_relatorios_ok (K : chave -> Prop) ibge :
  (forall k, k ∈ chaves_dos_relatorios E ibge -> K k) ->
  (forall c, In c (map fst CICLOS) ->
             K (cache_key (url_aprendizado ibge) (params_aprendizado 5 c)))
  /\ Forall (fun a => K (cache_key (url_infra ibge) (params_infra a 3)))
            (_anos_candidatos E 6)
  /\ Forall (fun a => K (cache_key url_censo (params_censo ibge a 3 0 0)))
            (_anos_candidatos E 6)
  /\ (forall c, In c (map fst CICLOS) ->
        Forall (fun a => K (cache_key (url_taxa ibge) (params_taxa a 0 c 0)))
               (_anos_candidatos E 6)).
Proof.
  intros HK. split; [|split; [|split]].
  - intros c Hc. apply HK. unfold chaves_dos_relatorios.
    rewrite !elem_of_app. left.
    apply (no_mapa (fun c => cache_key (url_aprendizado ibge)
                               (params_aprendizado 5 c))).
    apply list_elem_of_In. exact Hc.
  - apply todos_no_mapa. intros k Hk. apply HK. unfold chaves_dos_relatorios.
    rewrite !elem_of_app. auto.
  - apply todos_no_mapa. intros k Hk. apply HK. unfold chaves_dos_relatorios.
    rewrite !elem_of_app. auto.
  - intros c Hc. apply todos_no_mapa. intros k Hk. apply HK.
    unfold chaves_dos_relatorios. rewrite !elem_of_app.
    cbn [CICLOS map fst In] in Hc.
    destruct Hc as [<-|[<-|[<-|[]]]]; auto 10.
Qed.

(** The body of [gerar_todos] after the cache is cleared. *)
Lemma busca_gerar_todos (K : chave -> Prop) ibge :
  (forall k, k ∈ chaves_do_nome E (strip (unicode E) ibge) -> K k) ->
  (forall k, k ∈ chaves_dos_relatorios E ibge -> K k) ->
  exists m : M pacote,
    so_busca E K m
    /\ forall w, gerar_todos E F ibge w = m (_clear_cache w).
Proof.
  intros Hn Hr. eexists. split; [|intros w; unfold gerar_todos; reflexivity].
  destruct (chaves_dos_relatorios_ok K ibge Hr) as (H1 & H2 & H3 & H4).
  apply busca_bind; [apply busca_descobrir, Hn|]. intros [mun uf].
  apply busca_bind; [apply busca_lift|]. intros [mun' slug].
  apply busca_bind; [apply busca_gerar_arquivos; assumption|]. intros arqs.
  apply busca_bind; [apply busca_coletar; assumption|]. intros dados.
  apply busca_ret.
Qed.

Lemma tamanho_de_lista (L : list chave) :
  (size (list_to_set L : gset chave) <= length L)%nat.
Proof.
  induction L as [|x L IH]; [reflexivity|].
  cbn [list_to_set length]. rewrite size_union_alt, size_singleton.
  assert (Hsub : (list_to_set L : gset chave) ∖ {[x]} ⊆ list_to_set L)
    by (intros k Hk; apply elem_of_difference in Hk; tauto).
  apply subseteq_size in Hsub. lia.
Qed.

Lemma limitado_conta (K : chave -> Prop) {A} (m : M A) (L : list chave) w :
  limitado K m -> (forall k, K k -> k ∈ L) ->
  pedidos w `prefix_of` pedidos (snd (m w))
  /\ (length (novos w (snd (m w))) <= 3 * length L)%nat.
Proof.
  intros Hl HK. destruct (Hl w) as ((_ & Hp) & Hk & Hn).
  split; [exact Hp|].
  set (c := _FETCH_CACHE w) in *. set (c' := _FETCH_CACHE (snd (m w))) in *.
  assert (Hs : (size c' <= size c + length L)%nat).
  { rewrite <- (size_dom (D := gset chave) c'), <- (size_dom (D := gset chave) c).
    transitivity (size (dom c ∪ (list_to_set L : gset chave))).
    - apply subseteq_size. intros k Hk'. apply elem_of_dom in Hk'.
      apply elem_of_union. destruct (Hk k Hk') as [H|H].
      + left. apply elem_of_dom. exact H.
      + right. apply elem_of_list_to_set. apply HK. exact H.
    - rewrite size_union_alt.
      assert (Hsub : (list_to_set L : gset chave) ∖ dom c ⊆ list_to_set L)
        by (intros k Hk'; apply elem_of_difference in Hk'; tauto).
      apply subseteq_size in Hsub.
      pose proof (tamanho_de_lista L). lia. }
  lia.
Qed.

Lemma tamanho_chaves_do_nome ibge : length (chaves_do_nome E ibge) = 18%nat.
Proof.
  unfold chaves_do_nome. rewrite !length_app, !length_map.
  rewrite anos_candidatos_6. reflexivity.
Qed.

Lemma tamanho_chaves_da_corrida ibge :
  length (chaves_da_corrida E ibge) = 39%nat.
Proof.
  unfold chaves_da_corrida, chaves_dos_relatorios.
  rewrite !length_app, !length_map. rewrite anos_candidatos_6. reflexivity.
Qed.

Lemma chaves_do_nome_na_corrida ibge k :
  k ∈ chaves_do_nome E ibge -> k ∈ chaves_da_corrida E ibge.
Proof.
  unfold chaves_do_nome, chaves_da_corrida, chaves_dos_relatorios.
  rewrite !elem_of_app. intros [H|[H|H]]; auto 10.
Qed.

Lemma gerar_todos_conta ibge w :
  strip (unicode E) ibge = ibge ->
  pedidos w `prefix_of` pedidos (snd (gerar_todos E F ibge w))
  /\ (length (novos w (snd (gerar_todos E F ibge w))) <= 117)%nat.
Proof.
  intros Hs.
  destruct (busca_gerar_todos (fun k => k ∈ chaves_da_corrida E ibge) ibge)
    as (m & Hm & Heq).
  - rewrite Hs. apply chaves_do_nome_na_corrida.
  - intros k Hk. unfold chaves_da_corrida. rewrite elem_of_app. auto.
  - rewrite Heq.
    pose proof (limitado_conta _ m (chaves_da_corrida E ibge) (_clear_cache w)
                  (so_busca_limitado E _ m Hm) (fun k H => H)) as [Hp Hn].
    rewrite tamanho_chaves_da_corrida in Hn.
    split; [exact Hp|]. exact Hn.
Qed.

End Corrida.

(** X10. A run of [gerar_todos] on a code with no white space around it
    keeps the requests already issued and adds at most 117 of them,
    whatever the network answers: three attempts for each of at most 39
    distinct requests. *)
Theorem gerar_todos_no_maximo_117 (E : Ambiente) (F : Formatadores)
        (ibge : string) (w : mundo) :
  strip (unicode E) ibge = ibge ->
  pedidos w `prefix_of` pedidos (snd (gerar_todos E F ibge w))
  /\ (length (novos w (snd (gerar_todos E F ibge w))) <= 117)%nat.
Proof. apply gerar_todos_conta. Qed.

Lemma gerar_todos_no_maximo_117_witness :
  (pedidos mundo_inicial
     `prefix_of` pedidos (snd (gerar_todos Cenarios.E_sem_rede Cenarios.F_recusa
                                 "2304400" mundo_inicial))
   /\ (length (novos mundo_inicial
                 (snd (gerar_todos Cenarios.E_sem_rede Cenarios.F_recusa
                         "2304400" mundo_inicial))) <= 117)%nat)
  /\ length (novos mundo_inicial
               (snd (gerar_todos Cenarios.E_sem_rede Cenarios.F_recusa
                       "2304400" mundo_inicial))) = 117%nat.
Proof.
  split.
  - apply (gerar_todos_no_maximo_117 Cenarios.E_sem_rede Cenarios.F_recusa
             "2304400" mundo_inicial).
    reflexivity.
  - vm_compute. reflexivity.
Defined.

(** X11. Whatever the request and whatever the network answers, the
    service keeps the requests already issued and adds at most 117 of
    them while it answers. *)
Theorem pedidos_por_requisicao (E : Ambiente) (F : Formatadores)
        (req : requisicao) (w : mundo) :
  pedidos w `prefix_of` pedidos (snd (servico E F req w))
  /\ (length (novos w (snd (servico E F req w))) <= 117)%nat.
Proof.
  assert (Hparado : pedidos w `prefix_of` pedidos w
                    /\ (length (novos w w) <= 117)%nat).
  { split; [reflexivity|]. rewrite novos_refl. cbn. lia. }
  assert (Hgerar : forall c,
             pedidos w `prefix_of` pedidos (snd (_gerar E (gerar_todos E F) c w))
             /\ (length (novos w (snd (_gerar E (gerar_todos E F) c w)))
                 <= 117)%nat).
  { intros c. unfold _gerar.
    destruct (_validar_ibge E c) as [erro|c'] eqn:Hv; [exact Hparado|].
    destruct (validar_aceita E c c' Hv) as (Hc & _ & _).
    assert (Hs : strip (unicode E) c' = c')
      by (rewrite Hc; apply strip_idempotente).
    pose proof (gerar_todos_conta E F c' w Hs) as H.
    destruct (gerar_todos E F c' w) as [[e|res] w']; exact H. }
  assert (Hrel : forall c,
             pedidos w `prefix_of`
               pedidos (snd (responder_relatorios E (gerar_todos E F) c w))
             /\ (length (novos w (snd (responder_relatorios E (gerar_todos E F)
                                         c w))) <= 117)%nat).
  { intros c. unfold responder_relatorios. specialize (Hgerar c).
    destruct (_gerar E (gerar_todos E F) c w) as [[erro|r] w']; exact Hgerar. }
  assert (Hmun : forall c,
             pedidos w `prefix_of`
               pedidos (snd (responder_municipio E (descobrir_municipio E) c w))
             /\ (length (novos w (snd (responder_municipio E
                                         (descobrir_municipio E) c w)))
                 <= 117)%nat).
  { intros c. unfold responder_municipio.
    destruct (_validar_ibge E c) as [erro|c'] eqn:Hv; [exact Hparado|].
    pose proof (limitado_conta
                  (fun k => k ∈ chaves_do_nome E (strip (unicode E) c'))
                  (descobrir_municipio E c')
                  (chaves_do_nome E (strip (unicode E) c')) w
                  (so_busca_limitado E _ _
                     (busca_descobrir E _ c' (fun k H => H)))
                  (fun k H => H)) as [Hp Hn].
    rewrite tamanho_chaves_do_nome in Hn.
    destruct (descobrir_municipio E c' w) as [[e|[mun uf]] w'];
      cbn [snd] in *; (split; [exact Hp|lia]). }
  unfold servico. destruct req as [|i|c|i t|i|c]; unfold atender; cbv zeta.
  - exact Hparado.
  - destruct (String.eqb _ _); [exact Hparado|]. apply Hrel.
  - apply Hrel.
  - destruct (String.eqb _ _); [exact Hparado|].
    destruct (negb _); [exact Hparado|].
    specialize (Hgerar (strip (unicode E) (default EmptyString i))).
    destruct (_gerar E (gerar_todos E F) _ w) as [[erro|r] w'];
      [exact Hgerar|].
    destruct (dict_get _ _) as [txt|]; [|exact Hgerar].
    destruct (String.eqb txt EmptyString); exact Hgerar.
  - destruct (String.eqb _ _); [exact Hparado|]. apply Hmun.
  - apply Hmun.
Qed.

(** *** The collector after the renderers *)

Section Reuso.
Variable E : Ambiente.
Variable F : Formatadores.
Variable ibge : string.

Let K : chave -> Prop := fun _ => True.

Lemma tudo_em_K {A} (f : A -> chave) (l : list A) : Forall (fun a => K (f a)) l.
Proof. apply Forall_forall. intros a _. exact I. Qed.

Lemma estende_busca {A} (m : M A) w : so_busca E K m -> estende w (snd (m w)).
Proof. intros H. apply (so_busca_limitado E K m H w). Qed.

Lemma repete_busca {A} (m : M A) w r w1 w2 :
  so_busca E K m -> m w = (r, w1) -> estende w1 w2 -> m w2 = (r, w2).
Proof.
  intros H Hrun H2. destruct (so_busca_repetivel E K m H w r w1 Hrun) as [_ Hrep].
  apply Hrep. exact H2.
Qed.

Lemma b_fetch_aprendizado c : so_busca E K (fetch_aprendizado E ibge 5 c).
Proof. apply busca_fetch. exact I. Qed.

Lemma b_fetch_censo : so_busca E K (fetch_censo E ibge 3 None 0 0).
Proof. apply busca_censo_em, tudo_em_K. Qed.

Lemma b_fetch_infra : so_busca E K (fetch_infra E ibge 3 None).
Proof. apply busca_infra_em, tudo_em_K. Qed.

Lemma b_fetch_taxa c : so_busca E K (fetch_taxa E ibge c 0 None 0).
Proof. apply busca_taxa_em, tudo_em_K. Qed.

Lemma b_aprendizado_ciclos mun ciclos txt :
  so_busca E K (aprendizado_ciclos E F ibge mun ciclos txt).
Proof.
  revert txt. induction ciclos as [|[cid cnome] r IH]; intros txt;
    cbn [aprendizado_ciclos]; [apply busca_ret|].
  apply busca_bind; [apply b_fetch_aprendizado|]. intros dados.
  apply busca_bind; [apply busca_lift|]. intros [[[|m ms] est] br];
    [apply IH|].
  apply busca_bind; [apply busca_lift|]. intros bloco. apply IH.
Qed.

Lemma b_taxa_ciclos ciclos etapas ano_ref :
  so_busca E K (taxa_ciclos E F ibge ciclos etapas ano_ref).
Proof.
  revert etapas ano_ref. induction ciclos as [|[cid cnome] r IH];
    intros etapas ano_ref; cbn [taxa_ciclos]; [apply busca_ret|].
  apply busca_bind; [apply b_fetch_taxa|]. intros [dados a].
  destruct (truthy dados); [|apply IH].
  apply busca_bind; [apply busca_lift|]. intros maior.
  apply busca_bind; [apply busca_lift|]. intros etapa. apply IH.
Qed.

Lemma quieto_ret {A} (a : A) w : quieto w (ret a).
Proof. exists (ok a). reflexivity. Qed.

Lemma quieto_lift {A} (r : res A) w : quieto w (lift r).
Proof. exists r. reflexivity. Qed.

Lemma quieto_bind {A B} (m : M A) (k : A -> M B) w r :
  m w = (r, w) -> (forall a, r = ok a -> quieto w (k a)) -> quieto w (bind m k).
Proof.
  intros Hm Hk. unfold quieto, bind. rewrite Hm.
  destruct r as [e|a]; [exists (inl e); reflexivity|apply Hk; reflexivity].
Qed.

Lemma quieto_lift_bind {A B} (r : res A) (k : A -> M B) w :
  (forall a, r = ok a -> quieto w (k a)) -> quieto w (bind (lift r) k).
Proof. apply quieto_bind. reflexivity. Qed.

(** What the learning renderer fetched, the collector finds in the cache. *)
Lemma aprendizado_ja_buscado mun ciclos txt w r w1 :
  aprendizado_ciclos E F ibge mun ciclos txt w = (ok r, w1) ->
  forall acc w2, estende w1 w2 ->
    quieto w2 (estrut_aprendizado_ciclos E F ibge ciclos acc).
Proof.
  revert txt w. induction ciclos as [|[cid cnome] rest IH];
    intros txt w Hrun acc w2 H2; cbn [estrut_aprendizado_ciclos];
    [apply quieto_ret|].
  cbn [aprendizado_ciclos] in Hrun. unfold bind at 1 in Hrun.
  destruct (fetch_aprendizado E ibge 5 cid w) as [[e|dados] wa] eqn:Hf;
    [discriminate Hrun|].
  unfold bind at 1, lift at 1 in Hrun.
  destruct (_extrair_territorios F dados ibge) as [e|terr] eqn:Ht;
    [discriminate Hrun|].
  assert (Hresto : exists txt', aprendizado_ciclos E F ibge mun rest txt' wa
                                = (ok r, w1)).
  { destruct terr as [[[|m ms] est] br]; [eauto|].
    unfold bind at 1, lift at 1 in Hrun.
    destruct (bloco_aprendizado F cid cnome mun _) as [e|bloco];
      [discriminate Hrun|eauto]. }
  destruct Hresto as [txt' Hresto].
  assert (Ha1 : estende wa w1).
  { pose proof (estende_busca _ wa (b_aprendizado_ciclos mun rest txt')) as H.
    rewrite Hresto in H. exact H. }
  apply (quieto_bind _ _ w2 (ok dados)).
  { eapply repete_busca; [apply b_fetch_aprendizado|exact Hf|].
    eapply estende_trans; eassumption. }
  intros d Hd. injection Hd as <-.
  apply quieto_lift_bind. intros t Ht'. rewrite Ht in Ht'. injection Ht' as <-.
  destruct terr as [[[|m ms] est] br].
  - eapply IH; eassumption.
  - apply quieto_lift_bind. intros ciclo_d _. eapply IH; eassumption.
Qed.

(** The same for the rates renderer. *)
Lemma taxa_ja_buscada ciclos etapas ano_ref w r w1 :
  taxa_ciclos E F ibge ciclos etapas ano_ref w = (ok r, w1) ->
  forall acc w2, estende w1 w2 ->
    quieto w2 (estrut_taxa_ciclos E F ibge ciclos acc).
Proof.
  revert etapas ano_ref w. induction ciclos as [|[cid cnome] rest IH];
    intros etapas ano_ref w Hrun acc w2 H2; cbn [estrut_taxa_ciclos];
    [apply quieto_ret|].
  cbn [taxa_ciclos] in Hrun. unfold bind at 1 in Hrun.
  destruct (fetch_taxa E ibge cid 0 None 0 w) as [[e|[dados a]] wa] eqn:Hf;
    [discriminate Hrun|].
  assert (Hresto : exists etapas' ano_ref',
             taxa_ciclos E F ibge rest etapas' ano_ref' wa = (ok r, w1)).
  { destruct (truthy dados); [|eauto].
    unfold bind at 1, lift at 1 in Hrun.
    destruct (py_gt a ano_ref) as [e|maior]; [discriminate Hrun|].
    unfold bind at 1, lift at 1 in Hrun.
    destruct (etapa_taxa F cid cnome dados a) as [e|etapa];
      [discriminate Hrun|eauto]. }
  destruct Hresto as (etapas' & ano_ref' & Hresto).
  assert (Ha1 : estende wa w1).
  { pose proof (estende_busca _ wa (b_taxa_ciclos rest etapas' ano_ref')) as H.
    rewrite Hresto in H. exact H. }
  apply (quieto_bind _ _ w2 (ok (dados, a))).
  { eapply repete_busca; [apply b_fetch_taxa|exact Hf|].
    eapply estende_trans; eassumption. }
  intros d Hd. injection Hd as <-.
  destruct (truthy dados); [|eapply IH; eassumption].
  apply quieto_lift_bind. intros [reg|] _; eapply IH; eassumption.
Qed.

Lemma quieto_bind_fraco {A B} (m : M A) (k : A -> M B) w :
  quieto w m -> (forall a, quieto w (k a)) -> quieto w (bind m k).
Proof. intros [r Hm] Hk. apply (quieto_bind m k w r Hm). intros a _. apply Hk. Qed.

Lemma quieto_repetido {A} (m : M A) w r w1 w2 :
  so_busca E K m -> m w = (r, w1) -> estende w1 w2 -> quieto w2 m.
Proof. intros H Hrun H2. exists r. eapply repete_busca; eassumption. Qed.

Lemma quieto_depois {A} (m : M A) w w2 :
  so_busca E K m -> estende (snd (m w)) w2 -> quieto w2 m.
Proof.
  intros H H2. eapply (quieto_repetido m w (fst (m w)) (snd (m w)));
    [exact H|apply surjective_pairing|exact H2].
Qed.

Lemma snd_gerar_txt_infra mun uf w :
  snd (gerar_txt_infra E F ibge mun uf w) = snd (fetch_infra E ibge 3 None w).
Proof.
  unfold gerar_txt_infra, bind.
  destruct (fetch_infra E ibge 3 None w) as [[e|[dados ano]] w1]; [reflexivity|].
  destruct (truthy dados); reflexivity.
Qed.

Lemma snd_gerar_txt_censo mun uf w :
  snd (gerar_txt_censo E F ibge mun uf w)
  = snd (fetch_censo E ibge 3 None 0 0 w).
Proof.
  unfold gerar_txt_censo, bind.
  destruct (fetch_censo E ibge 3 None 0 0 w) as [[e|[dados ano]] w1];
    [reflexivity|].
  unfold lift. destruct (if truthy dados then _ else _) as [e|[|]]; reflexivity.
Qed.

Lemma snd_gerar_txt_ideb mun uf w : snd (gerar_txt_ideb E F ibge mun uf w) = w.
Proof.
  destruct (gerar_txt_ideb_puro E F ibge mun uf) as (r & Hr & _).
  rewrite Hr. reflexivity.
Qed.

Lemma gerar_txt_aprendizado_ok mun uf w t w1 :
  gerar_txt_aprendizado E F ibge mun uf w = (ok t, w1) ->
  exists txt, aprendizado_ciclos E F ibge mun CICLOS EmptyString w = (ok txt, w1).
Proof.
  unfold gerar_txt_aprendizado, bind.
  destruct (aprendizado_ciclos E F ibge mun CICLOS EmptyString w)
    as [[e|txt] w'] eqn:Hc; [discriminate|].
  destruct (String.eqb txt EmptyString); intros H; injection H as _ <-; eauto.
Qed.

Lemma gerar_txt_taxa_ok mun uf w t w1 :
  gerar_txt_taxa E F ibge mun uf w = (ok t, w1) ->
  exists r, taxa_ciclos E F ibge CICLOS [] (JInt 0) w = (ok r, w1).
Proof.
  unfold gerar_txt_taxa, bind.
  destruct (taxa_ciclos E F ibge CICLOS [] (JInt 0) w)
    as [[e|[etapas ano_ref]] w'] eqn:Hc; [discriminate|].
  destruct (truthy ano_ref); unfold lift, ret; intros H; injection H as _ <-;
    eauto.
Qed.

Lemma coletar_quieto mun uf w5 :
  (forall acc, quieto w5 (estrut_aprendizado_ciclos E F ibge CICLOS acc)) ->
  quieto w5 (fetch_censo E ibge 3 None 0 0) ->
  quieto w5 (fetch_infra E ibge 3 None) ->
  (forall acc, quieto w5 (estrut_taxa_ciclos E F ibge CICLOS acc)) ->
  quieto w5 (coletar_dados_estruturados E F ibge mun uf).
Proof.
  intros Ha Hc Hi Ht. unfold coletar_dados_estruturados.
  apply quieto_bind_fraco; [apply Ha|]. intros aprendizado.
  apply quieto_bind_fraco; [exact Hc|]. intros [raw_c ano_c].
  apply quieto_lift_bind. intros tem_c _.
  apply quieto_bind_fraco.
  { destruct tem_c; [|apply quieto_ret].
    apply quieto_lift_bind. intros censo_d _. apply quieto_ret. }
  intros dados.
  apply quieto_bind_fraco; [exact Hi|]. intros [raw_i ano_i].
  apply quieto_bind_fraco.
  { destruct (truthy raw_i); [|apply quieto_ret].
    apply quieto_lift_bind. intros infra_d _. apply quieto_ret. }
  intros dados'.
  apply quieto_bind_fraco; [apply Ht|]. intros taxa_d. apply quieto_ret.
Qed.

Lemma coletar_depois_dos_relatorios mun uf w :
  let r1 := gerar_txt_aprendizado E F ibge mun uf w in
  let r2 := gerar_txt_infra E F ibge mun uf (snd r1) in
  let r3 := gerar_txt_censo E F ibge mun uf (snd r2) in
  let r4 := gerar_txt_ideb E F ibge mun uf (snd r3) in
  let r5 := gerar_txt_taxa E F ibge mun uf (snd r4) in
  (exists t, fst r1 = ok t) -> (exists t, fst r5 = ok t) ->
  snd (coletar_dados_estruturados E F ibge mun uf (snd r5)) = snd r5.
Proof.
  intros r1 r2 r3 r4 r5 [t1 H1] [t5 H5].
  assert (E12 : estende (snd r1) (snd r2)).
  { subst r2. rewrite snd_gerar_txt_infra. apply estende_busca, b_fetch_infra. }
  assert (E23 : estende (snd r2) (snd r3)).
  { subst r3. rewrite snd_gerar_txt_censo. apply estende_busca, b_fetch_censo. }
  assert (E34 : snd r4 = snd r3) by apply snd_gerar_txt_ideb.
  assert (R1 : r1 = (ok t1, snd r1))
    by (rewrite <- H1; apply surjective_pairing).
  assert (R5 : r5 = (ok t5, snd r5))
    by (rewrite <- H5; apply surjective_pairing).
  destruct (gerar_txt_aprendizado_ok mun uf w t1 (snd r1) R1) as [txt Ha].
  destruct (gerar_txt_taxa_ok mun uf (snd r4) t5 (snd r5) R5) as [rt Ht].
  assert (E45 : estende (snd r4) (snd r5)).
  { pose proof (estende_busca _ (snd r4) (b_taxa_ciclos CICLOS [] (JInt 0))) as H.
    rewrite Ht in H. exact H. }
  assert (E35 : estende (snd r3) (snd r5)) by (rewrite <- E34; exact E45).
  assert (E25 : estende (snd r2) (snd r5))
    by (eapply estende_trans; eassumption).
  assert (E15 : estende (snd r1) (snd r5))
    by (eapply estende_trans; eassumption).
  destruct (coletar_quieto mun uf (snd r5)) as [r Hr].
  - intros acc. eapply aprendizado_ja_buscado; eassumption.
  - apply (quieto_depois _ (snd r2)); [apply b_fetch_censo|].
    subst r3. rewrite snd_gerar_txt_censo in E35. exact E35.
  - apply (quieto_depois _ (snd r1)); [apply b_fetch_infra|].
    subst r2. rewrite snd_gerar_txt_infra in E25. exact E25.
  - intros acc. eapply taxa_ja_buscada; [exact Ht|apply estende_refl].
  - rewrite Hr. reflexivity.
Qed.

End Reuso.

(** X12. The collector of the structured data reuses the cache: run after
    the five renderers, of which the learning one and the rates one
    returned without raising, it issues no request and leaves the cache as
    it found it. *)
Theorem coletor_reutiliza_cache (E : Ambiente) (F : Formatadores)
        (ibge mun : string) (uf : json) (w : mundo) :
  let r1 := gerar_txt_aprendizado E F ibge mun uf w in
  let r2 := gerar_txt_infra E F ibge mun uf (snd r1) in
  let r3 := gerar_txt_censo E F ibge mun uf (snd r2) in
  let r4 := gerar_txt_ideb E F ibge mun uf (snd r3) in
  let r5 := gerar_txt_taxa E F ibge mun uf (snd r4) in
  (exists t, fst r1 = ok t) -> (exists t, fst r5 = ok t) ->
  snd (coletar_dados_estruturados E F ibge mun uf (snd r5)) = snd r5.
Proof. apply coletar_depois_dos_relatorios. Qed.

Lemma coletor_reutiliza_cache_witness :
  let r1 := gerar_txt_aprendizado Cenarios.E_censo_2024 Cenarios.F_recusa
              "2304400" "Fortaleza" (JStr "CE") mundo_inicial in
  let r2 := gerar_txt_infra Cenarios.E_censo_2024 Cenarios.F_recusa
              "2304400" "Fortaleza" (JStr "CE") (snd r1) in
  let r3 := gerar_txt_censo Cenarios.E_censo_2024 Cenarios.F_recusa
              "2304400" "Fortaleza" (JStr "CE") (snd r2) in
  let r4 := gerar_txt_ideb Cenarios.E_censo_2024 Cenarios.F_recusa
              "2304400" "Fortaleza" (JStr "CE") (snd r3) in
  let r5 := gerar_txt_taxa Cenarios.E_censo_2024 Cenarios.F_recusa
              "2304400" "Fortaleza" (JStr "CE") (snd r4) in
  snd (coletar_dados_estruturados Cenarios.E_censo_2024 Cenarios.F_recusa
         "2304400" "Fortaleza" (JStr "CE") (snd r5)) = snd r5.
Proof.
  apply (coletor_reutiliza_cache Cenarios.E_censo_2024 Cenarios.F_recusa
           "2304400" "Fortaleza" (JStr "CE") mundo_inicial);
    eexists; vm_compute; reflexivity.
Defined.

(** *** Candidate years *)

Lemma anos_candidatos_nodup (E : Ambiente) (n : Z) : NoDup (_anos_candidatos E n).
Proof.
  unfold _anos_candidatos.
  assert (Hinj : Inj eq eq (fun i : nat => ANO_ATUAL E - Z.of_nat i))
    by (intros x y H; lia).
  apply (NoDup_fmap_2 (fun i : nat => ANO_ATUAL E - Z.of_nat i)), NoDup_seq.
Qed.

(** X13. [_anos_candidatos(n)] lists [n] years, the current one first and
    each next one a year earlier, so no year is listed twice and none lies
    in the future; for [n <= 0] the list is empty. *)
Theorem anos_candidatos_em_ordem (E : Ambiente) (n : Z) :
  length (_anos_candidatos E n) = Z.to_nat n
  /\ (forall i, (i < Z.to_nat n)%nat ->
                _anos_candidatos E n !! i = Some (ANO_ATUAL E - Z.of_nat i))
  /\ NoDup (_anos_candidatos E n)
  /\ Forall (fun a => a <= ANO_ATUAL E) (_anos_candidatos E n).
Proof.
  split; [|split; [|split]]; [| |apply anos_candidatos_nodup|];
    unfold _anos_candidatos.
  - rewrite length_map, length_seq. reflexivity.
  - intros i Hi. change map with (@fmap list _) at 1.
    rewrite list_lookup_fmap, lookup_seq_lt by exact Hi. reflexivity.
  - apply Forall_forall. intros a Ha. apply list_elem_of_In, in_map_iff in Ha.
    destruct Ha as (i & <- & _). lia.
Qed.

(** X14. [_anos_saeb()] lists five odd years, two years apart, newest
    first; the newest is the current year when that is odd and the year
    before otherwise. *)
Theorem anos_saeb_impares (E : Ambiente) :
  exists a,
    _anos_saeb E = [a; a - 2; a - 4; a - 6; a - 8]
    /\ a mod 2 = 1
    /\ ANO_ATUAL E - 1 <= a <= ANO_ATUAL E
    /\ Forall (fun y => y mod 2 = 1) (_anos_saeb E).
Proof.
  unfold _anos_saeb.
  set (a := if ANO_ATUAL E mod 2 =? 1 then ANO_ATUAL E else ANO_ATUAL E - 1).
  assert (Ha : a mod 2 = 1 /\ ANO_ATUAL E - 1 <= a <= ANO_ATUAL E).
  { subst a. destruct (Z.eqb_spec (ANO_ATUAL E mod 2) 1) as [H|H].
    - split; [exact H|lia].
    - pose proof (Z.mod_pos_bound (ANO_ATUAL E) 2 ltac:(lia)) as Hb.
      assert (Hz : ANO_ATUAL E mod 2 = 0) by lia.
      split; [|lia].
      replace (ANO_ATUAL E - 1) with (ANO_ATUAL E + (-1) * 2 + 1) by lia.
      rewrite <- Z.add_mod_idemp_l, Z_mod_plus_full, Hz by lia. reflexivity. }
  destruct Ha as [Hodd Hb]. exists a.
  assert (Hl : map (fun i => a - 2 * Z.of_nat i) (seq 0 5)
               = [a; a - 2; a - 4; a - 6; a - 8]).
  { cbn [seq map]. change (2 * Z.of_nat 0) with 0. rewrite Z.sub_0_r.
    reflexivity. }
  rewrite Hl. split; [reflexivity|]. split; [exact Hodd|]. split; [exact Hb|].
  assert (Hk : forall k, (a - 2 * k) mod 2 = 1).
  { intros k. replace (a - 2 * k) with (a + (- k) * 2) by lia.
    rewrite Z_mod_plus_full. exact Hodd. }
  repeat constructor; [exact Hodd|..].
  - exact (Hk 1).
  - exact (Hk 2).
  - exact (Hk 3).
  - exact (Hk 4).
Qed.

(** *** Keys of the rates payload *)

Section ChavesDaTaxa.

Lemma py_or_vazio (x : json) : truthy (py_or x (JArr [])) = truthy x.
Proof. unfold py_or. destruct (truthy x) eqn:H; [exact H|reflexivity]. Qed.

Lemma py_or_fixo (x : json) : py_or (py_or x (JArr [])) (JArr []) = py_or x (JArr []).
Proof. unfold py_or. destruct (truthy x) eqn:H; [rewrite H|]; reflexivity. Qed.

Lemma py_or_nulo (y : json) : py_or JNull y = y.
Proof. reflexivity. Qed.

End ChavesDaTaxa.

(** X15. [_normalizar_taxa_keys] leaves a value that is not a dict as it
    is and turns a dict into one with exactly the keys [municipio],
    [estado] and [brasil], in this order; normalising what it returned
    changes nothing. *)
Theorem normalizar_taxa_idempotente (d : json) :
  _normalizar_taxa_keys (_normalizar_taxa_keys d) = _normalizar_taxa_keys d
  /\ match d with
     | JObj _ => exists m e b,
         _normalizar_taxa_keys d
         = JObj [("municipio", m); ("estado", e); ("brasil", b)]
     | _ => _normalizar_taxa_keys d = d
     end.
Proof.
  destruct d as [| | | | | |kv]; try (split; reflexivity).
  split; [|cbn [_normalizar_taxa_keys]; eauto].
  cbn [_normalizar_taxa_keys]. unfold get_or_vazio.
  cbn [assoc String.eqb Ascii.eqb Bool.eqb default from_option id].
  rewrite !py_or_nulo.
  set (pm := default JNull (assoc "municipio" kv)).
  set (pe := default JNull (assoc "entidade" kv)).
  set (pp := default JNull (assoc "parent" kv)).
  set (ps := default JNull (assoc "estado" kv)).
  set (pb := default JNull (assoc "brasil" kv)).
  assert (H : forall x y, py_or (py_or x (py_or y (JArr []))) (JArr [])
                          = py_or x (py_or y (JArr []))).
  { intros x y. unfold py_or. destruct (truthy x) eqn:Hx; [rewrite Hx; reflexivity|].
    destruct (truthy y) eqn:Hy; [rewrite Hy|]; reflexivity. }
  rewrite !H, py_or_fixo. reflexivity.
Qed.

(** *** The name of the entity without network *)

(** X16. When every HTTP attempt fails and the cache holds failures only,
    [descobrir_municipio] names a code that is not a state from the
    municipal IDEB table, by the first row with the code among its first
    300000 rows; without the file, or without such a row, the name is
    [IBGE_] followed by the code and the state is [??]. The code is the
    one given, stripped. *)
Theorem nome_de_ultimo_recurso (E : Ambiente) (ibge : string) :
  sem_rede E ->
  uf_lookup (strip (unicode E) ibge) UF_CODES = None ->
  let c := strip (unicode E) ibge in
  exists nome sigla,
    devolve (descobrir_municipio E ibge) (JStr nome, JStr sigla)
    /\ match IDEB_MUN_CSV E with
       | Some df =>
           match linhas_onde codigo_ibge c (firstn (Z.to_nat 300000) df) with
           | l :: _ => nome = indicador_municipio l /\ sigla = indicador_uf l
           | [] => nome = "IBGE_" ++ c /\ sigla = "??"
           end
       | None => nome = "IBGE_" ++ c /\ sigla = "??"
       end.
Proof.
  intros Hrede Huf c. subst c.
  assert (Hd : devolve (descobrir_municipio E ibge)
                 (nome_no_csv E (strip (unicode E) ibge))).
  { unfold descobrir_municipio. rewrite Huf.
    eapply devolve_bind; [apply nome_por_taxa_sem_rede, Hrede|]. cbv beta iota.
    eapply devolve_bind; [apply fetch_censo_sem_rede, Hrede|]. cbv beta iota.
    eapply devolve_bind; [apply devolve_lift; reflexivity|]. cbv beta iota.
    apply devolve_ret. }
  unfold nome_no_csv in Hd.
  destruct (IDEB_MUN_CSV E) as [df|].
  - destruct (linhas_onde codigo_ibge _ (firstn (Z.to_nat 300000) df)) as [|l ls];
      eexists _, _; (split; [exact Hd|split; reflexivity]).
  - eexists _, _. split; [exact Hd|split; reflexivity].
Qed.

Lemma nome_de_ultimo_recurso_witness :
  exists nome sigla,
    devolve (descobrir_municipio Cenarios.E_sem_rede " 2304400")
            (JStr nome, JStr sigla)
    /\ nome = "IBGE_2304400" /\ sigla = "??".
Proof.
  destruct (nome_de_ultimo_recurso Cenarios.E_sem_rede " 2304400")
    as (nome & sigla & Hd & Hn & Hs).
  - intros n url p. reflexivity.
  - reflexivity.
  - exists nome, sigla. split; [exact Hd|]. split; [exact Hn|exact Hs].
Defined.

(** *** The IDEB tables *)

Section Tabelas.
Variable E : Ambiente.

Lemma linhas_onde_todas (f : linha_ideb -> string) v df :
  Forall (fun l => f l = v) (linhas_onde f v df).
Proof.
  apply Forall_forall. intros l Hl. apply list_elem_of_In in Hl.
  unfold linhas_onde in Hl. apply filter_In in Hl as [_ Hl].
  apply String.eqb_eq. exact Hl.
Qed.

Lemma linhas_onde_dentro (f : linha_ideb -> string) v df l :
  In l (linhas_onde f v df) -> In l df.
Proof. unfold linhas_onde. intros H. apply filter_In in H as [H _]. exact H. Qed.

End Tabelas.

(** X17. What [load_ideb] returns when it returns tables. Both files
    exist; the rows of the entity are never an empty table and come, with
    their segment normalised, from the two files. For a state they are
    exactly the rows of the state table whose [indicador_uf] is the
    abbreviation [UF_CODES] gives for the code, in the order of the file,
    and no state rows come beside them; for any other code they are
    exactly the rows of the municipal table with that code, in the order
    of the file, and the state rows are exactly those of the state table
    with the abbreviation of the first of them (none when that
    abbreviation is empty). The national statistics are grouped from the
    whole state table. *)
Theorem load_ideb_linhas (E : Ambiente) (ibge : string) (d : dados_ideb) :
  load_ideb E ibge = Some d ->
  exists mun_csv uf_csv,
    IDEB_MUN_CSV E = Some mun_csv /\ IDEB_UF_CSV E = Some uf_csv
    /\ brasil_stats d = map (normalizar_linha E) uf_csv
    /\ (forall l, In l (df_mun d) ->
          In l (map (normalizar_linha E) (mun_csv ++ uf_csv)))
    /\ (exists l ls, df_mun d = l :: ls)
    /\ if is_estado E ibge
       then df_uf d = None
            /\ exists nome sigla,
                 uf_lookup ibge UF_CODES = Some (nome, sigla)
                 /\ df_mun d
                    = List.filter (fun l => String.eqb (indicador_uf l) sigla)
                        (map (normalizar_linha E) uf_csv)
                 /\ Forall (fun l => indicador_uf l = sigla) (df_mun d)
       else df_mun d
            = List.filter (fun l => String.eqb (codigo_ibge l) ibge)
                (map (normalizar_linha E) mun_csv)
            /\ Forall (fun l => codigo_ibge l = ibge) (df_mun d)
            /\ exists l0 rows,
                 head (df_mun d) = Some l0
                 /\ df_uf d = Some rows
                 /\ rows
                    = (if String.eqb (indicador_uf l0) EmptyString then []
                       else List.filter
                              (fun l => String.eqb (indicador_uf l)
                                          (indicador_uf l0))
                              (map (normalizar_linha E) uf_csv))
                 /\ Forall (fun l => indicador_uf l = indicador_uf l0) rows.
Proof.
  unfold load_ideb.
  destruct (IDEB_MUN_CSV E) as [mun_csv|]; [|discriminate].
  destruct (IDEB_UF_CSV E) as [uf_csv|]; [|discriminate].
  intros H. exists mun_csv, uf_csv.
  split; [reflexivity|]. split; [reflexivity|].
  destruct (is_estado E ibge).
  - destruct (uf_lookup ibge UF_CODES) as [[nome sigla]|] eqn:Huf.
    + destruct (String.eqb sigla EmptyString) eqn:Hs; [discriminate|].
      destruct (linhas_onde indicador_uf sigla (map (normalizar_linha E) uf_csv))
        as [|l ls] eqn:Hl; [discriminate|].
      injection H as <-. cbn [df_mun df_uf brasil_stats].
      split; [reflexivity|]. split; [|split; [eauto|]].
      * intros x Hx. rewrite <- Hl in Hx.
        apply linhas_onde_dentro in Hx. rewrite map_app. apply in_or_app. auto.
      * split; [reflexivity|]. exists nome, sigla. split; [reflexivity|].
        rewrite <- Hl. split; [reflexivity|apply linhas_onde_todas].
    + rewrite String.eqb_refl in H. discriminate.
  - destruct (linhas_onde codigo_ibge ibge (map (normalizar_linha E) mun_csv))
      as [|l ls] eqn:Hl; [discriminate|].
    injection H as <-. cbn [df_mun df_uf brasil_stats].
    split; [reflexivity|]. split; [|split; [eauto|]].
    + intros x Hx. rewrite <- Hl in Hx.
      apply linhas_onde_dentro in Hx. rewrite map_app. apply in_or_app. auto.
    + rewrite <- Hl. split; [reflexivity|]. split; [apply linhas_onde_todas|].
      rewrite Hl. exists l. eexists. split; [reflexivity|].
      split; [reflexivity|]. split; [reflexivity|].
      destruct (String.eqb _ _); [constructor|apply linhas_onde_todas].
Qed.

Lemma load_ideb_linhas_witness :
  exists d,
    load_ideb Cenarios.E_ideb_medio "23" = Some d
    /\ df_mun d = [normalizar_linha Cenarios.E_ideb_medio Cenarios.linha_ceara;
                   normalizar_linha Cenarios.E_ideb_medio
                     Cenarios.linha_ceara_medio]
    /\ df_uf d = None
    /\ exists mun_csv uf_csv,
         IDEB_MUN_CSV Cenarios.E_ideb_medio = Some mun_csv
         /\ IDEB_UF_CSV Cenarios.E_ideb_medio = Some uf_csv
         /\ df_mun d
            = List.filter (fun l => String.eqb (indicador_uf l) "CE")
                (map (normalizar_linha Cenarios.E_ideb_medio) uf_csv).
Proof.
  eexists. split; [vm_compute; reflexivity|].
  split; [vm_compute; reflexivity|]. split; [vm_compute; reflexivity|].
  destruct (load_ideb_linhas Cenarios.E_ideb_medio "23" _ eq_refl)
    as (mun_csv & uf_csv & Hm & Hu & _ & _ & _ & Hest).
  exists mun_csv, uf_csv. split; [exact Hm|]. split; [exact Hu|].
  change (is_estado Cenarios.E_ideb_medio "23") with true in Hest.
  destruct Hest as (_ & nome & sigla & Hl & Hf & _).
  vm_compute in Hl. injection Hl as _ <-. exact Hf.
Defined.

(** X18. The IDEB renderer reads the local tables only: its outcome is
    the same from every state and it leaves the state as it found it, so
    it issues no request; when one of the two files is missing, or
    [load_ideb] finds no row, the outcome is the header, the notice that
    there is no data and the footer. *)
Theorem gerar_txt_ideb_so_tabelas (E : Ambiente) (F : Formatadores)
        (ibge mun : string) (uf : json) :
  exists r,
    (forall w, gerar_txt_ideb E F ibge mun uf w = (r, w))
    /\ (IDEB_MUN_CSV E = None \/ IDEB_UF_CSV E = None
        \/ load_ideb E ibge = None ->
        r = ok (_hdr (agora E) "RELATÓRIO DE ANÁLISE IDEB" mun None None None None
                ++ nl ++ "  ⚠️ Sem dados IDEB disponíveis." ++ nl
                ++ _footer "IDEB/SAEB - INEP/MEC")).
Proof.
  assert (Hnada : IDEB_MUN_CSV E = None \/ IDEB_UF_CSV E = None
                  \/ load_ideb E ibge = None -> load_ideb E ibge = None).
  { unfold load_ideb. intros [H|[H|H]]; [rewrite H; reflexivity| |exact H].
    rewrite H. destruct (IDEB_MUN_CSV E); reflexivity. }
  unfold gerar_txt_ideb. destruct (load_ideb E ibge) as [d|].
  - unfold bind, lift, ret.
    destruct (ideb_esferas F d _ _) as [e|txt]; eexists; split;
      try (intros w; reflexivity); intros H; apply Hnada in H; discriminate H.
  - eexists. split; [intros w; reflexivity|]. intros _. reflexivity.
Qed.

(** *** File names and signs *)

Section Bytes.

Lemma tem_byte_app c s t : tem_byte c (s ++ t) = tem_byte c s || tem_byte c t.
Proof.
  induction s as [|a s IH]; [reflexivity|].
  rewrite app_cons. cbn [tem_byte]. rewrite IH. apply orb_assoc.
Qed.

Lemma prefix_vazio s : String.prefix EmptyString s = true.
Proof. destruct s; reflexivity. Qed.

(** A replacement brings in no byte that neither the text nor the new
    piece has. *)
Lemma replace_aux_sem c old new k s :
  tem_byte c new = false -> tem_byte c s = false ->
  tem_byte c (replace_aux old new k s) = false.
Proof.
  intros Hn. revert k. induction s as [|a r IH]; intros k Hs; [reflexivity|].
  cbn [tem_byte] in Hs. apply orb_false_iff in Hs as [Ha Hr].
  cbn [replace_aux]. destruct k as [|k]; [|apply IH, Hr].
  destruct (String.prefix old (String a r)).
  - rewrite tem_byte_app, Hn. apply IH, Hr.
  - cbn [tem_byte]. rewrite Ha. apply IH, Hr.
Qed.

Lemma replace_sem c old new s :
  tem_byte c new = false -> tem_byte c s = false ->
  tem_byte c (replace old new s) = false.
Proof. apply replace_aux_sem. Qed.

(** Replacing a byte by a piece without it removes the byte. *)
Lemma replace_remove c new s :
  tem_byte c new = false ->
  tem_byte c (replace (String c EmptyString) new s) = false.
Proof.
  intros Hn. unfold replace. induction s as [|a r IH]; [reflexivity|].
  cbn [replace_aux String.prefix]. destruct (ascii_dec c a) as [<-|Hca].
  - rewrite prefix_vazio, tem_byte_app, Hn. exact IH.
  - cbn [tem_byte]. rewrite IH, orb_false_r.
    apply Ascii.eqb_neq. congruence.
Qed.

End Bytes.

(** X19. The slug of a name holds no space, no slash and no apostrophe,
    so the file names [gerar_todos] builds from it have no path
    separator. *)
Theorem slug_sem_separadores (nome : string) :
  tem_byte " " (_slug nome) = false
  /\ tem_byte "/" (_slug nome) = false
  /\ tem_byte "'" (_slug nome) = false.
Proof.
  unfold _slug. split; [|split].
  - do 11 (apply replace_sem; [reflexivity|]).
    apply (replace_remove " "%char). reflexivity.
  - do 9 (apply replace_sem; [reflexivity|]).
    apply (replace_remove "/"%char). reflexivity.
  - do 10 (apply replace_sem; [reflexivity|]).
    apply (replace_remove "'"%char). reflexivity.
Qed.

(** X20. [_pp] prints a value with its sign: the text of a number opens
    with [+] or with [-], also for zero, infinities and NaN, and ends in
    [pp]. *)
Theorem pp_com_sinal (v : num) (decimais : nat) :
  exists corpo,
    _pp (Some v) decimais = "+" ++ corpo ++ "pp"
    \/ _pp (Some v) decimais = "-" ++ corpo ++ "pp".
Proof.
  unfold _pp, fixo, fixo_float.
  destruct (Prim2SF (to_float (escala_101 v))) as [[|]|[|]| |[|] m e];
    eexists; (left; reflexivity) || (right; reflexivity).
Qed.

(** *** Helpers of the renderers *)

Import Auxiliares.

Section Soma.

Lemma py_add_nunca_none a b : py_add a b <> ok JNull.
Proof.
  unfold py_add.
  destruct (como_num a) as [x|]; destruct (como_num b) as [y|];
    try (destruct (num_add x y); discriminate);
    destruct a; destruct b; discriminate.
Qed.

End Soma.

(** X21. [_adeq] on a dict record. A field counts as missing when it is
    absent or holds [None]. The share in [<disc>_adequado], when not
    missing, is returned as it is; otherwise the sum of the proficient and
    advanced shares, a missing one counting as 0; the answer is [None]
    exactly when the three fields are missing. A record that is not a
    dict raises [AttributeError]. *)
Theorem adeq_por_campos (kv : list (string * json)) (disc : string) :
  let a := default JNull (assoc (disc ++ "_adequado") kv) in
  let p := default JNull (assoc (disc ++ "_proficiente") kv) in
  let v := default JNull (assoc (disc ++ "_avancado") kv) in
  (_adeq (JObj kv) disc = ok JNull <-> e_none a && e_none p && e_none v = true)
  /\ (e_none a = false -> _adeq (JObj kv) disc = ok a)
  /\ (e_none a = true -> e_none p && e_none v = false ->
      _adeq (JObj kv) disc = py_add (py_or p (JInt 0)) (py_or v (JInt 0)))
  /\ (forall rec, tipo_de rec <> "dict" ->
        _adeq rec disc = raise (sem_atributo rec "get")).
Proof.
  intros a p v. unfold _adeq. cbn [py_get res_bind]. fold a p v.
  split; [|split; [|split]].
  - destruct (e_none a) eqn:Ha.
    + destruct (e_none p) eqn:Hp; destruct (e_none v) eqn:Hv; cbn [negb orb andb];
        try (split; [intros H; exfalso; exact (py_add_nunca_none _ _ H)
                    |discriminate]).
      split; reflexivity.
    + cbn [andb]. split; [|discriminate]. intros H. injection H as H.
      rewrite H in Ha. discriminate Ha.
  - intros Ha. rewrite Ha. reflexivity.
  - intros Ha H. rewrite Ha.
    destruct (e_none p); destruct (e_none v); try discriminate H; reflexivity.
  - intros rec Hrec. destruct rec; try reflexivity. exfalso. apply Hrec.
    reflexivity.
Qed.

(** X22. [_get_rendimento] reads the three rates of a record from the
    record itself when it has no key [rendimento], a rate that is absent
    being [None]; a record that holds such a flat record under
    [rendimento] gives the same three rates, whatever else it holds; and a
    record whose [rendimento] is [None] raises [AttributeError]. *)
Theorem rendimento_aninhado_ou_plano (kv : list (string * json)) :
  assoc "rendimento" kv = None ->
  _get_rendimento (JObj kv)
  = ok (default JNull (assoc "aprovados" kv),
        default JNull (assoc "reprovados" kv),
        default JNull (assoc "abandonos" kv))
  /\ (forall envolto, assoc "rendimento" envolto = Some (JObj kv) ->
        _get_rendimento (JObj envolto) = _get_rendimento (JObj kv))
  /\ (forall envolto, assoc "rendimento" envolto = Some JNull ->
        _get_rendimento (JObj envolto) = raise (sem_atributo JNull "get")).
Proof.
  intros Hk. unfold _get_rendimento. cbn [py_get res_bind]. rewrite Hk.
  split; [reflexivity|]. split; intros envolto H; rewrite H; reflexivity.
Qed.

Lemma rendimento_aninhado_ou_plano_witness :
  _get_rendimento (JObj [("aprovados", JFloat 0.96); ("abandonos", JInt 0)])
  = ok (default JNull (assoc "aprovados"
                         [("aprovados", JFloat 0.96); ("abandonos", JInt 0)]),
        default JNull (assoc "reprovados"
                         [("aprovados", JFloat 0.96); ("abandonos", JInt 0)]),
        default JNull (assoc "abandonos"
                         [("aprovados", JFloat 0.96); ("abandonos", JInt 0)]))
  /\ (forall envolto,
        assoc "rendimento" envolto
        = Some (JObj [("aprovados", JFloat 0.96); ("abandonos", JInt 0)]) ->
        _get_rendimento (JObj envolto)
        = _get_rendimento (JObj [("aprovados", JFloat 0.96); ("abandonos", JInt 0)]))
  /\ (forall envolto, assoc "rendimento" envolto = Some JNull ->
        _get_rendimento (JObj envolto) = raise (sem_atributo JNull "get")).
Proof.
  apply (rendimento_aninhado_ou_plano
           [("aprovados", JFloat 0.96); ("abandonos", JInt 0)]).
  reflexivity.
Defined.

Section UltimoRegistro.

Lemma ultimo_maior_spec k x resto :
  exists antes a r depois,
    (k, x) :: resto = (antes ++ (a, r) :: depois)%list
    /\ Forall (fun q => fst q <= a) antes
    /\ Forall (fun q => fst q < a) depois
    /\ ultimo_maior k x resto = r.
Proof.
  revert k x. induction resto as [|[k' x'] resto IH]; intros k x.
  - exists [], k, x, []. repeat split; constructor.
  - cbn [ultimo_maior]. destruct (Z.leb_spec k k') as [Hle|Hgt].
    + destruct (IH k' x') as (antes & a & r & depois & Heq & Ha & Hd & Hr).
      exists ((k, x) :: antes), a, r, depois.
      split; [cbn; rewrite Heq; reflexivity|]. split; [|split; assumption].
      constructor; [|exact Ha]. cbn [fst].
      destruct antes as [|q antes].
      * injection Heq as <- _. exact Hle.
      * injection Heq as <- _. apply Forall_cons in Ha as [Ha _].
        cbn [fst] in Ha. lia.
    + destruct (IH k x) as (antes & a & r & depois & Heq & Ha & Hd & Hr).
      destruct antes as [|q antes].
      * injection Heq as <- <- <-.
        exists [], k, x, ((k', x') :: resto).
        split; [reflexivity|]. split; [constructor|]. split; [|exact Hr].
        constructor; [cbn [fst]; lia|exact Hd].
      * injection Heq as <- Heq.
        exists ((k, x) :: (k', x') :: antes), a, r, depois.
        split; [cbn; rewrite Heq; reflexivity|]. split; [|split; assumption].
        apply Forall_cons in Ha as [Hk Ha]. cbn [fst] in Hk.
        constructor; [exact Hk|]. constructor; [cbn [fst]; lia|exact Ha].
Qed.

Lemma inteiros_map anos : inteiros (map JInt anos) = Some anos.
Proof.
  induction anos as [|a r IH]; [reflexivity|].
  cbn [map inteiros]. rewrite IH. reflexivity.
Qed.

Lemma chaves_ano_length regs ks :
  chaves_ano regs = ok ks -> length ks = length regs.
Proof.
  revert ks. induction regs as [|x r IH]; intros ks H; cbn [chaves_ano] in H.
  - injection H as <-. reflexivity.
  - destruct (py_get x "ano" (JInt 0)) as [e|k]; [discriminate H|].
    cbn [res_bind] in H. destruct (chaves_ano r) as [e|ks']; [discriminate H|].
    cbn [res_bind] in H. injection H as <-. cbn [length]. rewrite (IH ks');
      reflexivity.
Qed.

End UltimoRegistro.

(** X23. [_get_ultimo_reg] on a non-empty list of records whose years are
    integers (a record without [ano] counting as year 0) returns the
    record of the most recent year and, when several records carry that
    year, the last of them in the list: no record before it is more
    recent and every record after it is older. *)
Theorem ultimo_reg_mais_recente
        (sorted_ultimo : list json -> list json -> res json)
        (regs : list json) (anos : list Z) :
  regs <> [] ->
  chaves_ano regs = ok (map JInt anos) ->
  exists antes a r depois,
    _get_ultimo_reg sorted_ultimo (JArr regs) = ok r
    /\ combine anos regs = (antes ++ (a, r) :: depois)%list
    /\ Forall (fun q => fst q <= a) antes
    /\ Forall (fun q => fst q < a) depois.
Proof.
  intros Hne Hk. destruct regs as [|x r]; [congruence|].
  pose proof (chaves_ano_length _ _ Hk) as Hl. rewrite length_map in Hl.
  destruct anos as [|k kr]; [discriminate Hl|].
  unfold _get_ultimo_reg. rewrite Hk. cbn [res_bind].
  rewrite inteiros_map.
  destruct (ultimo_maior_spec k x (combine kr r))
    as (antes & a & r' & depois & Heq & Ha & Hd & Hr).
  exists antes, a, r', depois. rewrite Hr. cbn [combine]. auto.
Qed.

Lemma ultimo_reg_mais_recente_witness :
  exists antes a r depois,
    _get_ultimo_reg Exemplos.sort_recusa
      (JArr [Exemplos.reg_2023_a; Exemplos.reg_2021; Exemplos.reg_2023_b])
    = ok r
    /\ r = Exemplos.reg_2023_b
    /\ combine [2023; 2021; 2023]
               [Exemplos.reg_2023_a; Exemplos.reg_2021; Exemplos.reg_2023_b]
       = (antes ++ (a, r) :: depois)%list
    /\ Forall (fun q => fst q <= a) antes
    /\ Forall (fun q => fst q < a) depois.
Proof.
  destruct (ultimo_reg_mais_recente Exemplos.sort_recusa
              [Exemplos.reg_2023_a; Exemplos.reg_2021; Exemplos.reg_2023_b]
              [2023; 2021; 2023])
    as (antes & a & r & depois & Hr & Hc & Ha & Hd).
  - discriminate.
  - reflexivity.
  - exists antes, a, r, depois. split; [exact Hr|].
    split; [|split; [exact Hc|split; [exact Ha|exact Hd]]].
    vm_compute in Hr. injection Hr as <-. reflexivity.
Defined.

(** *** Enrolments of the census *)

Section Matriculas.

Lemma dict_set_novo {A} (k : string) (v : A) d :
  ~ In k (map fst d) -> dict_set k v d = (d ++ [(k, v)])%list.
Proof.
  induction d as [|[k' v'] r IH]; intros Hk; [reflexivity|].
  cbn [dict_set]. destruct (String.eqb_spec k k') as [->|Hne].
  - exfalso. apply Hk. left. reflexivity.
  - cbn [app]. rewrite IH; [reflexivity|]. intros H. apply Hk. right. exact H.
Qed.

Lemma presentes_rotulos kv campos l :
  In l (map fst (presentes kv campos)) -> In l (map snd campos).
Proof.
  induction campos as [|[campo label] r IH]; [intros []|].
  cbn [presentes map snd].
  destruct (default JNull (assoc campo kv)); cbn [map fst In];
    try (intros [H|H]; [left; exact H|right; apply IH, H]).
  intros H. right. apply IH, H.
Qed.

Lemma soma_valores_app total vs ws t :
  soma_valores total vs = Some t ->
  soma_valores total (vs ++ ws) = soma_valores t ws.
Proof.
  revert total. induction vs as [|v r IH]; intros total H; cbn [soma_valores] in *.
  - injection H as <-. reflexivity.
  - cbn [app soma_valores]. destruct (como_num v); [|discriminate H].
    apply IH, H.
Qed.

Lemma presentes_cons kv campo label r :
  presentes kv ((campo, label) :: r)
  = if e_none (default JNull (assoc campo kv)) then presentes kv r
    else (label, default JNull (assoc campo kv)) :: presentes kv r.
Proof. cbn [presentes]. destruct (default JNull (assoc campo kv)); reflexivity. Qed.

Lemma somar_matriculas_spec kv campos acc total mat t :
  NoDup (map snd campos) ->
  (forall l, In l (map fst acc) -> ~ In l (map snd campos)) ->
  somar_matriculas (JObj kv) campos acc total = ok (mat, t) ->
  mat = (acc ++ presentes kv campos)%list
  /\ soma_valores total (map snd (presentes kv campos)) = Some t.
Proof.
  revert acc total. induction campos as [|[campo label] r IH];
    intros acc total Hnd Hdis H.
  - cbn [somar_matriculas presentes] in *. injection H as <- <-.
    rewrite app_nil_r. auto.
  - rewrite presentes_cons. cbn [somar_matriculas py_get res_bind] in H.
    cbn [map snd] in Hnd, Hdis. apply NoDup_cons in Hnd as [Hl Hnd].
    set (v := default JNull (assoc campo kv)) in *.
    destruct (e_none v).
    + apply IH; [exact Hnd| |exact H].
      intros l Hl' Hin. apply (Hdis l Hl'). right. exact Hin.
    + destruct (somar_total total v) as [e|t'] eqn:Hst; [discriminate H|].
      cbn [res_bind] in H. unfold somar_total in Hst.
      destruct (como_num v) as [y|] eqn:Hy; [|discriminate Hst].
      injection Hst as <-.
      rewrite dict_set_novo in H
        by (intros Hin; apply (Hdis label Hin); left; reflexivity).
      apply IH in H.
      * destruct H as [-> Hs]. split; [rewrite <- app_assoc; reflexivity|].
        cbn [map snd soma_valores]. rewrite Hy. exact Hs.
      * exact Hnd.
      * intros l' Hl' Hin. rewrite map_app in Hl'. apply in_app_or in Hl'.
        destruct Hl' as [Hl'|Hl'].
        -- apply (Hdis l' Hl'). right. exact Hin.
        -- cbn in Hl'. destruct Hl' as [<-|[]].
           apply Hl. apply list_elem_of_In. exact Hin.
Qed.

End Matriculas.

(** X24. The census entry of the structured data. Whenever it is built,
    [matriculas] lists, by label and in the order of [CAMPOS_MATRICULA],
    exactly the stages whose field is present with a value other than
    [None], and [total_matriculas] is the sum of the listed values. It is
    built only from a dict. *)
Theorem censo_total_e_soma (c : json) (ano_c : Z) (r : json) :
  censo_estruturado c ano_c = ok r ->
  exists kv total,
    c = JObj kv
    /\ r = JObj [("ano", JInt ano_c);
                 ("qtd_escolas", default JNull (assoc "qtd_escolas" kv));
                 ("matriculas", JObj (presentes kv CAMPOS_MATRICULA));
                 ("total_matriculas", num_json total)]
    /\ soma_valores (PyInt 0) (map snd (presentes kv CAMPOS_MATRICULA))
       = Some total.
Proof.
  unfold censo_estruturado. intros H.
  destruct c as [| | | | | |kv]; try discriminate H.
  cbn [py_get res_bind] in H.
  destruct (somar_matriculas (JObj kv) CAMPOS_MATRICULA [] (PyInt 0))
    as [e|[mat total]] eqn:Hs; [discriminate H|].
  cbn [res_bind] in H. injection H as <-.
  apply somar_matriculas_spec in Hs.
  - destruct Hs as [-> Hs]. exists kv, total. auto.
  - apply (bool_decide_unpack _). vm_compute. reflexivity.
  - intros l [].
Qed.

Lemma censo_total_e_soma_witness :
  exists kv total,
    Exemplos.censo_pequeno = JObj kv
    /\ JObj [("ano", JInt 2024); ("qtd_escolas", JInt 12);
             ("matriculas", JObj [("Creche", JInt 340); ("EJA", JInt 25)]);
             ("total_matriculas", JInt 365)]
       = JObj [("ano", JInt 2024);
               ("qtd_escolas", default JNull (assoc "qtd_escolas" kv));
               ("matriculas", JObj (presentes kv CAMPOS_MATRICULA));
               ("total_matriculas", num_json total)]
    /\ soma_valores (PyInt 0) (map snd (presentes kv CAMPOS_MATRICULA))
       = Some total.
Proof.
  apply (censo_total_e_soma Exemplos.censo_pequeno 2024). reflexivity.
Defined.

(** *** History of the rates *)

Section Historia.
Variable E : Ambiente.
Variables ibge ciclo : string.
Variables dep loc : Z.

Let vazio (w : mundo) (y : Z) : Prop :=
  vazio_em taxa_presente w (url_taxa ibge) (params_taxa y dep ciclo loc).

Lemma ano_set_novo a v (d : list (Z * json)) :
  a ∉ map fst d -> ano_set a v d = (d ++ [(a, v)])%list.
Proof.
  induction d as [|[a' v'] r IH]; intros Ha; [reflexivity|].
  cbn [ano_set]. cbn [map fst] in Ha. apply not_elem_of_cons in Ha as [Hne Ha].
  destruct (Z.eqb_spec a a') as [->|_]; [congruence|].
  cbn [app]. rewrite IH by exact Ha. reflexivity.
Qed.

Lemma entrada_estende w w' q :
  estende w w' -> entrada_do_historico w ibge ciclo dep loc q ->
  entrada_do_historico w' ibge ciclo dep loc q.
Proof.
  intros He (d & Hp & Ht & Hq). exists d. split; [|auto].
  eapply payload_estende; eassumption.
Qed.

Lemma historico_em_spec anos antes acc w res w' :
  NoDup (antes ++ anos)%list ->
  sublist (map fst acc) antes ->
  (length acc < 3)%nat ->
  Forall (entrada_do_historico w ibge ciclo dep loc) acc ->
  Forall (fun y => y ∈ map fst acc \/ vazio w y) antes ->
  fetch_taxa_historico_em E ibge ciclo dep loc anos acc w = (ok res, w') ->
  (length res <= 3)%nat
  /\ sublist (map fst res) (antes ++ anos)%list
  /\ Forall (entrada_do_historico w' ibge ciclo dep loc) res
  /\ ((length res < 3)%nat ->
      Forall (fun y => y ∈ map fst res \/ vazio w' y) (antes ++ anos)%list).
Proof.
  revert antes acc w. induction anos as [|a r IH];
    intros antes acc w Hnd Hsub Hlen Hacc Hant Hrun.
  - cbn [fetch_taxa_historico_em] in Hrun. injection Hrun as <- <-.
    rewrite app_nil_r. split; [lia|]. auto.
  - cbn [fetch_taxa_historico_em] in Hrun. unfold bind at 1 in Hrun.
    destruct (fetch_json_passo E (url_taxa ibge) (params_taxa a dep ciclo loc) w)
      as (d & w1 & Hf & He & Hp & _).
    rewrite Hf in Hrun. unfold bind at 1, lift at 1 in Hrun.
    destruct (taxa_presente d) as [e|tem] eqn:Ht; [discriminate Hrun|].
    assert (Ha : a ∉ map fst acc).
    { intros Hin. apply NoDup_app in Hnd as (_ & Hdis & _).
      apply (Hdis a); [|left; reflexivity].
      eapply elem_of_sublist; eassumption. }
    assert (Hnd' : NoDup ((antes ++ [a]) ++ r)%list)
      by (rewrite <- app_assoc; exact Hnd).
    assert (Hacc1 : Forall (entrada_do_historico w1 ibge ciclo dep loc) acc).
    { eapply Forall_impl; [exact Hacc|]. intros q. apply entrada_estende, He. }
    replace (antes ++ a :: r)%list with ((antes ++ [a]) ++ r)%list
      by (rewrite <- app_assoc; reflexivity).
    destruct tem.
    + rewrite (ano_set_novo a _ acc Ha) in Hrun.
      set (acc' := (acc ++ [(a, _normalizar_taxa_keys d)])%list) in *.
      assert (Hl' : length acc' = S (length acc))
        by (unfold acc'; rewrite length_app; cbn; lia).
      assert (Hsub' : sublist (map fst acc') (antes ++ [a])%list).
      { unfold acc'. rewrite map_app. apply sublist_app; [exact Hsub|reflexivity]. }
      assert (Hacc' : Forall (entrada_do_historico w1 ibge ciclo dep loc) acc').
      { unfold acc'. apply Forall_app. split; [exact Hacc1|].
        constructor; [|constructor]. exists d. auto. }
      destruct (Nat.leb_spec 3 (length acc')) as [H3|H3].
      * injection Hrun as <- <-. split; [lia|]. split.
        { apply sublist_inserts_r. exact Hsub'. }
        split; [exact Hacc'|]. intros H. lia.
      * apply (IH (antes ++ [a])%list acc' w1); try assumption.
        apply Forall_app. split.
        -- eapply Forall_impl; [exact Hant|]. intros y [Hy|Hy].
           ++ left. unfold acc'. rewrite map_app. apply elem_of_app. auto.
           ++ right. eapply vazio_em_estende; eassumption.
        -- constructor; [|constructor]. left. unfold acc'. rewrite map_app.
           apply elem_of_app. right. cbn. apply list_elem_of_here.
    + destruct (Nat.leb_spec 3 (length acc)) as [H3|H3]; [lia|].
      apply (IH (antes ++ [a])%list acc w1); try assumption.
      * apply sublist_inserts_r. exact Hsub.
      * apply Forall_app. split.
        -- eapply Forall_impl; [exact Hant|]. intros y [Hy|Hy]; [auto|].
           right. eapply vazio_em_estende; eassumption.
        -- constructor; [|constructor]. right. exists d. auto.
Qed.

End Historia.

Lemma par_de_fst {A B} (p : A * B) (a : A) : fst p = a -> p = (a, snd p).
Proof. destruct p. cbn. intros ->. reflexivity. Qed.

(** X25. [fetch_taxa_historico], when it returns, holds at most three
    entries. Their years are among the eight candidate years, most recent
    first and each once, and each entry is the normalised form of the
    payload cached for its year, which passed the test of the fetcher.
    With fewer than three entries, every other candidate year was asked
    and had no data. *)
Theorem historico_tres_anos (E : Ambiente) (ibge ciclo : string)
        (dep loc : Z) (w : mundo) (res : list (Z * json)) (w' : mundo) :
  fetch_taxa_historico E ibge ciclo dep loc w = (ok res, w') ->
  (length res <= 3)%nat
  /\ sublist (map fst res) (_anos_candidatos E 8)
  /\ NoDup (map fst res)
  /\ Forall (entrada_do_historico w' ibge ciclo dep loc) res
  /\ ((length res < 3)%nat ->
      Forall (fun y => y ∈ map fst res
                       \/ vazio_em taxa_presente w' (url_taxa ibge)
                            (params_taxa y dep ciclo loc))
             (_anos_candidatos E 8)).
Proof.
  intros H.
  destruct (historico_em_spec E ibge ciclo dep loc (_anos_candidatos E 8)
              [] [] w res w') as (H1 & H2 & H3 & H4).
  - apply anos_candidatos_nodup.
  - reflexivity.
  - cbn. lia.
  - constructor.
  - constructor.
  - exact H.
  - cbn [app] in *. split; [exact H1|]. split; [exact H2|].
    split; [|split; assumption].
    eapply sublist_NoDup; [apply anos_candidatos_nodup|exact H2].
Qed.

Lemma historico_tres_anos_witness :
  let run := fetch_taxa_historico Exemplos.E_taxa_historica "2304400" "AI" 0 0
               mundo_inicial in
  exists res,
    fst run = ok res
    /\ map fst res = [2025; 2023; 2022]
    /\ (length res <= 3)%nat
    /\ sublist (map fst res) (_anos_candidatos Exemplos.E_taxa_historica 8)
    /\ NoDup (map fst res)
    /\ Forall (entrada_do_historico (snd run) "2304400" "AI" 0 0) res
    /\ ((length res < 3)%nat ->
        Forall (fun y => y ∈ map fst res
                         \/ vazio_em taxa_presente (snd run) (url_taxa "2304400")
                              (params_taxa y 0 "AI" 0))
               (_anos_candidatos Exemplos.E_taxa_historica 8)).
Proof.
  intros run. eexists. split; [vm_compute; reflexivity|].
  split; [reflexivity|].
  apply (historico_tres_anos Exemplos.E_taxa_historica "2304400" "AI" 0 0
           mundo_inicial).
  apply par_de_fst. vm_compute. reflexivity.
Defined.

(** *** Shape of the structured data *)

Section Forma.
Variable E : Ambiente.
Variable F : Formatadores.

Lemma bind_ok {A B} (m : M A) (k : A -> M B) w r w' :
  bind m k w = (ok r, w') ->
  exists a w1, m w = (ok a, w1) /\ k a w1 = (ok r, w').
Proof.
  unfold bind. destruct (m w) as [[e|a] w1]; [discriminate|]. eauto.
Qed.

Lemma com_secao_forma nome secao base extras :
  ~ In nome (map fst (base ++ extras)) ->
  exists mais,
    com_secao nome secao (base ++ extras) = (base ++ extras ++ mais)%list
    /\ (mais = [] \/ map fst mais = [nome]).
Proof.
  intros Hn. unfold com_secao. destruct secao as [|s ss].
  - exists []. rewrite app_nil_r. auto.
  - rewrite dict_set_novo by exact Hn. rewrite <- app_assoc. eauto.
Qed.

Lemma dict_set_forma nome (v : json) base extras :
  ~ In nome (map fst (base ++ extras)) ->
  dict_set nome v (base ++ extras) = (base ++ extras ++ [(nome, v)])%list.
Proof. intros Hn. rewrite dict_set_novo by exact Hn. apply eq_sym, app_assoc. Qed.

End Forma.

(** X26. The structured data, whenever the collector returns them, are a
    dict that opens with [entidade], [uf] and [tipo], the last one
    [estado] for a state code and [municipio] otherwise; after them come
    only sections among [aprendizado], [censo], [infra] and
    [taxa_rendimento], in this order and each at most once. *)
Theorem dados_estruturados_forma (E : Ambiente) (F : Formatadores)
        (ibge mun : string) (uf r : json) (w w' : mundo) :
  coletar_dados_estruturados E F ibge mun uf w = (ok r, w') ->
  exists secoes,
    r = JObj ([("entidade", JStr mun); ("uf", uf);
               ("tipo", JStr (if is_estado E ibge then "estado"
                              else "municipio"))] ++ secoes)
    /\ sublist (map fst secoes)
               ["aprendizado"; "censo"; "infra"; "taxa_rendimento"].
Proof.
  unfold coletar_dados_estruturados. intros H.
  set (base := [("entidade", JStr mun); ("uf", uf);
                ("tipo", JStr (if is_estado E ibge then "estado"
                               else "municipio"))]) in *.
  apply bind_ok in H as (aprendizado & w1 & _ & H).
  apply bind_ok in H as ([raw_c ano_c] & w2 & _ & H).
  apply bind_ok in H as (tem_c & w3 & _ & H).
  apply bind_ok in H as (dados2 & w4 & Hc & H).
  apply bind_ok in H as ([raw_i ano_i] & w5 & _ & H).
  apply bind_ok in H as (dados3 & w6 & Hi & H).
  apply bind_ok in H as (taxa_d & w7 & _ & H).
  assert (Hr : r = JObj (com_secao "taxa_rendimento" taxa_d dados3))
    by (unfold ret in H; injection H as Hr _; symmetry; exact Hr).
  clear H.
  assert (H1 : exists s1, com_secao "aprendizado" aprendizado base
                          = (base ++ s1)%list
                          /\ sublist (map fst s1) ["aprendizado"]).
  { destruct (com_secao_forma "aprendizado" aprendizado base [])
      as (mais & Heq & Hm).
    - rewrite app_nil_r. cbn. intros [H|[H|[H|[]]]]; discriminate H.
    - rewrite app_nil_r in Heq. exists mais. split; [exact Heq|].
      destruct Hm as [-> | ->]; [apply sublist_nil_l|reflexivity]. }
  destruct H1 as (s1 & Hq1 & S1). rewrite Hq1 in Hc.
  assert (H2 : exists s2, dados2 = (base ++ s2)%list
                          /\ sublist (map fst s2) ["aprendizado"; "censo"]).
  { destruct tem_c.
    - apply bind_ok in Hc as (censo_d & w3' & _ & Hc).
      assert (Hd : dados2 = dict_set "censo" censo_d (base ++ s1)%list)
        by (unfold ret in Hc; injection Hc as Hd _; symmetry; exact Hd).
      rewrite Hd. exists (s1 ++ [("censo", censo_d)])%list. split.
      + apply dict_set_forma. rewrite map_app, in_app_iff. cbn.
        intros [[H|[H|[H|[]]]]|H]; try discriminate H.
        apply list_elem_of_In in H. apply (elem_of_sublist _ _ _ H) in S1.
        apply list_elem_of_singleton in S1. discriminate S1.
      + rewrite map_app. apply (sublist_app _ ["aprendizado"] _ ["censo"]);
          [exact S1|reflexivity].
    - assert (Hd : dados2 = (base ++ s1)%list)
        by (unfold ret in Hc; injection Hc as Hd _; symmetry; exact Hd).
      exists s1. split; [exact Hd|].
      apply (sublist_inserts_r ["censo"]) in S1. exact S1. }
  destruct H2 as (s2 & -> & S2).
  assert (H3 : exists s3, dados3 = (base ++ s3)%list
                          /\ sublist (map fst s3)
                               ["aprendizado"; "censo"; "infra"]).
  { destruct (truthy raw_i).
    - apply bind_ok in Hi as (infra_d & w5' & _ & Hi).
      assert (Hd : dados3 = dict_set "infra" infra_d (base ++ s2)%list)
        by (unfold ret in Hi; injection Hi as Hd _; symmetry; exact Hd).
      rewrite Hd. exists (s2 ++ [("infra", infra_d)])%list. split.
      + apply dict_set_forma. rewrite map_app, in_app_iff. cbn.
        intros [[H|[H|[H|[]]]]|H]; try discriminate H.
        apply list_elem_of_In in H. apply (elem_of_sublist _ _ _ H) in S2.
        rewrite !elem_of_cons, elem_of_nil in S2.
        destruct S2 as [S2|[S2|[]]]; discriminate S2.
      + rewrite map_app.
        apply (sublist_app _ ["aprendizado"; "censo"] _ ["infra"]);
          [exact S2|reflexivity].
    - assert (Hd : dados3 = (base ++ s2)%list)
        by (unfold ret in Hi; injection Hi as Hd _; symmetry; exact Hd).
      exists s2. split; [exact Hd|].
      apply (sublist_inserts_r ["infra"]) in S2. exact S2. }
  destruct H3 as (s3 & -> & S3).
  destruct (com_secao_forma "taxa_rendimento" taxa_d base s3)
    as (mais & Heq & Hm).
  { rewrite map_app, in_app_iff. cbn.
    intros [[H|[H|[H|[]]]]|H]; try discriminate H.
    apply list_elem_of_In in H. apply (elem_of_sublist _ _ _ H) in S3.
    rewrite !elem_of_cons, elem_of_nil in S3.
    destruct S3 as [S3|[S3|[S3|[]]]]; discriminate S3. }
  rewrite Hr, Heq. exists (s3 ++ mais)%list. split; [reflexivity|].
  rewrite map_app.
  apply (sublist_app _ ["aprendizado"; "censo"; "infra"] _ ["taxa_rendimento"]);
    [exact S3|].
  destruct Hm as [-> | ->]; [apply sublist_nil_l|reflexivity].
Qed.

Lemma dados_estruturados_forma_witness :
  exists secoes,
    JObj [("entidade", JStr "Ceará"); ("uf", JStr "CE"); ("tipo", JStr "estado")]
    = JObj ([("entidade", JStr "Ceará"); ("uf", JStr "CE");
             ("tipo", JStr (if is_estado Cenarios.E_sem_rede "23" then "estado"
                            else "municipio"))] ++ secoes)
    /\ sublist (map fst secoes)
               ["aprendizado"; "censo"; "infra"; "taxa_rendimento"].
Proof.
  apply (dados_estruturados_forma Cenarios.E_sem_rede Cenarios.F_recusa
           "23" "Ceará" (JStr "CE") _ mundo_inicial
           (snd (coletar_dados_estruturados Cenarios.E_sem_rede Cenarios.F_recusa
                   "23" "Ceará" (JStr "CE") mundo_inicial))).
  apply par_de_fst. vm_compute. reflexivity.
Defined.

(** *** Records of the learning payload, by territory *)

Section Separacao.
Variable F : Formatadores.
Variable ibge : string.

Let vai := Territorios.vai_para F ibge.

Lemma extrair_grupo_spec rs m e b m' e' b' :
  Territorios.extrair_grupo F ibge rs (m, e, b) = ok (m', e', b') ->
  let ds := List.filter Territorios.e_dict rs in
  m' = (m ++ List.filter (vai Territorios.ParaMun) ds)%list
  /\ e' = (e ++ List.filter (vai Territorios.ParaEst) ds)%list
  /\ b' = (b ++ List.filter (vai Territorios.ParaBr) ds)%list
  /\ Forall (fun r => exists d, Territorios.destino_de F ibge r = ok d) ds.
Proof.
  revert m e b. induction rs as [|r resto IH]; intros m e b H;
    cbn [Territorios.extrair_grupo List.filter] in *.
  - injection H as <- <- <-. rewrite !app_nil_r. repeat split. constructor.
  - destruct (Territorios.e_dict r); [|apply IH, H].
    destruct (Territorios.destino_de F ibge r) as [err|d] eqn:Hd;
      [discriminate H|].
    cbn [res_bind] in H. cbn [List.filter]. subst vai.
    unfold Territorios.vai_para. rewrite Hd.
    destruct d; cbn [Territorios.acrescentar Territorios.destino_eqb] in *;
      apply IH in H as (-> & -> & -> & Hf);
      rewrite <- ?app_assoc; repeat split; try reflexivity;
      constructor; eauto.
Qed.

Lemma extrair_grupos_spec gs m e b m' e' b' :
  Territorios.extrair_grupos F ibge gs (m, e, b) = ok (m', e', b') ->
  let ds := Territorios.registros (JArr gs) in
  m' = (m ++ List.filter (vai Territorios.ParaMun) ds)%list
  /\ e' = (e ++ List.filter (vai Territorios.ParaEst) ds)%list
  /\ b' = (b ++ List.filter (vai Territorios.ParaBr) ds)%list
  /\ Forall (fun r => exists d, Territorios.destino_de F ibge r = ok d) ds.
Proof.
  revert m e b. induction gs as [|g resto IH]; intros m e b H;
    cbn [Territorios.extrair_grupos Territorios.registros flat_map] in *.
  - injection H as <- <- <-. rewrite !app_nil_r. repeat split. constructor.
  - assert (Hpula : Territorios.extrair_grupos F ibge resto (m, e, b)
                    = ok (m', e', b') ->
                    m' = (m ++ List.filter (vai Territorios.ParaMun)
                                 ([] ++ Territorios.registros (JArr resto)))%list
                    /\ e' = (e ++ List.filter (vai Territorios.ParaEst)
                                    ([] ++ Territorios.registros (JArr resto)))%list
                    /\ b' = (b ++ List.filter (vai Territorios.ParaBr)
                                    ([] ++ Territorios.registros (JArr resto)))%list
                    /\ Forall (fun r => exists d,
                                   Territorios.destino_de F ibge r = ok d)
                              ([] ++ Territorios.registros (JArr resto))%list)
      by (intros H'; apply IH, H').
    destruct g as [| | | | |rs|]; try (apply Hpula, H).
    destruct (Territorios.extrair_grupo F ibge rs (m, e, b))
      as [err|[[m1 e1] b1]] eqn:Hg; [discriminate H|].
    cbn [res_bind] in H.
    apply extrair_grupo_spec in Hg as (-> & -> & -> & Hf1).
    apply IH in H as (-> & -> & -> & Hf2).
    cbn [Territorios.registros] in *.
    rewrite !List.filter_app, <- !app_assoc. repeat split; try reflexivity.
    apply Forall_app. split; assumption.
Qed.

End Separacao.

(** X27. [_extrair_territorios], when it returns, has gone through the
    dict records of the groups that are lists, in the order of the
    payload, and has put each one in at most one list: the entity's when
    the identifier of its territory prints as the code, else Brazil's
    when the identifier is 7, else the states' when the parent identifier
    is at most 27. Nothing else is in the lists, and a payload that is
    not a non-empty list gives three empty lists. *)
Theorem territorios_em_ordem (F : Formatadores) (dados : json) (ibge : string)
        (mun est br : list json) :
  Territorios._extrair_territorios F dados ibge = ok (mun, est, br) ->
  let regs := Territorios.registros dados in
  mun = List.filter (Territorios.vai_para F ibge Territorios.ParaMun) regs
  /\ est = List.filter (Territorios.vai_para F ibge Territorios.ParaEst) regs
  /\ br = List.filter (Territorios.vai_para F ibge Territorios.ParaBr) regs
  /\ Forall (fun r => exists d, Territorios.destino_de F ibge r = ok d) regs
  /\ (match dados with JArr (_ :: _) => True | _ => regs = [] end).
Proof.
  unfold Territorios._extrair_territorios.
  destruct dados as [| | | | |[|g gs]|]; intros H;
    try (injection H as <- <- <-; cbn; repeat split; constructor).
  apply extrair_grupos_spec in H as (-> & -> & -> & Hf).
  cbv zeta. repeat split; try reflexivity. exact Hf.
Qed.

Lemma territorios_em_ordem_witness :
  let regs := Territorios.registros Exemplos.aprendizado_pequeno in
  regs = [Exemplos.rec_br; Exemplos.rec_mun; Exemplos.rec_est]
  /\ [Exemplos.rec_mun]
     = List.filter (Territorios.vai_para Cenarios.F_recusa "2304400"
                      Territorios.ParaMun) regs
  /\ [Exemplos.rec_est]
     = List.filter (Territorios.vai_para Cenarios.F_recusa "2304400"
                      Territorios.ParaEst) regs
  /\ [Exemplos.rec_br]
     = List.filter (Territorios.vai_para Cenarios.F_recusa "2304400"
                      Territorios.ParaBr) regs
  /\ Forall (fun r => exists d,
                 Territorios.destino_de Cenarios.F_recusa "2304400" r = ok d)
            regs
  /\ True.
Proof.
  split; [reflexivity|].
  apply (territorios_em_ordem Cenarios.F_recusa Exemplos.aprendizado_pequeno
           "2304400" [Exemplos.rec_mun] [Exemplos.rec_est] [Exemplos.rec_br]).
  vm_compute. reflexivity.
Defined.
